(** * Amazing Marvin MCP server: the tool gateway

    A shallow embedding of [amazing_marvin_server.py]: the error
    normalizer, the timestamp and duration formatters, the truncation
    guard, the declarative input schemas, the request primitive and the
    tools built on them, followed by the properties of the gateway.

    Python values are modelled as follows.
    - [str] is a sequence of Unicode code points ([list N]); [len] and
      slicing count code points, as Python does.
    - [int] is [Z]; floor division and modulo are [Z.div] and [Z.modulo].
    - an exception is a value of [exn]; code that may raise returns a
      [result].
    - a [dict] is an association list in insertion order. *)

From Stdlib Require Import String Ascii Bool ZArith NArith DecimalN Lia List.
Import ListNotations.
Open Scope Z_scope.

Set Implicit Arguments.

(* ================================================================== *)
(** ** Python strings *)
(* ================================================================== *)

Module Py.

Definition char := N.
Definition str := list char.

(** An ASCII literal as a Python string. *)
Definition U (s : string) : str := map N_of_ascii (list_ascii_of_string s).

Definition nl : char := 10%N.
Definition comma : char := 44%N.
Definition minus : char := 45%N.

Definition len {A : Type} (s : list A) : Z := Z.of_nat (length s).

(** [a == b]. *)
Fixpoint str_eqb (a b : str) : bool :=
  match a, b with
  | [], [] => true
  | x :: a', y :: b' => N.eqb x y && str_eqb a' b'
  | _, _ => false
  end.

(** [s[:n]]: a negative bound counts from the end, and every bound is
    clamped to the string. *)
Definition slice_to (s : str) (n : Z) : str :=
  if n <? 0 then firstn (Z.to_nat (len s + n)) s else firstn (Z.to_nat n) s.

(** [s[i]] for a non-negative index, [None] out of range. *)
Definition char_at (s : str) (i : Z) : option char :=
  if i <? 0 then None else nth_error s (Z.to_nat i).

(** [s.rfind(c)] for a one-character needle: the highest index holding
    [c], or [-1]. *)
Fixpoint rfind_from (c : char) (s : str) (i acc : Z) : Z :=
  match s with
  | [] => acc
  | x :: r => rfind_from c r (i + 1) (if N.eqb x c then i else acc)
  end.

Definition rfind (c : char) (s : str) : Z := rfind_from c s 0 (-1).

(** [sep.join(lines)]. *)
Fixpoint join (sep : str) (lines : list str) : str :=
  match lines with
  | [] => []
  | [x] => x
  | x :: r => x ++ sep ++ join sep r
  end.

(** Decimal digits of a natural number, most significant first. *)
Fixpoint uint_chars (d : Decimal.uint) : str :=
  match d with
  | Decimal.Nil => []
  | Decimal.D0 d => 48%N :: uint_chars d
  | Decimal.D1 d => 49%N :: uint_chars d
  | Decimal.D2 d => 50%N :: uint_chars d
  | Decimal.D3 d => 51%N :: uint_chars d
  | Decimal.D4 d => 52%N :: uint_chars d
  | Decimal.D5 d => 53%N :: uint_chars d
  | Decimal.D6 d => 54%N :: uint_chars d
  | Decimal.D7 d => 55%N :: uint_chars d
  | Decimal.D8 d => 56%N :: uint_chars d
  | Decimal.D9 d => 57%N :: uint_chars d
  end.

Definition digits (n : N) : str := uint_chars (N.to_uint n).

(** [str(z)] for an [int]. *)
Definition str_of_int (z : Z) : str :=
  if z <? 0 then minus :: digits (Z.abs_N z) else digits (Z.to_N z).

(** Digits, least significant first, with a comma before every fourth,
    seventh, ... digit; [k] counts the digits since the last comma. *)
Fixpoint group3 (ds : str) (k : nat) : str :=
  match ds with
  | [] => []
  | d :: r =>
      match k with
      | 3%nat => comma :: d :: group3 r 1
      | _ => d :: group3 r (S k)
      end
  end.

Definition with_commas (ds : str) : str := rev (group3 (rev ds) 0).

(** [f"{z:,}"]. *)
Definition format_thousands (z : Z) : str :=
  if z <? 0 then minus :: with_commas (digits (Z.abs_N z))
  else with_commas (digits (Z.to_N z)).


Definition starts_with (p s : str) : Prop := exists rest, s = p ++ rest.

End Py.
Import Py.

(* ================================================================== *)
(** ** Exceptions *)
(* ================================================================== *)

(** The exception classes [_handle_api_error] tells apart.  A constructor
    stands for its class and the subclasses of it; [OtherException]
    carries [type(e).__name__] and [str(e)]. *)
Inductive exn : Type :=
| HTTPStatusError (status_code : Z) (body : str)
| TimeoutException
| ConnectError
| OtherException (type_name : str) (message : str).

Inductive result (A : Type) : Type :=
| Ok (a : A)
| Raise (e : exn).
Arguments Ok {A} a.
Arguments Raise {A} e.

Definition ValueError (msg : str) : exn := OtherException (U "ValueError") msg.
Definition TypeError (msg : str) : exn := OtherException (U "TypeError") msg.
Definition AttributeError (msg : str) : exn := OtherException (U "AttributeError") msg.
Definition OverflowError (msg : str) : exn := OtherException (U "OverflowError") msg.
Definition OSError (msg : str) : exn := OtherException (U "OSError") msg.

(* ================================================================== *)
(** ** Constants *)
(* ================================================================== *)

Definition API_BASE_URL : str := U "https://serv.amazingmarvin.com/api".
Definition CHARACTER_LIMIT : Z := 25000.

(* ================================================================== *)
(** ** Error normalizer *)
(* ================================================================== *)

Definition msg_invalid_token : str :=
  U "Error: Invalid API token. Please check your AMAZING_MARVIN_API_TOKEN "
  ++ U "environment variable is set correctly. Get your token at "
  ++ U "https://app.amazingmarvin.com/pre?api=".

Definition msg_permission_denied : str :=
  U "Error: Permission denied. This operation requires full access token. "
  ++ U "Set AMAZING_MARVIN_FULL_TOKEN environment variable if needed.".

Definition msg_not_found : str :=
  U "Error: Resource not found. Please check that the ID is correct and "
  ++ U "the item still exists in Amazing Marvin.".

Definition msg_rate_limit : str :=
  U "Error: Rate limit exceeded. Please wait a moment before making more "
  ++ U "requests to the Amazing Marvin API.".

Definition msg_server_error : str :=
  U "Error: Amazing Marvin server error. The service may be temporarily "
  ++ U "unavailable. Please try again in a few moments.".

Definition msg_status (status : Z) : str :=
  U "Error: API request failed with status " ++ str_of_int status
  ++ U ". Please try again.".

Definition msg_timeout : str :=
  U "Error: Request timed out. The Amazing Marvin API is taking too long to "
  ++ U "respond. Please try again.".

Definition msg_connect : str :=
  U "Error: Cannot connect to Amazing Marvin API. Please check your internet "
  ++ U "connection and try again.".

Definition msg_unexpected (type_name message : str) : str :=
  U "Error: Unexpected error occurred - " ++ type_name ++ U ": " ++ message.

Definition _handle_api_error (e : exn) : str :=
  match e with
  | HTTPStatusError status _ =>
      if status =? 401 then msg_invalid_token
      else if status =? 403 then msg_permission_denied
      else if status =? 404 then msg_not_found
      else if status =? 429 then msg_rate_limit
      else if status >=? 500 then msg_server_error
      else msg_status status
  | TimeoutException => msg_timeout
  | ConnectError => msg_connect
  | OtherException type_name message => msg_unexpected type_name message
  end.

(* ================================================================== *)
(** ** Truncation guard *)
(* ================================================================== *)

Definition truncation_notice (original_length : Z) : str :=
  [nl; nl] ++ U "---" ++ [nl]
  ++ U "**Response Truncated**: Showing partial results due to size limit ("
  ++ format_thousands original_length ++ U " characters). To see more:" ++ [nl]
  ++ U "- Use pagination with `limit` and `offset` parameters" ++ [nl]
  ++ U "- Add filters to narrow down results" ++ [nl]
  ++ U "- Request specific items by ID" ++ [nl].

Definition _truncate_response (content : str) (items_count : Z) : str :=
  if len content <=? CHARACTER_LIMIT then content
  else
    let truncated := slice_to content CHARACTER_LIMIT in
    let last_newline := rfind nl truncated in
    let truncated :=
      if last_newline >? 0 then slice_to truncated last_newline else truncated in
    truncated ++ truncation_notice (len content).

(* ================================================================== *)
(** ** Remote records *)
(* ================================================================== *)

(** A field value of a remote record.  The gateway reads scalar fields
    only ([_id], [title], [done], [dueDate], [day], [timeEstimate],
    [parentId], [note], [type]); numbers are integers (epoch or duration
    milliseconds). *)
Inductive value : Type :=
| VNone
| VBool (b : bool)
| VInt (z : Z)
| VStr (s : str).

Definition dict (V : Type) : Type := list (str * V).

Fixpoint dict_lookup {V : Type} (k : str) (d : dict V) : option V :=
  match d with
  | [] => None
  | (k', v) :: r => if str_eqb k' k then Some v else dict_lookup k r
  end.

(** [d[k] = v]: replaces the value of an existing key in place, appends
    a new key. *)
Fixpoint dict_set {V : Type} (k : str) (v : V) (d : dict V) : dict V :=
  match d with
  | [] => [(k, v)]
  | (k', v') :: r => if str_eqb k' k then (k, v) :: r else (k', v') :: dict_set k v r
  end.

Definition record : Type := dict value.

(** [r.get(k)] and [r.get(k, default)]. *)
Definition get (r : record) (k : string) : value :=
  match dict_lookup (U k) r with Some v => v | None => VNone end.

Definition get_default (r : record) (k : string) (default : value) : value :=
  match dict_lookup (U k) r with Some v => v | None => default end.

(** Truth value of [v] in a condition. *)
Definition truthy (v : value) : bool :=
  match v with
  | VNone => false
  | VBool b => b
  | VInt z => negb (z =? 0)
  | VStr s => match s with [] => false | _ => true end
  end.

(** [str(v)], which is what an f-string inserts. *)
Definition py_str (v : value) : str :=
  match v with
  | VNone => U "None"
  | VBool true => U "True"
  | VBool false => U "False"
  | VInt z => str_of_int z
  | VStr s => s
  end.

Definition type_name (v : value) : str :=
  match v with
  | VNone => U "NoneType"
  | VBool _ => U "bool"
  | VInt _ => U "int"
  | VStr _ => U "str"
  end.

(** The number a value stands for in arithmetic ([bool] is a subclass of
    [int]); [None] for a value arithmetic rejects. *)
Definition as_int (v : value) : option Z :=
  match v with
  | VInt z => Some z
  | VBool b => Some (Z.b2z b)
  | _ => None
  end.

Definition unsupported_operand (op : string) (v : value) : exn :=
  TypeError (U "unsupported operand type(s) for " ++ U op ++ U ": '"
             ++ type_name v ++ U "' and 'int'").

Definition not_subscriptable (v : value) : exn :=
  TypeError (U "'" ++ type_name v ++ U "' object is not subscriptable").

(** [v[:n]] on a field value. *)
Definition value_slice_to (v : value) (n : Z) : result str :=
  match v with
  | VStr s => Ok (slice_to s n)
  | _ => Raise (not_subscriptable v)
  end.

(** What a request to the remote API decodes to: [null], one record or a
    list of records. *)
Inductive payload : Type :=
| PNull
| PRecord (r : record)
| PRecords (l : list record).

Definition payload_truthy (p : payload) : bool :=
  match p with
  | PNull => false
  | PRecord r => match r with [] => false | _ => true end
  | PRecords l => match l with [] => false | _ => true end
  end.

Definition payload_len (p : payload) : result Z :=
  match p with
  | PNull => Raise (TypeError (U "object of type 'NoneType' has no len()"))
  | PRecord r => Ok (len r)
  | PRecords l => Ok (len l)
  end.

(** The records a [for] loop over the payload visits.  Iterating a
    non-empty record yields its keys, and the first [.get] on a key
    raises. *)
Definition payload_items (p : payload) : result (list record) :=
  match p with
  | PNull => Raise (TypeError (U "'NoneType' object is not iterable"))
  | PRecord [] => Ok []
  | PRecord (_ :: _) =>
      Raise (AttributeError (U "'str' object has no attribute 'get'"))
  | PRecords l => Ok l
  end.

(* ================================================================== *)
(** ** Result monad *)
(* ================================================================== *)

Definition bind {A B : Type} (m : result A) (f : A -> result B) : result B :=
  match m with
  | Ok a => f a
  | Raise e => Raise e
  end.

Notation "x <- m ;; k" := (bind m (fun x => k))
  (at level 61, m at next level, right associativity).

(** The body of a [for] loop run on every element in order; the first
    exception ends the loop. *)
Fixpoint for_each {A B : Type} (f : A -> result B) (l : list A) : result (list B) :=
  match l with
  | [] => Ok []
  | x :: r =>
      y <- f x ;;
      ys <- for_each f r ;;
      Ok (y :: ys)
  end.

(* ================================================================== *)
(** ** Calendar dates ([datetime]) *)
(* ================================================================== *)

Module Datetime.

(** A naive [datetime]: milliseconds of wall-clock time since
    1970-01-01T00:00:00.  The timestamps of the remote API are whole
    milliseconds, so nothing finer is needed. *)
Definition datetime := Z.

Definition MS_PER_DAY : Z := 86400000.

(** Day number (0 is 1970-01-01) of a proleptic Gregorian date. *)
Definition days_from_civil (y m d : Z) : Z :=
  let y := if m <=? 2 then y - 1 else y in
  let era := y / 400 in
  let yoe := y - era * 400 in
  let doy := (153 * (if m >? 2 then m - 3 else m + 9) + 2) / 5 + d - 1 in
  let doe := yoe * 365 + yoe / 4 - yoe / 100 + doy in
  era * 146097 + doe - 719468.

(** Year, month and day of a day number. *)
Definition civil_from_days (z : Z) : Z * Z * Z :=
  let z := z + 719468 in
  let era := z / 146097 in
  let doe := z - era * 146097 in
  let yoe := (doe - doe / 1460 + doe / 36524 - doe / 146096) / 365 in
  let y := yoe + era * 400 in
  let doy := doe - (365 * yoe + yoe / 4 - yoe / 100) in
  let mp := (5 * doy + 2) / 153 in
  let d := doy - (153 * mp + 2) / 5 + 1 in
  let m := if mp <? 10 then mp + 3 else mp - 9 in
  (if m <=? 2 then y + 1 else y, m, d).

Definition is_leap (y : Z) : bool :=
  ((y mod 4 =? 0) && negb (y mod 100 =? 0)) || (y mod 400 =? 0).

Definition days_in_month (y m : Z) : Z :=
  if m =? 2 then (if is_leap y then 29 else 28)
  else if (m =? 4) || (m =? 6) || (m =? 9) || (m =? 11) then 30
  else 31.

(** [datetime.min] and [datetime.max], to the millisecond. *)
Definition MIN : datetime := days_from_civil 1 1 1 * MS_PER_DAY.
Definition MAX : datetime := (days_from_civil 9999 12 31 + 1) * MS_PER_DAY - 1.

Definition year_of (dt : datetime) : Z := fst (fst (civil_from_days (dt / MS_PER_DAY))).

Definition two_digits (n : Z) : str :=
  if n <? 10 then 48%N :: str_of_int n else str_of_int n.

(** [dt.strftime("%Y-%m-%d")]; the year of a [datetime] from
    [fromtimestamp] of a present-day timestamp has four digits. *)
Definition strftime_ymd (dt : datetime) : str :=
  let '(y, m, d) := civil_from_days (dt / MS_PER_DAY) in
  str_of_int y ++ [minus] ++ two_digits m ++ [minus] ++ two_digits d.

(** [(a - b).days]: a [timedelta] is normalised with a non-negative
    time of day, so its [days] is the floor of the difference. *)
Definition timedelta_days (a b : datetime) : Z := (a - b) / MS_PER_DAY.

End Datetime.
Import Datetime.

(* ================================================================== *)
(** ** JSON documents ([json.dumps]) *)
(* ================================================================== *)

#[warnings="-register-all"]
Inductive json : Type :=
| JNull
| JBool (b : bool)
| JInt (z : Z)
| JStr (s : str)
| JList (l : list json)
| JDict (d : list (str * json)).

Definition json_of_value (v : value) : json :=
  match v with
  | VNone => JNull
  | VBool b => JBool b
  | VInt z => JInt z
  | VStr s => JStr s
  end.

Module Json.

Definition hex_digit (d : N) : char :=
  if (d <? 10)%N then (48 + d)%N else (87 + d)%N.

(** [format(n, "04x")] for [n < 0x10000]. *)
Definition hex4 (n : N) : str :=
  [hex_digit (N.shiftr n 12 mod 16); hex_digit (N.shiftr n 8 mod 16);
   hex_digit (N.shiftr n 4 mod 16); hex_digit (n mod 16)].

Definition backslash : char := 92%N.

Definition escape_char (c : char) : str :=
  if (c =? 34)%N then [backslash; 34%N]
  else if (c =? 92)%N then [backslash; backslash]
  else if (c =? 10)%N then backslash :: U "n"
  else if (c =? 13)%N then backslash :: U "r"
  else if (c =? 9)%N then backslash :: U "t"
  else if (c =? 8)%N then backslash :: U "b"
  else if (c =? 12)%N then backslash :: U "f"
  else if ((32 <=? c) && (c <=? 126))%N then [c]
  else if (c <? 65536)%N then backslash :: U "u" ++ hex4 c
  else
    let n := (c - 65536)%N in
    let s1 := N.lor 55296 (N.land (N.shiftr n 10) 1023) in
    let s2 := N.lor 56320 (N.land n 1023) in
    backslash :: U "u" ++ hex4 s1 ++ backslash :: U "u" ++ hex4 s2.

(** A string literal with [ensure_ascii]. *)
Definition encode_str (s : str) : str :=
  [34%N] ++ flat_map escape_char s ++ [34%N].

Definition newline_indent (level : nat) : str :=
  nl :: concat (repeat (U "  ") level).

(** [json.dumps(j, indent=2)] of a value nested [level] containers deep. *)
Fixpoint dumps_at (level : nat) (j : json) : str :=
  match j with
  | JNull => U "null"
  | JBool true => U "true"
  | JBool false => U "false"
  | JInt z => str_of_int z
  | JStr s => encode_str s
  | JList [] => U "[]"
  | JList l =>
      U "[" ++ newline_indent (S level)
      ++ join (comma :: newline_indent (S level)) (map (dumps_at (S level)) l)
      ++ newline_indent level ++ U "]"
  | JDict [] => U "{}"
  | JDict d =>
      U "{" ++ newline_indent (S level)
      ++ join (comma :: newline_indent (S level))
           (map (fun kv => encode_str (fst kv) ++ U ": " ++ dumps_at (S level) (snd kv)) d)
      ++ newline_indent level ++ U "}"
  end.

Definition dumps (j : json) : str := dumps_at 0 j.

End Json.

(* ================================================================== *)
(** ** The world outside the gateway *)
(* ================================================================== *)

(** The two calls [_make_api_request] makes on the HTTP client. *)
Inductive http_call : Type :=
| HttpGet (url : str) (headers : dict str) (params : option (dict str))
| HttpPost (url : str) (headers : dict str) (json_body : option json).

(** What a tool invocation depends on besides its input: the
    credentials, the clock (milliseconds since the epoch), the local
    time zone (its offset from UTC at an instant, in milliseconds), and
    the remote API, which answers a request with a decoded payload or
    with the exception the client raises ([raise_for_status]
    included). *)
Record env : Type := {
  API_TOKEN : str;
  AMAZING_MARVIN_FULL_TOKEN : str;
  now_ms : Z;
  utc_offset : Z -> Z;
  remote : http_call -> result payload
}.

(** *** Local time ([datetime.fromtimestamp], [datetime.now])

    What follows is CPython's conversion on Linux: the division and the
    conversion to [time_t] of [_PyTime_ObjectToTimeval], then
    [localtime_r] of glibc with a zone file, then the range of
    [datetime]. *)

(** [n / d] rounded to the nearest integer, a tie to the even one. *)
Definition round_half_even (n d : Z) : Z :=
  let q := n / d in
  let r := n mod d in
  if 2 * r <? d then q
  else if d <? 2 * r then q + 1
  else if Z.even q then q else q + 1.

(** The least magnitude that rounds to no [float]: [ms / 1000] of two
    integers is the [float] nearest to the quotient, and an
    [OverflowError] from there on. *)
Definition FLOAT_OVERFLOW : Z := 2 ^ 1024 - 2 ^ 970.

(** The whole seconds of the [float] [ms / 1000], rounded down.  Below
    [2 ^ 53] milliseconds the float is less than a millisecond from the
    quotient and its whole seconds are those of the quotient; from
    there on the float has 53 significant bits, the last one [2 ^ p]. *)
Definition timet (ms : Z) : Z :=
  if Z.abs ms <? 2 ^ 53 then ms / 1000
  else
    let p := Z.log2 (Z.abs ms / 1000) - 52 in
    if 0 <=? p then Z.sgn ms * round_half_even (Z.abs ms) (1000 * 2 ^ p) * 2 ^ p
    else (Z.sgn ms * round_half_even (Z.abs ms * 2 ^ (- p)) 1000) / 2 ^ (- p).

(** [tm_year + 1900] in the arithmetic of a C [int]. *)
Definition c_int (z : Z) : Z := (z + 2 ^ 31) mod 2 ^ 32 - 2 ^ 31.

(** The local times whose year [localtime_r] can store in [tm_year],
    an [int] that counts from 1900. *)
Definition LOCALTIME_MIN : datetime := days_from_civil (1900 - 2 ^ 31) 1 1 * MS_PER_DAY.
Definition LOCALTIME_MAX : datetime :=
  (days_from_civil (1900 + 2 ^ 31 - 1) 12 31 + 1) * MS_PER_DAY - 1.

Definition year_out_of_range (year : Z) : exn :=
  ValueError (U "year " ++ str_of_int year ++ U " is out of range").

(** The naive local [datetime] of an instant.  A year that [tm_year]
    cannot hold is the [OSError] of [localtime_r], a year outside 1 to
    9999 a [ValueError].  To tell a repeated hour the conversion also
    reads the local time one day earlier, which has to lie in those
    years too: hence the first day of the year 1 is refused with the
    year 0.  The offset of the zone is taken to be the same one day
    earlier, as it is in every zone at the two ends of the calendar. *)
Definition local_datetime (e : env) (instant : Z) : result datetime :=
  let local := instant + utc_offset e instant in
  if (local <? LOCALTIME_MIN) || (LOCALTIME_MAX <? local) then
    Raise (OSError (U "[Errno 75] Value too large for defined data type"))
  else if (Datetime.MIN <=? local) && (local <=? Datetime.MAX) then
    if Datetime.MIN <=? local - MS_PER_DAY then Ok local
    else Raise (year_out_of_range (year_of (local - MS_PER_DAY)))
  else Raise (year_out_of_range (c_int (year_of local))).

(** [datetime.fromtimestamp(ms / 1000)] for an integer [ms].  The float
    of the quotient may not exist, and its whole seconds may not fit
    [time_t]; [2 ^ 63] itself passes that check and becomes the least
    [time_t]. *)
Definition fromtimestamp (e : env) (ms : Z) : result datetime :=
  if FLOAT_OVERFLOW * 1000 <=? Z.abs ms then
    Raise (OverflowError (U "integer division result too large for a float"))
  else
    let t := timet ms in
    if (t <? - 2 ^ 63) || (2 ^ 63 <? t) then
      Raise (OverflowError (U "timestamp out of range for platform time_t"))
    else if Z.abs ms <? 2 ^ 53 then local_datetime e ms
    else local_datetime e ((if t =? 2 ^ 63 then - 2 ^ 63 else t) * 1000).

(** [datetime.now().strftime("%Y-%m-%d")]: the clock is read in whole
    seconds and microseconds, without a float. *)
Definition today (e : env) : result str :=
  dt <- local_datetime e (now_ms e) ;;
  Ok (strftime_ymd dt).

Definition is_exn_class (name : string) (x : exn) : bool :=
  match x with
  | OtherException n _ => str_eqb n (U name)
  | _ => false
  end.

(* ================================================================== *)
(** ** Timestamp and duration formatters *)
(* ================================================================== *)

Definition NOT_SET : str := U "Not set".

Definition _format_timestamp (e : env) (timestamp : value) (default : str) : result str :=
  if negb (truthy timestamp) then Ok default
  else
    match as_int timestamp with
    | None => Raise (unsupported_operand "/" timestamp)
    | Some ms =>
        match fromtimestamp e ms with
        | Ok dt => Ok (strftime_ymd dt)
        | Raise x =>
            if is_exn_class "ValueError" x || is_exn_class "OSError" x
            then Ok default else Raise x
        end
    end.

Definition _format_time_estimate (ms : value) : result str :=
  if negb (truthy ms) then Ok NOT_SET
  else
    match as_int ms with
    | None => Raise (unsupported_operand "//" ms)
    | Some ms =>
        let hours := ms / 3600000 in
        let minutes := (ms mod 3600000) / 60000 in
        if negb (hours =? 0) && negb (minutes =? 0) then
          Ok (str_of_int hours ++ U "h " ++ str_of_int minutes ++ U "m")
        else if negb (hours =? 0) then Ok (str_of_int hours ++ U "h")
        else if negb (minutes =? 0) then Ok (str_of_int minutes ++ U "m")
        else Ok (U "< 1m")
    end.

(* ================================================================== *)
(** ** Validation layer (the pydantic schemas) *)
(* ================================================================== *)

(** Unicode [White_Space], which [str_strip_whitespace] trims. *)
Definition is_whitespace (c : char) : bool :=
  ((9 <=? c) && (c <=? 13) || (c =? 32) || (c =? 133) || (c =? 160)
   || (c =? 5760) || (8192 <=? c) && (c <=? 8202) || (c =? 8232)
   || (c =? 8233) || (c =? 8239) || (c =? 8287) || (c =? 12288))%N.

Fixpoint lstrip (s : str) : str :=
  match s with
  | [] => []
  | c :: r => if is_whitespace c then lstrip r else s
  end.

Definition strip (s : str) : str := rev (lstrip (rev (lstrip s))).

(** The regular expressions the schemas use. *)
Inductive regex : Type :=
| RDigit
| RChar (c : char)
| RSeq (r1 r2 : regex)
| RRepeat (n : nat) (r : regex).

(** [^\d{4}-\d{2}-\d{2}$], between its anchors. *)
Definition DATE_PATTERN : regex :=
  RSeq (RRepeat 4 RDigit)
    (RSeq (RChar minus)
       (RSeq (RRepeat 2 RDigit)
          (RSeq (RChar minus) (RRepeat 2 RDigit)))).

Inductive ResponseFormat : Type := MARKDOWN | JSON.

(** One violated constraint, by field. *)
Inductive violation : Type :=
| missing (field : string)
| extra_forbidden (field : str)
| string_too_short (field : string)
| string_too_long (field : string)
| string_pattern_mismatch (field : string)
| too_long (field : string)
| greater_than_equal (field : string)
| less_than_equal (field : string)
| enum (field : string).

(** An argument whose field does not admit [null]: the key is absent,
    or it holds [null], or it holds a value of the JSON type of the
    field. *)
Inductive arg (A : Type) : Type :=
| Absent
| Null
| Given (a : A).
Arguments Absent {A}.
Arguments Null {A}.
Arguments Given {A} a.

Module AddTaskInput.
Record t : Type := {
  title : str;
  note : option str;
  day : option str;
  due_date : option str;
  parent_id : option str;
  label_ids : option (list str);
  time_estimate : option Z;
  is_starred : option bool
}.
(** The raw arguments: every known key with a value of its JSON type
    ([None] when the key is absent or [null]), and the other keys. *)
Record raw : Type := {
  raw_title : option str;
  raw_note : option str;
  raw_day : option str;
  raw_due_date : option str;
  raw_parent_id : option str;
  raw_label_ids : option (list str);
  raw_time_estimate : option Z;
  raw_is_starred : option bool;
  raw_extra : list str
}.
End AddTaskInput.

Module GetTasksInput.
Record t : Type := {
  date : option str;
  response_format : ResponseFormat
}.
Record raw : Type := {
  raw_date : option str;
  raw_response_format : arg str;
  raw_extra : list str
}.
End GetTasksInput.

Module MarkDoneInput.
Record t : Type := { item_id : str }.
Record raw : Type := { raw_item_id : option str; raw_extra : list str }.
End MarkDoneInput.

Module GetChildrenInput.
Record t : Type := {
  parent_id : str;
  response_format : ResponseFormat
}.
Record raw : Type := {
  raw_parent_id : option str;
  raw_response_format : arg str;
  raw_extra : list str
}.
End GetChildrenInput.

Module StartTrackingInput.
Record t : Type := { item_id : str }.
Record raw : Type := { raw_item_id : option str; raw_extra : list str }.
End StartTrackingInput.

Module SimpleFormatInput.
Record t : Type := { response_format : ResponseFormat }.
Record raw : Type := { raw_response_format : arg str; raw_extra : list str }.
End SimpleFormatInput.

Section Gateway.

(** The class [\d] of the pattern of a field, which pydantic matches
    with the regular expressions of its Rust core: the characters of
    Unicode category [Nd] that this engine knows are those with a
    value. *)
Variable digit_value : char -> option Z.

(** The decimal value of a character of category [Nd] as Python knows
    it, [None] for any other character: the class [\d] of [re], with
    which [strptime] reads a date, and the digits [int] reads. *)
Variable py_digit_value : char -> option Z.

(** [repr] of a string. *)
Variable repr : str -> str.

Definition is_digit (c : char) : bool :=
  match digit_value c with Some _ => true | None => false end.

(** The rest of [s] after a match of [r] at its start. *)
Fixpoint match_prefix (r : regex) (s : str) : option str :=
  match r with
  | RDigit =>
      match s with
      | c :: t => if is_digit c then Some t else None
      | [] => None
      end
  | RChar c =>
      match s with
      | c' :: t => if N.eqb c' c then Some t else None
      | [] => None
      end
  | RSeq r1 r2 =>
      match match_prefix r1 s with
      | Some t => match_prefix r2 t
      | None => None
      end
  | RRepeat n r1 =>
      (fix rep (k : nat) (s : str) : option str :=
         match k with
         | O => Some s
         | S k' =>
             match match_prefix r1 s with
             | Some t => rep k' t
             | None => None
             end
         end) n s
  end.

(** A match of [^r$]. *)
Definition full_match (r : regex) (s : str) : bool :=
  match match_prefix r s with
  | Some [] => true
  | _ => false
  end.

(** *** Field validators: the violations of a field and its value *)

Definition checked (A : Type) : Type := list violation * option A.

(** A required string with [min_length=1] and an optional [max_length]. *)
Definition required_str (field : string) (max_length : option Z) (v : option str)
  : checked str :=
  match v with
  | None => ([missing field], None)
  | Some s =>
      let s := strip s in
      if len s <? 1 then ([string_too_short field], None)
      else
        match max_length with
        | Some m => if m <? len s then ([string_too_long field], None) else ([], Some s)
        | None => ([], Some s)
        end
  end.

Definition optional_str (field : string) (max_length : option Z) (v : option str)
  : checked (option str) :=
  match v with
  | None => ([], Some None)
  | Some s =>
      let s := strip s in
      match max_length with
      | Some m => if m <? len s then ([string_too_long field], None) else ([], Some (Some s))
      | None => ([], Some (Some s))
      end
  end.

(** An optional string with a [pattern]. *)
Definition optional_date (field : string) (v : option str) : checked (option str) :=
  match v with
  | None => ([], Some None)
  | Some s =>
      let s := strip s in
      if full_match DATE_PATTERN s then ([], Some (Some s))
      else ([string_pattern_mismatch field], None)
  end.

Definition optional_str_list (field : string) (max_length : Z) (v : option (list str))
  : checked (option (list str)) :=
  match v with
  | None => ([], Some None)
  | Some l =>
      if max_length <? len l then ([too_long field], None)
      else ([], Some (Some (map strip l)))
  end.

Definition optional_int (field : string) (ge le : Z) (v : option Z)
  : checked (option Z) :=
  match v with
  | None => ([], Some None)
  | Some z =>
      if z <? ge then ([greater_than_equal field], None)
      else if le <? z then ([less_than_equal field], None)
      else ([], Some (Some z))
  end.

(** [response_format: ResponseFormat] with a default: the default
    stands in for an absent key only, and [null] is no member of the
    enumeration. *)
Definition response_format_field (v : arg str) : checked ResponseFormat :=
  match v with
  | Absent => ([], Some MARKDOWN)
  | Null => ([enum "response_format"], None)
  | Given s =>
      if str_eqb s (U "markdown") then ([], Some MARKDOWN)
      else if str_eqb s (U "json") then ([], Some JSON)
      else ([enum "response_format"], None)
  end.

(** [extra='forbid']. *)
Definition forbid_extra (extra : list str) : list violation :=
  map extra_forbidden extra.

(** *** Models: all field violations, or the validated input *)

Definition pure {A : Type} (a : A) : checked A := ([], Some a).

Definition ap {A B : Type} (f : checked (A -> B)) (x : checked A) : checked B :=
  (fst f ++ fst x,
   match snd f, snd x with
   | Some g, Some a => Some (g a)
   | _, _ => None
   end).

Notation "f <*> x" := (ap f x) (at level 50, left associativity).

Definition model_validate {A : Type} (fields : checked A) (extra : list str)
  : list violation + A :=
  match fst fields ++ forbid_extra extra, snd fields with
  | [], Some a => inr a
  | vs, _ => inl vs
  end.

Definition validate_AddTaskInput (r : AddTaskInput.raw) : list violation + AddTaskInput.t :=
  model_validate
    (pure AddTaskInput.Build_t
     <*> required_str "title" (Some 500) (AddTaskInput.raw_title r)
     <*> optional_str "note" (Some 5000) (AddTaskInput.raw_note r)
     <*> optional_date "day" (AddTaskInput.raw_day r)
     <*> optional_date "due_date" (AddTaskInput.raw_due_date r)
     <*> optional_str "parent_id" None (AddTaskInput.raw_parent_id r)
     <*> optional_str_list "label_ids" 20 (AddTaskInput.raw_label_ids r)
     <*> optional_int "time_estimate" 60000 86400000 (AddTaskInput.raw_time_estimate r)
     <*> pure (AddTaskInput.raw_is_starred r))
    (AddTaskInput.raw_extra r).

Definition validate_GetTasksInput (r : GetTasksInput.raw) : list violation + GetTasksInput.t :=
  model_validate
    (pure GetTasksInput.Build_t
     <*> optional_date "date" (GetTasksInput.raw_date r)
     <*> response_format_field (GetTasksInput.raw_response_format r))
    (GetTasksInput.raw_extra r).

Definition validate_MarkDoneInput (r : MarkDoneInput.raw) : list violation + MarkDoneInput.t :=
  model_validate
    (pure MarkDoneInput.Build_t
     <*> required_str "item_id" None (MarkDoneInput.raw_item_id r))
    (MarkDoneInput.raw_extra r).

Definition validate_GetChildrenInput (r : GetChildrenInput.raw)
  : list violation + GetChildrenInput.t :=
  model_validate
    (pure GetChildrenInput.Build_t
     <*> required_str "parent_id" None (GetChildrenInput.raw_parent_id r)
     <*> response_format_field (GetChildrenInput.raw_response_format r))
    (GetChildrenInput.raw_extra r).

Definition validate_StartTrackingInput (r : StartTrackingInput.raw)
  : list violation + StartTrackingInput.t :=
  model_validate
    (pure StartTrackingInput.Build_t
     <*> required_str "item_id" None (StartTrackingInput.raw_item_id r))
    (StartTrackingInput.raw_extra r).

Definition validate_SimpleFormatInput (r : SimpleFormatInput.raw)
  : list violation + SimpleFormatInput.t :=
  model_validate
    (pure SimpleFormatInput.Build_t
     <*> response_format_field (SimpleFormatInput.raw_response_format r))
    (SimpleFormatInput.raw_extra r).

(** *** [datetime.strptime(s, "%Y-%m-%d")] *)

Definition in_range (c : char) (lo hi : N) : bool := ((lo <=? c) && (c <=? hi))%N.

Definition ascii_value (c : char) : Z := Z.of_N (c - 48).

(** [%Y]: [\d\d\d\d]. *)
Definition parse_year (s : str) : option (Z * str) :=
  match s with
  | a :: b :: c :: d :: t =>
      match py_digit_value a, py_digit_value b, py_digit_value c, py_digit_value d with
      | Some a, Some b, Some c, Some d => Some (1000 * a + 100 * b + 10 * c + d, t)
      | _, _, _, _ => None
      end
  | _ => None
  end.

(** [%m]: [1[0-2]|0[1-9]|[1-9]]. *)
Definition parse_month (s : str) : option (Z * str) :=
  match s with
  | [] => None
  | c1 :: t1 =>
      let two :=
        match t1 with
        | c2 :: t2 =>
            if (c1 =? 49)%N && in_range c2 48 50 then Some (10 + ascii_value c2, t2)
            else if (c1 =? 48)%N && in_range c2 49 57 then Some (ascii_value c2, t2)
            else None
        | [] => None
        end in
      match two with
      | Some r => Some r
      | None => if in_range c1 49 57 then Some (ascii_value c1, t1) else None
      end
  end.

(** [%d]: [3[01]|[12]\d|0[1-9]|[1-9]| [1-9]]. *)
Definition parse_day (s : str) : option (Z * str) :=
  match s with
  | [] => None
  | c1 :: t1 =>
      let two :=
        match t1 with
        | c2 :: t2 =>
            if (c1 =? 51)%N && in_range c2 48 49 then Some (30 + ascii_value c2, t2)
            else if in_range c1 49 50 then
              match py_digit_value c2 with
              | Some d => Some (10 * ascii_value c1 + d, t2)
              | None => None
              end
            else if (c1 =? 48)%N && in_range c2 49 57 then Some (ascii_value c2, t2)
            else None
        | [] => None
        end in
      match two with
      | Some r => Some r
      | None =>
          if in_range c1 49 57 then Some (ascii_value c1, t1)
          else
            match t1 with
            | c2 :: t2 =>
                if (c1 =? 32)%N && in_range c2 49 57 then Some (ascii_value c2, t2)
                else None
            | [] => None
            end
      end
  end.

Definition expect (c : char) (s : str) : option str :=
  match s with
  | c' :: t => if N.eqb c' c then Some t else None
  | [] => None
  end.

Definition parse_ymd (s : str) : option (Z * Z * Z * str) :=
  match parse_year s with
  | None => None
  | Some (y, s) =>
  match expect minus s with
  | None => None
  | Some s =>
  match parse_month s with
  | None => None
  | Some (m, s) =>
  match expect minus s with
  | None => None
  | Some s =>
  match parse_day s with
  | None => None
  | Some (d, s) => Some (y, m, d, s)
  end end end end end.

Definition strptime_ymd (s : str) : result datetime :=
  match parse_ymd s with
  | None =>
      Raise (ValueError (U "time data " ++ repr s ++ U " does not match format "
                         ++ repr (U "%Y-%m-%d")))
  | Some (y, m, d, rest) =>
      match rest with
      | _ :: _ => Raise (ValueError (U "unconverted data remains: " ++ rest))
      | [] =>
          if y <? 1 then Raise (ValueError (U "year " ++ str_of_int y ++ U " is out of range"))
          else if days_in_month y m <? d then
            Raise (ValueError (U "day is out of range for month"))
          else Ok (days_from_civil y m d * MS_PER_DAY)
      end
  end.

(* ================================================================== *)
(** ** API client *)
(* ================================================================== *)

(** A computation that may issue requests: it extends the log of the
    calls made on the HTTP client and returns or raises. *)
Definition M (A : Type) : Type := list http_call -> result A * list http_call.

Definition lift {A : Type} (r : result A) : M A := fun log => (r, log).

Definition bindM {A B : Type} (m : M A) (f : A -> M B) : M B :=
  fun log =>
    match m log with
    | (Ok a, log') => f a log'
    | (Raise x, log') => (Raise x, log')
    end.

Notation "x <~ m ;; k" := (bindM m (fun x => k))
  (at level 61, m at next level, right associativity).

Definition _get_headers (e : env) (full_access : bool) : dict str :=
  if full_access then [(U "X-Full-Access-Token", AMAZING_MARVIN_FULL_TOKEN e)]
  else [(U "X-API-Token", API_TOKEN e)].

Definition _make_api_request (e : env) (endpoint method : string)
  (data : option json) (params : option (dict str)) (full_access : bool) : M payload :=
  fun log =>
    let url := API_BASE_URL ++ U endpoint in
    let headers := _get_headers e full_access in
    if String.eqb method "GET" then
      let call := HttpGet url headers params in
      (remote e call, log ++ [call])
    else if String.eqb method "POST" then
      let headers := dict_set (U "Content-Type") (U "application/json") headers in
      let call := HttpPost url headers data in
      (remote e call, log ++ [call])
    else (Raise (ValueError (U "Unsupported HTTP method: " ++ U method)), log).

(** [try: ... except Exception as e: return _handle_api_error(e)], run
    from an empty log: the text returned and the requests issued. *)
Definition try_except (body : M str) : str * list http_call :=
  match body [] with
  | (Ok text, log) => (text, log)
  | (Raise x, log) => (_handle_api_error x, log)
  end.

(* ================================================================== *)
(** ** Response renderer *)
(* ================================================================== *)

(** The glyphs, code point by code point as the source file spells
    them. *)
Definition GLYPH_DONE : str := [8218; 250; 214]%N.
Definition GLYPH_OPEN : str := [8218; 168; 250]%N.
Definition GLYPH_PROJECT : str := [63743; 252; 236; 197]%N.
Definition GLYPH_TIMER : str := [8218; 232; 177; 212; 8719; 232]%N.

Definition status_glyph (r : record) : str :=
  if truthy (get r "done") then GLYPH_DONE else GLYPH_OPEN.

(** [lines.append(f"{label}{text}")] under [if cond:]. *)
Definition line_if (cond : bool) (line : result str) : result (list str) :=
  if cond then (l <- line ;; Ok [l]) else Ok [].

Definition formatted_or_null (cond : bool) (text : result str) : result json :=
  if cond then (t <- text ;; Ok (JStr t)) else Ok JNull.

Definition note_line (r : record) (limit : Z) : result (list str) :=
  line_if (truthy (get r "note"))
    (note <- value_slice_to (get_default r "note" (VStr [])) limit ;;
     Ok (U "- **Note**: " ++ note)).

Definition due_line (e : env) (r : record) : result (list str) :=
  line_if (truthy (get r "dueDate"))
    (d <- _format_timestamp e (get r "dueDate") NOT_SET ;; Ok (U "- **Due**: " ++ d)).

Definition estimate_line (r : record) : result (list str) :=
  line_if (truthy (get r "timeEstimate"))
    (t <- _format_time_estimate (get r "timeEstimate") ;; Ok (U "- **Estimate**: " ++ t)).

Definition due_json (e : env) (r : record) : result json :=
  formatted_or_null (truthy (get r "dueDate")) (_format_timestamp e (get r "dueDate") NOT_SET).

Definition estimate_json (r : record) : result json :=
  formatted_or_null (truthy (get r "timeEstimate"))
    (_format_time_estimate (get r "timeEstimate")).

Definition plural (n : Z) (one many : string) : str :=
  if negb (n =? 1) then U many else U one.

(** *** Today's tasks *)

(** The lines one pass of the markdown loop appends. *)
Definition todays_task_block (e : env) (task : record) : result (list str) :=
  let status := status_glyph task in
  let title := get_default task "title" (VStr (U "Untitled")) in
  let task_id := get_default task "_id" (VStr []) in
  due <- due_line e task ;;
  estimate <- estimate_line task ;;
  project <- line_if (truthy (get task "parentId"))
               (Ok (U "- **Project**: " ++ py_str (get task "parentId"))) ;;
  note <- note_line task 200 ;;
  Ok ([U "## " ++ status ++ U " " ++ py_str title;
       U "- **ID**: " ++ py_str task_id]
      ++ due ++ estimate ++ project ++ note ++ [[]]).

(** The object the JSON comprehension builds for one task. *)
Definition todays_task_json (e : env) (t : record) : result json :=
  due <- due_json e t ;;
  estimate <- estimate_json t ;;
  Ok (JDict [(U "id", json_of_value (get t "_id"));
             (U "title", json_of_value (get t "title"));
             (U "done", json_of_value (get_default t "done" (VBool false)));
             (U "dueDate", due);
             (U "timeEstimate", estimate);
             (U "parentId", json_of_value (get t "parentId"));
             (U "note", json_of_value (get t "note"))]).

Definition todays_tasks_markdown (e : env) (target_date : str) (tasks : payload)
  : result (list str) :=
  n <- payload_len tasks ;;
  items <- payload_items tasks ;;
  blocks <- for_each (todays_task_block e) items ;;
  Ok ([U "# Today's Tasks (" ++ target_date ++ U ")";
       [];
       U "Found " ++ str_of_int n ++ U " task" ++ plural n "" "s";
       []] ++ concat blocks).

Definition todays_tasks_response (e : env) (target_date : str) (tasks : payload)
  : result json :=
  n <- payload_len tasks ;;
  items <- payload_items tasks ;;
  records <- for_each (todays_task_json e) items ;;
  Ok (JDict [(U "date", JStr target_date);
             (U "total", JInt n);
             (U "tasks", JList records)]).

(** [params.date or datetime.now().strftime("%Y-%m-%d")]. *)
Definition target_date_of (e : env) (date : option str) : result str :=
  match date with
  | Some (c :: d) => Ok (c :: d)
  | _ => today e
  end.

Definition marvin_get_todays_tasks (e : env) (params : GetTasksInput.t)
  : str * list http_call :=
  try_except (
    target_date <~ lift (target_date_of e (GetTasksInput.date params)) ;;
    tasks <~ _make_api_request e "/todayItems" "GET" None
               (Some [(U "date", target_date)]) false ;;
    if negb (payload_truthy tasks) then
      lift (Ok (U "No tasks scheduled for " ++ target_date ++ U "."))
    else
      match GetTasksInput.response_format params with
      | MARKDOWN =>
          lines <~ lift (todays_tasks_markdown e target_date tasks) ;;
          n <~ lift (payload_len tasks) ;;
          lift (Ok (_truncate_response (join [nl] lines) n))
      | JSON =>
          response <~ lift (todays_tasks_response e target_date tasks) ;;
          n <~ lift (payload_len tasks) ;;
          lift (Ok (_truncate_response (Json.dumps response) n))
      end).

(** *** Due and overdue tasks *)

(** [(target_dt - due_dt).days] under [if task.get("dueDate"):]; [None]
    for a task without a due date. *)
Definition days_overdue (e : env) (target_dt : datetime) (task : record)
  : result (option Z) :=
  if truthy (get task "dueDate") then
    match as_int (get task "dueDate") with
    | None => Raise (unsupported_operand "/" (get task "dueDate"))
    | Some ms =>
        due_dt <- fromtimestamp e ms ;;
        Ok (Some (timedelta_days target_dt due_dt))
    end
  else Ok None.

Definition overdue_tag (days_diff : option Z) : str :=
  match days_diff with
  | Some d =>
      if d >? 0 then U " [OVERDUE]"
      else if d =? 0 then U " [DUE TODAY]"
      else []
  | None => []
  end.

Definition due_task_block (e : env) (target_dt : datetime) (task : record)
  : result (list str) :=
  let status := status_glyph task in
  let title := get_default task "title" (VStr (U "Untitled")) in
  let task_id := get_default task "_id" (VStr []) in
  due_date_str <- _format_timestamp e (get task "dueDate") NOT_SET ;;
  days_diff <- days_overdue e target_dt task ;;
  estimate <- estimate_line task ;;
  note <- note_line task 200 ;;
  Ok ([U "## " ++ status ++ U " " ++ py_str title ++ overdue_tag days_diff;
       U "- **ID**: " ++ py_str task_id;
       U "- **Due**: " ++ due_date_str]
      ++ estimate ++ note ++ [[]]).

Definition due_task_json (e : env) (target_dt : datetime) (task : record)
  : result json :=
  due <- due_json e task ;;
  estimate <- estimate_json task ;;
  let task_data :=
    [(U "id", json_of_value (get task "_id"));
     (U "title", json_of_value (get task "title"));
     (U "done", json_of_value (get_default task "done" (VBool false)));
     (U "dueDate", due);
     (U "timeEstimate", estimate)] in
  days_diff <- days_overdue e target_dt task ;;
  Ok (JDict
        match days_diff with
        | Some d => if d >? 0 then dict_set (U "daysOverdue") (JInt d) task_data
                    else task_data
        | None => task_data
        end).

Definition due_tasks_markdown (e : env) (target_date : str) (target_dt : datetime)
  (tasks : payload) : result (list str) :=
  n <- payload_len tasks ;;
  items <- payload_items tasks ;;
  blocks <- for_each (due_task_block e target_dt) items ;;
  Ok ([U "# Due & Overdue Tasks (as of " ++ target_date ++ U ")";
       [];
       U "Found " ++ str_of_int n ++ U " task" ++ plural n "" "s"
         ++ U " requiring attention";
       []] ++ concat blocks).

Definition due_tasks_response (e : env) (target_date : str) (target_dt : datetime)
  (tasks : payload) : result json :=
  n <- payload_len tasks ;;
  items <- payload_items tasks ;;
  records <- for_each (due_task_json e target_dt) items ;;
  Ok (JDict [(U "asOf", JStr target_date);
             (U "total", JInt n);
             (U "tasks", JList records)]).

Definition marvin_get_due_tasks (e : env) (params : GetTasksInput.t)
  : str * list http_call :=
  try_except (
    target_date <~ lift (target_date_of e (GetTasksInput.date params)) ;;
    tasks <~ _make_api_request e "/dueItems" "GET" None
               (Some [(U "by", target_date)]) false ;;
    if negb (payload_truthy tasks) then
      lift (Ok (U "No due or overdue tasks as of " ++ target_date ++ U "."))
    else
      target_dt <~ lift (strptime_ymd target_date) ;;
      match GetTasksInput.response_format params with
      | MARKDOWN =>
          lines <~ lift (due_tasks_markdown e target_date target_dt tasks) ;;
          n <~ lift (payload_len tasks) ;;
          lift (Ok (_truncate_response (join [nl] lines) n))
      | JSON =>
          response <~ lift (due_tasks_response e target_date target_dt tasks) ;;
          n <~ lift (payload_len tasks) ;;
          lift (Ok (_truncate_response (Json.dumps response) n))
      end).

(** *** Categories, labels and children *)

Definition category_block (cat : record) : result (list str) :=
  let title := get_default cat "title" (VStr (U "Untitled")) in
  let cat_id := get_default cat "_id" (VStr []) in
  let cat_type := get_default cat "type" (VStr (U "unknown")) in
  parent <- line_if (truthy (get cat "parentId"))
              (Ok (U "- **Parent**: " ++ py_str (get cat "parentId"))) ;;
  note <- note_line cat 150 ;;
  Ok ([U "## " ++ py_str title ++ U " (" ++ py_str cat_type ++ U ")";
       U "- **ID**: " ++ py_str cat_id;
       U "- **Type**: " ++ py_str cat_type]
      ++ parent ++ note ++ [[]]).

Definition category_json (c : record) : result json :=
  Ok (JDict [(U "id", json_of_value (get c "_id"));
             (U "title", json_of_value (get c "title"));
             (U "type", json_of_value (get c "type"));
             (U "parentId", json_of_value (get c "parentId"));
             (U "note", json_of_value (get c "note"))]).

Definition categories_markdown (categories : payload) : result (list str) :=
  n <- payload_len categories ;;
  items <- payload_items categories ;;
  blocks <- for_each category_block items ;;
  Ok ([U "# Categories & Projects";
       [];
       U "Found " ++ str_of_int n ++ U " categor" ++ plural n "y" "ies"
         ++ U " and projects";
       []] ++ concat blocks).

Definition categories_response (categories : payload) : result json :=
  n <- payload_len categories ;;
  items <- payload_items categories ;;
  records <- for_each category_json items ;;
  Ok (JDict [(U "total", JInt n); (U "categories", JList records)]).

Definition marvin_get_categories (e : env) (params : SimpleFormatInput.t)
  : str * list http_call :=
  try_except (
    categories <~ _make_api_request e "/categories" "GET" None None false ;;
    if negb (payload_truthy categories) then
      lift (Ok (U "No categories or projects found."))
    else
      match SimpleFormatInput.response_format params with
      | MARKDOWN =>
          lines <~ lift (categories_markdown categories) ;;
          n <~ lift (payload_len categories) ;;
          lift (Ok (_truncate_response (join [nl] lines) n))
      | JSON =>
          response <~ lift (categories_response categories) ;;
          n <~ lift (payload_len categories) ;;
          lift (Ok (_truncate_response (Json.dumps response) n))
      end).

Definition label_block (label : record) : result (list str) :=
  let title := get_default label "title" (VStr (U "Untitled")) in
  let label_id := get_default label "_id" (VStr []) in
  Ok [U "## " ++ py_str title; U "- **ID**: " ++ py_str label_id; []].

Definition label_json (l : record) : result json :=
  Ok (JDict [(U "id", json_of_value (get l "_id"));
             (U "title", json_of_value (get l "title"))]).

Definition labels_markdown (labels : payload) : result (list str) :=
  n <- payload_len labels ;;
  items <- payload_items labels ;;
  blocks <- for_each label_block items ;;
  Ok ([U "# Labels";
       [];
       U "Found " ++ str_of_int n ++ U " label" ++ plural n "" "s";
       []] ++ concat blocks).

Definition labels_response (labels : payload) : result json :=
  n <- payload_len labels ;;
  items <- payload_items labels ;;
  records <- for_each label_json items ;;
  Ok (JDict [(U "total", JInt n); (U "labels", JList records)]).

Definition marvin_get_labels (e : env) (params : SimpleFormatInput.t)
  : str * list http_call :=
  try_except (
    labels <~ _make_api_request e "/labels" "GET" None None false ;;
    if negb (payload_truthy labels) then lift (Ok (U "No labels found."))
    else
      match SimpleFormatInput.response_format params with
      | MARKDOWN =>
          lines <~ lift (labels_markdown labels) ;;
          n <~ lift (payload_len labels) ;;
          lift (Ok (_truncate_response (join [nl] lines) n))
      | JSON =>
          response <~ lift (labels_response labels) ;;
          n <~ lift (payload_len labels) ;;
          lift (Ok (_truncate_response (Json.dumps response) n))
      end).

Definition value_is_str (v : value) (s : string) : bool :=
  match v with
  | VStr t => str_eqb t (U s)
  | _ => false
  end.

Definition child_block (e : env) (item : record) : result (list str) :=
  let status := status_glyph item in
  let title := get_default item "title" (VStr (U "Untitled")) in
  let item_type := get_default item "type" (VStr (U "task")) in
  let item_id := get_default item "_id" (VStr []) in
  let type_emoji := if value_is_str item_type "project" then GLYPH_PROJECT else status in
  due <- due_line e item ;;
  estimate <- estimate_line item ;;
  note <- note_line item 150 ;;
  Ok ([U "## " ++ type_emoji ++ U " " ++ py_str title ++ U " (" ++ py_str item_type ++ U ")";
       U "- **ID**: " ++ py_str item_id;
       U "- **Type**: " ++ py_str item_type]
      ++ due ++ estimate ++ note ++ [[]]).

Definition child_json (e : env) (i : record) : result json :=
  due <- due_json e i ;;
  estimate <- estimate_json i ;;
  Ok (JDict [(U "id", json_of_value (get i "_id"));
             (U "title", json_of_value (get i "title"));
             (U "type", json_of_value (get i "type"));
             (U "done", json_of_value (get_default i "done" (VBool false)));
             (U "dueDate", due);
             (U "timeEstimate", estimate);
             (U "note", json_of_value (get i "note"))]).

Definition children_markdown (e : env) (parent_id : str) (items : payload)
  : result (list str) :=
  n <- payload_len items ;;
  records <- payload_items items ;;
  blocks <- for_each (child_block e) records ;;
  Ok ([U "# Items in: " ++ parent_id;
       [];
       U "Found " ++ str_of_int n ++ U " item" ++ plural n "" "s";
       []] ++ concat blocks).

Definition children_response (e : env) (parent_id : str) (items : payload)
  : result json :=
  n <- payload_len items ;;
  records <- payload_items items ;;
  objects <- for_each (child_json e) records ;;
  Ok (JDict [(U "parent_id", JStr parent_id);
             (U "total", JInt n);
             (U "items", JList objects)]).

Definition marvin_get_children (e : env) (params : GetChildrenInput.t)
  : str * list http_call :=
  let parent_id := GetChildrenInput.parent_id params in
  try_except (
    items <~ _make_api_request e "/children" "GET" None
               (Some [(U "parentId", parent_id)]) false ;;
    if negb (payload_truthy items) then
      lift (Ok (U "No items found under parent ID: " ++ parent_id))
    else
      match GetChildrenInput.response_format params with
      | MARKDOWN =>
          lines <~ lift (children_markdown e parent_id items) ;;
          n <~ lift (payload_len items) ;;
          lift (Ok (_truncate_response (join [nl] lines) n))
      | JSON =>
          response <~ lift (children_response e parent_id items) ;;
          n <~ lift (payload_len items) ;;
          lift (Ok (_truncate_response (Json.dumps response) n))
      end).

(* ================================================================== *)
(** ** Mutating tools *)
(* ================================================================== *)

Definition set_if {A : Type} (key : string) (field : option A) (to_json : A -> json)
  (d : dict json) : dict json :=
  match field with
  | Some a => dict_set (U key) (to_json a) d
  | None => d
  end.

(** The [task_data] of [marvin_add_task]. *)
Definition add_task_data (params : AddTaskInput.t) : dict json :=
  let task_data := [(U "title", JStr (AddTaskInput.title params));
                    (U "done", JBool false)] in
  let task_data := set_if "note" (AddTaskInput.note params) JStr task_data in
  let task_data := set_if "day" (AddTaskInput.day params) JStr task_data in
  let task_data := set_if "dueDate" (AddTaskInput.due_date params) JStr task_data in
  let task_data := set_if "parentId" (AddTaskInput.parent_id params) JStr task_data in
  let task_data := set_if "labelIds" (AddTaskInput.label_ids params)
                     (fun ids => JList (map JStr ids)) task_data in
  let task_data := set_if "timeEstimate" (AddTaskInput.time_estimate params) JInt task_data in
  let task_data := set_if "isStarred" (AddTaskInput.is_starred params) JBool task_data in
  task_data.

(** The receiver of [result.get(...)]. *)
Definition payload_record (p : payload) : result record :=
  match p with
  | PRecord r => Ok r
  | PRecords _ => Raise (AttributeError (U "'list' object has no attribute 'get'"))
  | PNull => Raise (AttributeError (U "'NoneType' object has no attribute 'get'"))
  end.

Definition add_task_lines (e : env) (p : payload) : result (list str) :=
  r <- payload_record p ;;
  scheduled <- line_if (truthy (get r "day"))
                 (d <- _format_timestamp e (get r "day") NOT_SET ;;
                  Ok (U "**Scheduled**: " ++ d)) ;;
  due <- line_if (truthy (get r "dueDate"))
           (d <- _format_timestamp e (get r "dueDate") NOT_SET ;; Ok (U "**Due**: " ++ d)) ;;
  estimate <- line_if (truthy (get r "timeEstimate"))
                (t <- _format_time_estimate (get r "timeEstimate") ;;
                 Ok (U "**Time Estimate**: " ++ t)) ;;
  Ok ([GLYPH_DONE ++ U " Task created successfully!";
       [];
       U "**ID**: " ++ py_str (get_default r "_id" (VStr (U "N/A")));
       U "**Title**: " ++ py_str (get_default r "title" (VStr (U "N/A")))]
      ++ scheduled ++ due ++ estimate).

Definition marvin_add_task (e : env) (params : AddTaskInput.t) : str * list http_call :=
  try_except (
    result <~ _make_api_request e "/addTask" "POST"
                (Some (JDict (add_task_data params))) None false ;;
    lines <~ lift (add_task_lines e result) ;;
    lift (Ok (join [nl] lines))).

Definition marvin_mark_done (e : env) (params : MarkDoneInput.t) : str * list http_call :=
  try_except (
    _ <~ _make_api_request e "/markDone" "POST"
           (Some (JDict [(U "itemId", JStr (MarkDoneInput.item_id params))])) None false ;;
    lift (Ok (GLYPH_DONE ++ U " Task marked as complete!" ++ [nl; nl]
              ++ U "**Task ID**: " ++ MarkDoneInput.item_id params))).

Definition marvin_start_tracking (e : env) (params : StartTrackingInput.t)
  : str * list http_call :=
  try_except (
    _ <~ _make_api_request e "/track" "POST"
           (Some (JDict [(U "itemId", JStr (StartTrackingInput.item_id params));
                         (U "action", JStr (U "START"))])) None false ;;
    lift (Ok (GLYPH_TIMER ++ U " Timer started for task!" ++ [nl; nl]
              ++ U "**Task ID**: " ++ StartTrackingInput.item_id params ++ [nl; nl]
              ++ U "_Note: Any previously running timer has been stopped._"))).

Definition marvin_stop_tracking (e : env) : str * list http_call :=
  try_except (
    _ <~ _make_api_request e "/track" "POST"
           (Some (JDict [(U "action", JStr (U "STOP"))])) None false ;;
    lift (Ok (GLYPH_TIMER ++ U " Timer stopped successfully!" ++ [nl; nl]
              ++ U "_Time tracking has been saved to the task._"))).

(* ================================================================== *)
(** ** Tool dispatch *)
(* ================================================================== *)

(** A call of a tool by name with its raw arguments. *)
Inductive tool_call : Type :=
| call_marvin_add_task (raw : AddTaskInput.raw)
| call_marvin_get_todays_tasks (raw : GetTasksInput.raw)
| call_marvin_mark_done (raw : MarkDoneInput.raw)
| call_marvin_get_due_tasks (raw : GetTasksInput.raw)
| call_marvin_get_categories (raw : SimpleFormatInput.raw)
| call_marvin_get_labels (raw : SimpleFormatInput.raw)
| call_marvin_get_children (raw : GetChildrenInput.raw)
| call_marvin_start_tracking (raw : StartTrackingInput.raw)
| call_marvin_stop_tracking.

(** What the caller gets: the tool's text, or the validation error
    raised for its arguments. *)
Inductive outcome : Type :=
| ValidationError (violations : list violation)
| Returned (text : str).

(** Modelled from the spec: the dispatch of a call to a tool, which is
    the framework's ([FastMCP] builds the input model of a tool from
    the raw arguments and calls the tool function with it) and not in
    the repository.  The spec: "Validation failure is a distinct error
    class raised before any network access".  The arguments are
    validated against the input model of the tool, a failure ends the
    call with the violations, and the tool function runs on a validated
    input only. *)
Definition validated {R T : Type} (validate : R -> list violation + T)
  (tool : T -> str * list http_call) (raw : R) : outcome * list http_call :=
  match validate raw with
  | inl violations => (ValidationError violations, [])
  | inr params => let (text, log) := tool params in (Returned text, log)
  end.

Definition call_tool (e : env) (c : tool_call) : outcome * list http_call :=
  match c with
  | call_marvin_add_task raw => validated validate_AddTaskInput (marvin_add_task e) raw
  | call_marvin_get_todays_tasks raw =>
      validated validate_GetTasksInput (marvin_get_todays_tasks e) raw
  | call_marvin_mark_done raw => validated validate_MarkDoneInput (marvin_mark_done e) raw
  | call_marvin_get_due_tasks raw =>
      validated validate_GetTasksInput (marvin_get_due_tasks e) raw
  | call_marvin_get_categories raw =>
      validated validate_SimpleFormatInput (marvin_get_categories e) raw
  | call_marvin_get_labels raw =>
      validated validate_SimpleFormatInput (marvin_get_labels e) raw
  | call_marvin_get_children raw =>
      validated validate_GetChildrenInput (marvin_get_children e) raw
  | call_marvin_start_tracking raw =>
      validated validate_StartTrackingInput (marvin_start_tracking e) raw
  | call_marvin_stop_tracking =>
      let (text, log) := marvin_stop_tracking e in (Returned text, log)
  end.

End Gateway.

(* ================================================================== *)
(** ** Concrete instances for the examples *)
(* ================================================================== *)

(** The ASCII digits, which every Unicode database has in [Nd]. *)
Definition ascii_digit_value (c : char) : option Z :=
  if in_range c 48 57 then Some (Z.of_N (c - 48)) else None.

(** [repr] of a string of letters, digits and punctuation other than
    quotes and backslashes. *)
Definition plain_repr (s : str) : str := U "'" ++ s ++ U "'".

(** An environment in UTC whose remote API answers every request with
    [answer]. *)
Definition utc_env (answer : result payload) : env :=
  {| API_TOKEN := U "token";
     AMAZING_MARVIN_FULL_TOKEN := [];
     now_ms := 1710500000000;
     utc_offset := fun _ => 0;
     remote := fun _ => answer |}.


(* ================================================================== *)
(** ** Vocabulary of the properties *)
(* ================================================================== *)

(** The parts of the truncation notice around its two variable spots. *)
Definition NOTICE_HEAD : str :=
  [nl; nl] ++ U "---" ++ [nl] ++ U "**".

Definition NOTICE_SIZE : str :=
  U "**: Showing partial results due to size limit (".

Definition NOTICE_HINTS : str :=
  U " characters). To see more:" ++ [nl]
  ++ U "- Use pagination with `limit` and `offset` parameters" ++ [nl]
  ++ U "- Add filters to narrow down results" ++ [nl]
  ++ U "- Request specific items by ID" ++ [nl].

(** The client calls of a [GET] and of a [POST] request of a tool. *)
Definition get_call (e : env) (endpoint : string) (params : option (dict str)) : http_call :=
  HttpGet (API_BASE_URL ++ U endpoint) [(U "X-API-Token", API_TOKEN e)] params.

Definition post_call (e : env) (endpoint : string) (body : dict json) : http_call :=
  HttpPost (API_BASE_URL ++ U endpoint)
    [(U "X-API-Token", API_TOKEN e); (U "Content-Type", U "application/json")]
    (Some (JDict body)).

(** The keys [marvin_add_task] may put into the body of its request. *)
Definition ADD_TASK_KEYS : list str :=
  [U "title"; U "done"; U "note"; U "day"; U "dueDate"; U "parentId";
   U "labelIds"; U "timeEstimate"; U "isStarred"].

(** Four digits, a dash, two digits, a dash, two digits, and nothing
    else. *)
Definition date_shape (digit_value : char -> option Z) (s : str) : Prop :=
  exists y1 y2 y3 y4 m1 m2 d1 d2 : char,
    s = [y1; y2; y3; y4; minus; m1; m2; minus; d1; d2] /\
    Forall (fun c => is_digit digit_value c = true) [y1; y2; y3; y4; m1; m2; d1; d2].

(** Validation of a date field ([day], [due_date], [date]) accepts the
    raw string [s]. *)
Definition date_field_accepts (digit_value : char -> option Z) (s : str) : bool :=
  match optional_date digit_value "day" (Some s) with
  | ([], Some _) => true
  | _ => false
  end.

(** A field of a JSON object. *)
Definition json_get (k : string) (j : json) : option json :=
  match j with
  | JDict d => dict_lookup (U k) d
  | _ => None
  end.

(** The markdown block of a due task whose heading ends in [tag] and
    whose due date reads [due]. *)
Definition due_block_with (task : record) (tag due : str) : result (list str) :=
  estimate <- estimate_line task ;;
  note <- note_line task 200 ;;
  Ok ([U "## " ++ status_glyph task ++ U " "
         ++ py_str (get_default task "title" (VStr (U "Untitled"))) ++ tag;
       U "- **ID**: " ++ py_str (get_default task "_id" (VStr []));
       U "- **Due**: " ++ due]
      ++ estimate ++ note ++ [[]]).

(** The JSON object of a due task whose due date reads [due], followed
    by the fields [extra]. *)
Definition due_json_with (task : record) (due : str) (extra : dict json) : result json :=
  estimate <- estimate_json task ;;
  Ok (JDict ([(U "id", json_of_value (get task "_id"));
              (U "title", json_of_value (get task "title"));
              (U "done", json_of_value (get_default task "done" (VBool false)));
              (U "dueDate", JStr due);
              (U "timeEstimate", estimate)] ++ extra)).

(** Reading a markdown block back: [s] without its prefix [p], the text
    of the first line of a block that starts "- **label**: ", and the
    text of a heading after "## ". *)
Fixpoint strip_prefix (p s : str) : option str :=
  match p, s with
  | [], _ => Some s
  | a :: p', b :: s' => if N.eqb a b then strip_prefix p' s' else None
  | _ :: _, [] => None
  end.

Fixpoint md_field (label : string) (block : list str) : option str :=
  match block with
  | [] => None
  | line :: rest =>
      match strip_prefix (U "- **" ++ U label ++ U "**: ") line with
      | Some text => Some text
      | None => md_field label rest
      end
  end.

Definition md_heading (block : list str) : option str :=
  match block with
  | line :: _ => strip_prefix (U "## ") line
  | [] => None
  end.

(** Reading a JSON object back: the string under a key, [None] for
    [null]. *)
Definition json_text (k : string) (object : json) : option str :=
  match json_get k object with
  | Some (JStr s) => Some s
  | _ => None
  end.

(** A note of 201 characters that ends in [last], and a task due on
    2024-03-14T00:00:00 that carries a given note. *)
Definition long_note (last : char) : str := repeat 97%N 200 ++ [last].

Definition noted_task (note : str) : record :=
  [(U "_id", VStr (U "t1")); (U "title", VStr (U "Write report"));
   (U "dueDate", VInt 1710374400000); (U "note", VStr note)].

Definition tasks_input (date : string) (format : ResponseFormat) : GetTasksInput.t :=
  {| GetTasksInput.date := Some (U date); GetTasksInput.response_format := format |}.

(** What markdown makes of a field of a JSON object: its truth value,
    and its text, with a placeholder for [null]. *)
Definition json_truthy (j : option json) : bool :=
  match j with
  | Some (JBool b) => b
  | Some (JInt z) => negb (z =? 0)
  | Some (JStr (_ :: _)) => true
  | _ => false
  end.

Definition shown (placeholder : string) (j : option json) : str :=
  match j with
  | Some (JStr s) => s
  | Some (JInt z) => str_of_int z
  | Some (JBool true) => U "True"
  | Some (JBool false) => U "False"
  | _ => U placeholder
  end.

Definition glyph_of (done : bool) : str := if done then GLYPH_DONE else GLYPH_OPEN.

(** Markdown shows [text] for the field [j] of a JSON object: the text
    of its value, and for [null] the placeholder of an absent field or
    "None", the text of a field that is present and null. *)
Definition shows_value (placeholder : string) (text : str) (j : option json) : Prop :=
  match j with
  | Some JNull => text = U placeholder \/ text = U "None"
  | _ => text = shown placeholder j
  end.

(** The block shows the identifier, the title and the done-flag the
    object carries; [tag] is what follows the title in the heading. *)
Definition shows_entry (block : list str) (object : json) (tag : str) : Prop :=
  exists title_text id_text : str,
    md_heading block
    = Some (glyph_of (json_truthy (json_get "done" object)) ++ U " " ++ title_text ++ tag)
    /\ md_field "ID" block = Some id_text
    /\ shows_value "Untitled" title_text (json_get "title" object)
    /\ shows_value "" id_text (json_get "id" object).

Definition OVERDUE_TAGS : list str := [[]; U " [OVERDUE]"; U " [DUE TODAY]"].

(** Concrete inputs of the examples. *)

Definition unwrap {A : Type} (default : A) (r : result A) : A :=
  match r with
  | Ok a => a
  | Raise _ => default
  end.

(** Raw arguments of add-task with a title of three spaces. *)
Definition blank_title_raw : AddTaskInput.raw :=
  {| AddTaskInput.raw_title := Some (U "   ");
     AddTaskInput.raw_note := None;
     AddTaskInput.raw_day := None;
     AddTaskInput.raw_due_date := None;
     AddTaskInput.raw_parent_id := None;
     AddTaskInput.raw_label_ids := None;
     AddTaskInput.raw_time_estimate := None;
     AddTaskInput.raw_is_starred := None;
     AddTaskInput.raw_extra := [] |}.

(** Raw arguments of a listing whose response format is [null]. *)
Definition null_format_raw : SimpleFormatInput.raw :=
  {| SimpleFormatInput.raw_response_format := Null;
     SimpleFormatInput.raw_extra := [] |}.

(** 2024-03-15T00:00:00, the reference date of the examples. *)
Definition reference_dt : datetime := days_from_civil 2024 3 15 * MS_PER_DAY.

Definition sample_task : record := noted_task (long_note 98%N).

Definition untitled_task : record := [(U "_id", VStr (U "t2")); (U "done", VBool true)].

Definition sample_env : env := utc_env (Ok (PRecords [sample_task; untitled_task])).

(* ================================================================== *)
(** ** Further vocabulary *)
(* ================================================================== *)

(** [int(s)] for a string of ASCII digits with an optional sign, [None]
    for any other string. *)
Fixpoint nat_of_digits (acc : N) (s : str) : option N :=
  match s with
  | [] => Some acc
  | c :: r =>
      if in_range c 48 57 then nat_of_digits (10 * acc + (c - 48)) r else None
  end.

Definition int_of_str (s : str) : option Z :=
  match s with
  | [] => None
  | c :: r =>
      if N.eqb c minus then
        match r with
        | [] => None
        | _ => option_map (fun n => - Z.of_N n) (nat_of_digits 0 r)
        end
      else option_map Z.of_N (nat_of_digits 0 s)
  end.


(** The keys of a dict, in order. *)
Definition keys {V : Type} (d : dict V) : list str := map fst d.

(** A computation that issues no request: it returns the log as it
    got it. *)
Definition issues_nothing {A : Type} (m : M A) : Prop :=
  forall log, snd (m log) = log.

(** The annotations a tool is registered with. *)
Record annotations : Type := {
  name : string;
  title : string;
  readOnlyHint : bool;
  destructiveHint : bool;
  idempotentHint : bool;
  openWorldHint : bool
}.

Definition tool_annotations (c : tool_call) : annotations :=
  match c with
  | call_marvin_add_task _ =>
      {| name := "marvin_add_task"; title := "Add Task to Amazing Marvin";
         readOnlyHint := false; destructiveHint := false;
         idempotentHint := false; openWorldHint := true |}
  | call_marvin_get_todays_tasks _ =>
      {| name := "marvin_get_todays_tasks"; title := "Get Today's Tasks";
         readOnlyHint := true; destructiveHint := false;
         idempotentHint := true; openWorldHint := true |}
  | call_marvin_mark_done _ =>
      {| name := "marvin_mark_done"; title := "Mark Task as Done";
         readOnlyHint := false; destructiveHint := false;
         idempotentHint := true; openWorldHint := true |}
  | call_marvin_get_due_tasks _ =>
      {| name := "marvin_get_due_tasks"; title := "Get Due and Overdue Tasks";
         readOnlyHint := true; destructiveHint := false;
         idempotentHint := true; openWorldHint := true |}
  | call_marvin_get_categories _ =>
      {| name := "marvin_get_categories"; title := "List All Categories and Projects";
         readOnlyHint := true; destructiveHint := false;
         idempotentHint := true; openWorldHint := true |}
  | call_marvin_get_labels _ =>
      {| name := "marvin_get_labels"; title := "List All Labels";
         readOnlyHint := true; destructiveHint := false;
         idempotentHint := true; openWorldHint := true |}
  | call_marvin_get_children _ =>
      {| name := "marvin_get_children"; title := "Get Items in Category/Project";
         readOnlyHint := true; destructiveHint := false;
         idempotentHint := true; openWorldHint := true |}
  | call_marvin_start_tracking _ =>
      {| name := "marvin_start_tracking"; title := "Start Time Tracking";
         readOnlyHint := false; destructiveHint := false;
         idempotentHint := false; openWorldHint := true |}
  | call_marvin_stop_tracking =>
      {| name := "marvin_stop_tracking"; title := "Stop Time Tracking";
         readOnlyHint := false; destructiveHint := false;
         idempotentHint := true; openWorldHint := true |}
  end.

(** The parts of a call on the HTTP client. *)
Definition call_is_get (c : http_call) : bool :=
  match c with
  | HttpGet _ _ _ => true
  | HttpPost _ _ _ => false
  end.

Definition call_url (c : http_call) : str :=
  match c with
  | HttpGet url _ _ => url
  | HttpPost url _ _ => url
  end.

Definition call_headers (c : http_call) : dict str :=
  match c with
  | HttpGet _ headers _ => headers
  | HttpPost _ headers _ => headers
  end.

(** The success texts of the mutating tools. *)
Definition mark_done_text (item_id : str) : str :=
  GLYPH_DONE ++ U " Task marked as complete!" ++ [nl; nl] ++ U "**Task ID**: " ++ item_id.

Definition start_tracking_text (item_id : str) : str :=
  GLYPH_TIMER ++ U " Timer started for task!" ++ [nl; nl]
  ++ U "**Task ID**: " ++ item_id ++ [nl; nl]
  ++ U "_Note: Any previously running timer has been stopped._".

Definition stop_tracking_text : str :=
  GLYPH_TIMER ++ U " Timer stopped successfully!" ++ [nl; nl]
  ++ U "_Time tracking has been saved to the task._".

(** A tool with its validated input. *)
Inductive tool_input : Type :=
| input_marvin_add_task (params : AddTaskInput.t)
| input_marvin_get_todays_tasks (params : GetTasksInput.t)
| input_marvin_mark_done (params : MarkDoneInput.t)
| input_marvin_get_due_tasks (params : GetTasksInput.t)
| input_marvin_get_categories (params : SimpleFormatInput.t)
| input_marvin_get_labels (params : SimpleFormatInput.t)
| input_marvin_get_children (params : GetChildrenInput.t)
| input_marvin_start_tracking (params : StartTrackingInput.t)
| input_marvin_stop_tracking.

Definition run_tool (digit_value : char -> option Z) (repr : str -> str) (e : env)
  (i : tool_input) : str * list http_call :=
  match i with
  | input_marvin_add_task params => marvin_add_task e params
  | input_marvin_get_todays_tasks params => marvin_get_todays_tasks e params
  | input_marvin_mark_done params => marvin_mark_done e params
  | input_marvin_get_due_tasks params => marvin_get_due_tasks digit_value repr e params
  | input_marvin_get_categories params => marvin_get_categories e params
  | input_marvin_get_labels params => marvin_get_labels e params
  | input_marvin_get_children params => marvin_get_children e params
  | input_marvin_start_tracking params => marvin_start_tracking e params
  | input_marvin_stop_tracking => marvin_stop_tracking e
  end.

(** The request of a tool: the one call it makes on the HTTP client,
    or the exception raised before it. *)
Definition tool_request (e : env) (i : tool_input) : result http_call :=
  match i with
  | input_marvin_add_task params => Ok (post_call e "/addTask" (add_task_data params))
  | input_marvin_get_todays_tasks params =>
      target_date <- target_date_of e (GetTasksInput.date params) ;;
      Ok (get_call e "/todayItems" (Some [(U "date", target_date)]))
  | input_marvin_mark_done params =>
      Ok (post_call e "/markDone" [(U "itemId", JStr (MarkDoneInput.item_id params))])
  | input_marvin_get_due_tasks params =>
      target_date <- target_date_of e (GetTasksInput.date params) ;;
      Ok (get_call e "/dueItems" (Some [(U "by", target_date)]))
  | input_marvin_get_categories _ => Ok (get_call e "/categories" None)
  | input_marvin_get_labels _ => Ok (get_call e "/labels" None)
  | input_marvin_get_children params =>
      Ok (get_call e "/children"
            (Some [(U "parentId", GetChildrenInput.parent_id params)]))
  | input_marvin_start_tracking params =>
      Ok (post_call e "/track"
            [(U "itemId", JStr (StartTrackingInput.item_id params));
             (U "action", JStr (U "START"))])
  | input_marvin_stop_tracking =>
      Ok (post_call e "/track" [(U "action", JStr (U "STOP"))])
  end.

(** What every request of the gateway has: the fixed base URL, the API
    token under its header, and no full-access token. *)
Definition well_addressed (e : env) (c : http_call) : Prop :=
  starts_with API_BASE_URL (call_url c)
  /\ dict_lookup (U "X-API-Token") (call_headers c) = Some (API_TOKEN e)
  /\ dict_lookup (U "X-Full-Access-Token") (call_headers c) = None.

(** A field check passes with the value [a]. *)
Definition accepted {A : Type} (c : checked A) (a : A) : Prop :=
  fst c = [] /\ snd c = Some a.

(** An optional raw value and its validated value: both absent, or both
    present and related by [R]. *)
Definition option_rel {A B : Type} (R : A -> B -> Prop) (raw : option A)
  (validated : option B) : Prop :=
  match raw, validated with
  | None, None => True
  | Some a, Some b => R a b
  | _, _ => False
  end.

(** The raw arguments that spell out a validated add-task input. *)
Definition AddTaskInput_dump (p : AddTaskInput.t) : AddTaskInput.raw :=
  {| AddTaskInput.raw_title := Some (AddTaskInput.title p);
     AddTaskInput.raw_note := AddTaskInput.note p;
     AddTaskInput.raw_day := AddTaskInput.day p;
     AddTaskInput.raw_due_date := AddTaskInput.due_date p;
     AddTaskInput.raw_parent_id := AddTaskInput.parent_id p;
     AddTaskInput.raw_label_ids := AddTaskInput.label_ids p;
     AddTaskInput.raw_time_estimate := AddTaskInput.time_estimate p;
     AddTaskInput.raw_is_starred := AddTaskInput.is_starred p;
     AddTaskInput.raw_extra := [] |}.

(** Raw arguments of add-task with padded strings. *)
Definition padded_raw : AddTaskInput.raw :=
  {| AddTaskInput.raw_title := Some (U "  Call dentist ~15 ");
     AddTaskInput.raw_note := Some (U " bring x-rays ");
     AddTaskInput.raw_day := Some (U " 2024-03-20");
     AddTaskInput.raw_due_date := None;
     AddTaskInput.raw_parent_id := None;
     AddTaskInput.raw_label_ids := Some [U " label_1 "];
     AddTaskInput.raw_time_estimate := Some 900000;
     AddTaskInput.raw_is_starred := Some true;
     AddTaskInput.raw_extra := [] |}.

Definition trimmed_input : AddTaskInput.t :=
  {| AddTaskInput.title := U "Call dentist ~15";
     AddTaskInput.note := Some (U "bring x-rays");
     AddTaskInput.day := Some (U "2024-03-20");
     AddTaskInput.due_date := None;
     AddTaskInput.parent_id := None;
     AddTaskInput.label_ids := Some [U "label_1"];
     AddTaskInput.time_estimate := Some 900000;
     AddTaskInput.is_starred := Some true |}.

(** The key lists of the JSON objects of the listings. *)
Definition TASK_KEYS : list str :=
  [U "id"; U "title"; U "done"; U "dueDate"; U "timeEstimate"; U "parentId"; U "note"].

Definition DUE_TASK_KEYS : list str :=
  [U "id"; U "title"; U "done"; U "dueDate"; U "timeEstimate"].

Definition CATEGORY_KEYS : list str :=
  [U "id"; U "title"; U "type"; U "parentId"; U "note"].

Definition LABEL_KEYS : list str := [U "id"; U "title"].

Definition CHILD_KEYS : list str :=
  [U "id"; U "title"; U "type"; U "done"; U "dueDate"; U "timeEstimate"; U "note"].

Definition json_keys (j : json) : option (list str) :=
  match j with
  | JDict d => Some (keys d)
  | _ => None
  end.

(** The three lines of the markdown block of a label. *)
Definition label_lines (label : record) : list str :=
  [U "## " ++ py_str (get_default label "title" (VStr (U "Untitled")));
   U "- **ID**: " ++ py_str (get_default label "_id" (VStr []));
   []].

(** A string of ASCII characters. *)
Definition is_ascii (s : str) : Prop := Forall (fun c => (c < 128)%N) s.

(** The year, month and day that a string of ASCII digits of the shape
    of a date spells, and whether they are a date of the calendar. *)
Definition spelled_year (y1 y2 y3 y4 : char) : Z :=
  1000 * ascii_value y1 + 100 * ascii_value y2 + 10 * ascii_value y3 + ascii_value y4.

Definition spelled_two (c1 c2 : char) : Z := 10 * ascii_value c1 + ascii_value c2.

Definition calendar_date (y m d : Z) : Prop :=
  1 <= y /\ 1 <= m <= 12 /\ 1 <= d <= days_in_month y m.

(** Arguments of the due-tasks listing that name the thirtieth of
    February. *)
Definition february_30_raw : GetTasksInput.raw :=
  {| GetTasksInput.raw_date := Some (U "2024-02-30");
     GetTasksInput.raw_response_format := Given (U "json");
     GetTasksInput.raw_extra := [] |}.

(** [str(y)] is four ASCII digits that spell [y]; [two_digits n] is two
    ASCII digits that spell [n]. *)
Definition four_digit_year (y : Z) : bool :=
  match str_of_int y with
  | [a; b; c; d] =>
      in_range a 48 57 && in_range b 48 57 && in_range c 48 57 && in_range d 48 57
      && (spelled_year a b c d =? y)
  | _ => false
  end.

Definition two_digit_field (n : Z) : bool :=
  match two_digits n with
  | [a; b] => in_range a 48 57 && in_range b 48 57 && (spelled_two a b =? n)
  | _ => false
  end.

(** The arguments of a listing without a date. *)
Definition undated_input (format : ResponseFormat) : GetTasksInput.t :=
  {| GetTasksInput.date := None; GetTasksInput.response_format := format |}.

(** An answer to add-task that echoes the day as the date string it was
    sent as. *)
Definition echoed_task : record :=
  [(U "_id", VStr (U "t9")); (U "title", VStr (U "Call dentist ~15"));
   (U "day", VStr (U "2024-03-20"))].

Definition ATTRIBUTE_ERROR_NONE : str :=
  U "Error: Unexpected error occurred - AttributeError: 'NoneType' object has no attribute 'get'".

Definition ATTRIBUTE_ERROR_LIST : str :=
  U "Error: Unexpected error occurred - AttributeError: 'list' object has no attribute 'get'".

Definition TYPE_ERROR_STR_DIV : str :=
  U "Error: Unexpected error occurred - TypeError: unsupported operand type(s) for /: 'str' and 'int'".

(** An add-task input with a title only. *)
Definition title_only_input : AddTaskInput.t :=
  {| AddTaskInput.title := U "Buy milk";
     AddTaskInput.note := None;
     AddTaskInput.day := None;
     AddTaskInput.due_date := None;
     AddTaskInput.parent_id := None;
     AddTaskInput.label_ids := None;
     AddTaskInput.time_estimate := None;
     AddTaskInput.is_starred := None |}.

(** ** The hosted variant ([src/amazing_marvin_mcp/server.py]) *)

(** The hosted server takes the API token from the session's
    configuration instead of the process environment; its error
    normalizer differs from the one above in two messages. *)
Module Smithery.

Definition msg_invalid_token : str :=
  U "Error: Invalid API token. Please check that your API token is correct. "
  ++ U "Get your token at https://app.amazingmarvin.com/pre?api=".

Definition msg_permission_denied : str :=
  U "Error: Permission denied. This operation may require full access token.".

Definition _handle_api_error (e : exn) : str :=
  match e with
  | HTTPStatusError status _ =>
      if status =? 401 then msg_invalid_token
      else if status =? 403 then msg_permission_denied
      else if status =? 404 then msg_not_found
      else if status =? 429 then msg_rate_limit
      else if status >=? 500 then msg_server_error
      else msg_status status
  | TimeoutException => msg_timeout
  | ConnectError => msg_connect
  | OtherException type_name message => msg_unexpected type_name message
  end.

End Smithery.

(** A task whose due date is a date string, and a listing that starts
    with it. *)
Definition dated_task : record :=
  [(U "_id", VStr (U "t7")); (U "title", VStr (U "File taxes"));
   (U "dueDate", VStr (U "2024-03-10"))].

Definition dated_env : env := utc_env (Ok (PRecords [dated_task; sample_task])).


(** The field of a record that a key of a JSON object is read from, and
    the value of a key whose field the record lacks. *)
Definition SOURCE_FIELDS : list (string * string) :=
  [("id", "_id"); ("title", "title"); ("type", "type"); ("done", "done");
   ("dueDate", "dueDate"); ("timeEstimate", "timeEstimate");
   ("parentId", "parentId"); ("note", "note"); ("daysOverdue", "dueDate")]%string.

Definition absent_value (key : string) : json :=
  if String.eqb key "done" then JBool false else JNull.

Definition nulls_absent_fields (r : record) (object : json) : Prop :=
  forall (key field : string) (value : json),
    In (key, field) SOURCE_FIELDS ->
    dict_lookup (U field) r = None ->
    json_get key object = Some value ->
    value = absent_value key.

(** The keys of the object of a due task with the given days overdue. *)
Definition due_task_keys (days_diff : option Z) : list str :=
  DUE_TASK_KEYS
  ++ match days_diff with
     | Some d => if d >? 0 then [U "daysOverdue"] else []
     | None => []
     end.
(* ================================================================== *)
(** * Properties *)
(* ================================================================== *)

(** ** Strings *)

Lemma str_eqb_eq (a b : str) : str_eqb a b = true <-> a = b.
Proof.
  revert b; induction a as [|x a IH]; intros [|y b]; simpl; split;
    try congruence; try discriminate.
  - intros H. apply andb_true_iff in H as [H1 H2].
    apply N.eqb_eq in H1. apply IH in H2. congruence.
  - intros H. injection H as -> ->. rewrite N.eqb_refl. simpl. now apply IH.
Qed.

Lemma str_eqb_neq (a b : str) : str_eqb a b = false -> a <> b.
Proof.
  intros H E. apply str_eqb_eq in E. congruence.
Qed.

Lemma len_app {A : Type} (a b : list A) : len (a ++ b) = len a + len b.
Proof.
  unfold len. rewrite length_app. lia.
Qed.

Lemma len_nonneg {A : Type} (a : list A) : 0 <= len a.
Proof.
  unfold len. lia.
Qed.

Lemma slice_to_nonneg (s : str) (n : Z) :
  0 <= n -> slice_to s n = firstn (Z.to_nat n) s.
Proof.
  intros H. unfold slice_to. destruct (n <? 0) eqn:E; [lia | reflexivity].
Qed.

Lemma len_slice_to (s : str) (n : Z) : 0 <= n <= len s -> len (slice_to s n) = n.
Proof.
  intros H. rewrite slice_to_nonneg by lia. unfold len in *.
  rewrite length_firstn. lia.
Qed.


Lemma char_at_slice_to (s : str) (n i : Z) :
  0 <= i < n -> char_at (slice_to s n) i = char_at s i.
Proof.
  intros H. rewrite slice_to_nonneg by lia. unfold char_at.
  destruct (i <? 0) eqn:E; [lia|]. rewrite nth_error_firstn.
  destruct (Nat.ltb (Z.to_nat i) (Z.to_nat n)) eqn:L; [reflexivity|].
  apply Nat.ltb_ge in L. lia.
Qed.

(** [rfind_from] returns the accumulator when the character is absent
    and the position of its last occurrence otherwise. *)
Lemma rfind_from_spec (c : char) (s : str) :
  forall i acc,
    (rfind_from c s i acc = acc /\
     forall j, (j < length s)%nat -> nth_error s j <> Some c)
    \/
    (exists j, (j < length s)%nat /\
       rfind_from c s i acc = i + Z.of_nat j /\
       nth_error s j = Some c /\
       forall j', (j < j' < length s)%nat -> nth_error s j' <> Some c).
Proof.
  induction s as [|x r IH]; intros i acc; simpl.
  - left. split; [reflexivity | intros j Hj; lia].
  - destruct (IH (i + 1) (if N.eqb x c then i else acc)) as [[E N]|[j [Hj [E [Hc N]]]]].
    + destruct (N.eqb x c) eqn:X.
      * right. exists 0%nat. apply N.eqb_eq in X. subst x.
        repeat split; [lia | rewrite E; lia |].
        intros [|j'] Hj'; [lia|]. simpl. apply N. lia.
      * left. split; [exact E|].
        intros [|j] Hj; simpl.
        -- intros H. injection H as ->. rewrite N.eqb_refl in X. discriminate.
        -- apply N. lia.
    + right. exists (S j). repeat split; [lia | rewrite E; lia | exact Hc |].
      intros [|j'] Hj'; [lia|]. simpl. apply N. lia.
Qed.

(** ** Truncation guard *)

(** ** Formatters *)

Example format_time_estimate_samples :
  _format_time_estimate (VInt 0) = Ok (U "Not set")
  /\ _format_time_estimate VNone = Ok (U "Not set")
  /\ _format_time_estimate (VInt 30000) = Ok (U "< 1m")
  /\ _format_time_estimate (VInt 3660000) = Ok (U "1h 1m")
  /\ _format_time_estimate (VInt 7200000) = Ok (U "2h")
  /\ _format_time_estimate (VInt 900000) = Ok (U "15m").
Proof.
  repeat split; reflexivity.
Qed.

Example format_timestamp_samples :
  _format_timestamp (utc_env (Ok PNull)) VNone NOT_SET = Ok (U "Not set")
  /\ _format_timestamp (utc_env (Ok PNull)) (VInt 1710374400000) NOT_SET
     = Ok (U "2024-03-14")
  /\ _format_timestamp (utc_env (Ok PNull)) (VInt 999999999999999) NOT_SET
     = Ok (U "Not set").
Proof.
  repeat split; vm_compute; reflexivity.
Qed.

(** ** Numbers in texts *)

Lemma in_range_bounds (c : char) (lo hi : N) :
  in_range c lo hi = true <-> (lo <= c <= hi)%N.
Proof.
  unfold in_range. rewrite andb_true_iff, !N.leb_le. tauto.
Qed.

Lemma uint_chars_digits (d : Decimal.uint) :
  Forall (fun c => in_range c 48 57 = true) (uint_chars d).
Proof.
  induction d; simpl; constructor; try reflexivity; assumption.
Qed.

Lemma nat_of_digits_cons (acc : N) (c : char) (r : str) :
  in_range c 48 57 = true ->
  nat_of_digits acc (c :: r) = nat_of_digits (10 * acc + (c - 48)) r.
Proof.
  intros H. cbn [nat_of_digits]. now rewrite H.
Qed.

Lemma nat_of_digits_acc (d : Decimal.uint) (acc : positive) :
  nat_of_digits (Npos acc) (uint_chars d) = Some (Npos (Pos.of_uint_acc d acc)).
Proof.
  revert acc. induction d; intros acc; cbn [uint_chars Pos.of_uint_acc];
    [reflexivity|..];
    rewrite nat_of_digits_cons by reflexivity; rewrite <- IHd; f_equal; lia.
Qed.

Lemma nat_of_digits_uint (d : Decimal.uint) :
  nat_of_digits 0 (uint_chars d) = Some (N.of_uint d).
Proof.
  unfold N.of_uint. induction d; cbn [uint_chars Pos.of_uint];
    [reflexivity|..];
    rewrite nat_of_digits_cons by reflexivity;
    [exact IHd | apply nat_of_digits_acc ..].
Qed.

Lemma nat_of_digits_digits (n : N) : nat_of_digits 0 (digits n) = Some n.
Proof.
  unfold digits. rewrite nat_of_digits_uint. f_equal. apply DecimalN.Unsigned.of_to.
Qed.

Lemma digits_cons (n : N) :
  exists c r, digits n = c :: r /\ in_range c 48 57 = true.
Proof.
  pose proof (uint_chars_digits (N.to_uint n)) as F. fold (digits n) in F.
  destruct (digits n) as [|c r] eqn:E.
  - destruct n as [|p]; [discriminate E|].
    pose proof (nat_of_digits_digits (Npos p)) as H. rewrite E in H. discriminate H.
  - inversion F. eauto.
Qed.

Lemma int_of_str_of_int (z : Z) : int_of_str (str_of_int z) = Some z.
Proof.
  unfold str_of_int, int_of_str. destruct (z <? 0) eqn:S.
  - rewrite N.eqb_refl. destruct (digits_cons (Z.abs_N z)) as [c [r [E _]]].
    rewrite E, <- E, nat_of_digits_digits. cbn [option_map]. f_equal.
    rewrite N2Z.inj_abs_N. lia.
  - destruct (digits_cons (Z.to_N z)) as [c [r [E D]]]. rewrite E.
    assert (M : N.eqb c minus = false).
    { apply in_range_bounds in D. unfold minus. apply N.eqb_neq. lia. }
    rewrite M, <- E, nat_of_digits_digits. cbn [option_map]. f_equal.
    apply Z2N.id. lia.
Qed.







Lemma truncation_notice_parts (n : Z) :
  truncation_notice n =
  NOTICE_HEAD ++ U "Response Truncated" ++ NOTICE_SIZE ++ format_thousands n ++ NOTICE_HINTS.
Proof.
  reflexivity.
Qed.

(** The claim C9: the truncation guard ignores [items_count]; two calls
    on the same content with any two counts return the same text. *)
Theorem truncate_response_ignores_items_count :
  forall (content : str) (count1 count2 : Z),
    _truncate_response content count1 = _truncate_response content count2.
Proof.
  intros content count1 count2. reflexivity.
Qed.



(** ** Error normalizer *)

Lemma make_api_request_get (e : env) (endpoint : string) (params : option (dict str))
  (log : list http_call) :
  _make_api_request e endpoint "GET" None params false log
  = (remote e (get_call e endpoint params), log ++ [get_call e endpoint params]).
Proof.
  reflexivity.
Qed.

Lemma make_api_request_post (e : env) (endpoint : string) (body : dict json)
  (log : list http_call) :
  _make_api_request e endpoint "POST" (Some (JDict body)) None false log
  = (remote e (post_call e endpoint body), log ++ [post_call e endpoint body]).
Proof.
  reflexivity.
Qed.

Lemma handle_api_error_prefixed (e : exn) :
  starts_with (U "Error: ") (_handle_api_error e).
Proof.
  exists (skipn 7 (_handle_api_error e)).
  destruct e as [status body| | |name message]; try reflexivity.
  unfold _handle_api_error.
  repeat match goal with |- context [if ?b then _ else _] => destruct b end;
    reflexivity.
Qed.

(** The claim C1: the error normalizer is a total function whose result
    always starts with "Error: " (so it is not empty); an HTTP status
    error is mapped by its status code alone to the text written out
    below (401, 403, 404, 429, 500 and above, any other status with the
    code cited), whatever the response body; a timeout, a connection
    failure and any other exception have their texts; and a 404 answer
    to the request of mark-done makes the tool return exactly the
    not-found text. *)
Theorem handle_api_error_normalizes :
  (forall e : exn,
     starts_with (U "Error: ") (_handle_api_error e) /\ _handle_api_error e <> []) /\
  (forall body,
     _handle_api_error (HTTPStatusError 401 body)
     = U "Error: Invalid API token. Please check your AMAZING_MARVIN_API_TOKEN "
       ++ U "environment variable is set correctly. Get your token at "
       ++ U "https://app.amazingmarvin.com/pre?api=") /\
  (forall body,
     _handle_api_error (HTTPStatusError 403 body)
     = U "Error: Permission denied. This operation requires full access token. "
       ++ U "Set AMAZING_MARVIN_FULL_TOKEN environment variable if needed.") /\
  (forall body,
     _handle_api_error (HTTPStatusError 404 body)
     = U "Error: Resource not found. Please check that the ID is correct and "
       ++ U "the item still exists in Amazing Marvin.") /\
  (forall body,
     _handle_api_error (HTTPStatusError 429 body)
     = U "Error: Rate limit exceeded. Please wait a moment before making more "
       ++ U "requests to the Amazing Marvin API.") /\
  (forall status body,
     500 <= status ->
     _handle_api_error (HTTPStatusError status body)
     = U "Error: Amazing Marvin server error. The service may be temporarily "
       ++ U "unavailable. Please try again in a few moments.") /\
  (forall status body,
     status < 500 -> status <> 401 -> status <> 403 -> status <> 404 -> status <> 429 ->
     _handle_api_error (HTTPStatusError status body)
     = U "Error: API request failed with status " ++ str_of_int status
       ++ U ". Please try again.") /\
  _handle_api_error TimeoutException
  = U "Error: Request timed out. The Amazing Marvin API is taking too long to "
    ++ U "respond. Please try again." /\
  _handle_api_error ConnectError
  = U "Error: Cannot connect to Amazing Marvin API. Please check your internet "
    ++ U "connection and try again." /\
  (forall name message,
     _handle_api_error (OtherException name message)
     = U "Error: Unexpected error occurred - " ++ name ++ U ": " ++ message) /\
  (forall (e : env) (params : MarkDoneInput.t) (body : str),
     let call := post_call e "/markDone"
                   [(U "itemId", JStr (MarkDoneInput.item_id params))] in
     remote e call = Raise (HTTPStatusError 404 body) ->
     marvin_mark_done e params
     = (U "Error: Resource not found. Please check that the ID is correct and "
        ++ U "the item still exists in Amazing Marvin.",
        [call])).
Proof.
  split; [|repeat split].
  - intros e. split; [apply handle_api_error_prefixed|].
    destruct (handle_api_error_prefixed e) as [rest ->]. discriminate.
  - intros status body H. unfold _handle_api_error.
    destruct (status =? 401) eqn:E1; [lia|].
    destruct (status =? 403) eqn:E2; [lia|].
    destruct (status =? 404) eqn:E3; [lia|].
    destruct (status =? 429) eqn:E4; [lia|].
    destruct (status >=? 500) eqn:E5; [reflexivity|lia].
  - intros status body H N1 N2 N3 N4. unfold _handle_api_error.
    destruct (status =? 401) eqn:E1; [lia|].
    destruct (status =? 403) eqn:E2; [lia|].
    destruct (status =? 404) eqn:E3; [lia|].
    destruct (status =? 429) eqn:E4; [lia|].
    destruct (status >=? 500) eqn:E5; [lia|reflexivity].
  - intros e params body call H.
    unfold marvin_mark_done, try_except, bindM.
    rewrite make_api_request_post. fold call. rewrite H. reflexivity.
Qed.

Lemma handle_api_error_normalizes_witness :
  _handle_api_error (HTTPStatusError 503 (U "Service Unavailable"))
  = U "Error: Amazing Marvin server error. The service may be temporarily "
    ++ U "unavailable. Please try again in a few moments." /\
  _handle_api_error (HTTPStatusError 418 (U "teapot"))
  = U "Error: API request failed with status 418. Please try again." /\
  marvin_mark_done (utc_env (Raise (HTTPStatusError 404 (U "{'error': 'gone'}"))))
    {| MarkDoneInput.item_id := U "task_missing" |}
  = (U "Error: Resource not found. Please check that the ID is correct and "
     ++ U "the item still exists in Amazing Marvin.",
     [post_call (utc_env (Raise (HTTPStatusError 404 (U "{'error': 'gone'}"))))
        "/markDone" [(U "itemId", JStr (U "task_missing"))]]).
Proof.
  pose proof handle_api_error_normalizes as [_ [_ [_ [_ [_ [H500 [Hother [_ [_ [_ Hdone]]]]]]]]]].
  split; [|split].
  - apply H500. lia.
  - apply (Hother 418); lia.
  - exact (Hdone (utc_env (Raise (HTTPStatusError 404 (U "{'error': 'gone'}"))))
             {| MarkDoneInput.item_id := U "task_missing" |}
             (U "{'error': 'gone'}") eq_refl).
Defined.

(** ** Validation before any request *)

Section GatewayProperties.

Variable digit_value : char -> option Z.
Variable py_digit_value : char -> option Z.
Variable repr : str -> str.

Lemma model_validate_fails {A : Type} (fields : checked A) (extra : list str) :
  fst fields ++ forbid_extra extra <> [] ->
  exists violations, model_validate fields extra = inl violations.
Proof.
  unfold model_validate. intros H.
  destruct (fst fields ++ forbid_extra extra) as [|v vs]; [congruence|].
  now exists (v :: vs).
Qed.

Lemma validated_failure {R T : Type} (validate : R -> list violation + T)
  (tool : T -> str * list http_call) (raw : R) (violations : list violation) :
  fst (validated validate tool raw) = ValidationError violations ->
  validate raw = inl violations /\ snd (validated validate tool raw) = [].
Proof.
  unfold validated. destruct (validate raw) as [vs|params]; simpl.
  - intros H. injection H as ->. now split.
  - destruct (tool params). simpl. discriminate.
Qed.

Lemma validated_rejects {R T : Type} (validate : R -> list violation + T)
  (tool : T -> str * list http_call) (raw : R) :
  (exists violations, validate raw = inl violations) ->
  exists violations, validated validate tool raw = (ValidationError violations, []).
Proof.
  intros [vs H]. exists vs. unfold validated. now rewrite H.
Qed.

Ltac some_violation :=
  let H := fresh "H" in
  intros H;
  repeat match type of H with
         | _ ++ _ = [] => apply app_eq_nil in H; destruct H as [H ?]
         end;
  congruence.

Lemma forbid_extra_rejects (fields : list violation) (extra : list str) :
  extra <> [] -> fields ++ forbid_extra extra <> [].
Proof.
  intros N H. apply app_eq_nil in H as [_ H]. unfold forbid_extra in H.
  apply map_eq_nil in H. contradiction.
Qed.

Lemma required_str_rejects (field : string) (max_length : option Z) (v : option str) :
  v = None \/ (exists s, v = Some s /\ strip s = []) ->
  fst (required_str field max_length v) <> [].
Proof.
  intros [->|[s [-> E]]]; unfold required_str; [discriminate|].
  rewrite E. discriminate.
Qed.

Lemma response_format_field_rejects (v : arg str) :
  v = Null \/ (exists s, v = Given s /\ s <> U "markdown" /\ s <> U "json") ->
  fst (response_format_field v) <> [].
Proof.
  intros [->|[s [-> [M J]]]]; unfold response_format_field; [discriminate|].
  destruct (str_eqb s (U "markdown")) eqn:E1; [apply str_eqb_eq in E1; contradiction|].
  destruct (str_eqb s (U "json")) eqn:E2; [apply str_eqb_eq in E2; contradiction|].
  discriminate.
Qed.

Lemma optional_date_rejects (field : string) (v : option str) :
  (exists d, v = Some d /\ full_match digit_value DATE_PATTERN (strip d) = false) ->
  fst (optional_date digit_value field v) <> [].
Proof.
  intros [d [-> E]]. unfold optional_date. rewrite E. discriminate.
Qed.

Lemma validate_AddTaskInput_rejects (raw : AddTaskInput.raw) :
  (AddTaskInput.raw_extra raw <> []
   \/ AddTaskInput.raw_title raw = None
   \/ (exists t, AddTaskInput.raw_title raw = Some t /\ strip t = [])
   \/ (exists t, AddTaskInput.raw_title raw = Some t /\ 500 < len (strip t))
   \/ (exists n, AddTaskInput.raw_note raw = Some n /\ 5000 < len (strip n))
   \/ (exists d, AddTaskInput.raw_day raw = Some d
                 /\ full_match digit_value DATE_PATTERN (strip d) = false)
   \/ (exists d, AddTaskInput.raw_due_date raw = Some d
                 /\ full_match digit_value DATE_PATTERN (strip d) = false)
   \/ (exists l, AddTaskInput.raw_label_ids raw = Some l /\ 20 < len l)
   \/ (exists z, AddTaskInput.raw_time_estimate raw = Some z
                 /\ (z < 60000 \/ 86400000 < z))) ->
  exists violations, validate_AddTaskInput digit_value raw = inl violations.
Proof.
  intros H. apply model_validate_fails. simpl.
  destruct H as [H|[H|[[t [H E]]|[[t [H E]]|[[n [H E]]|[[d [H E]]|[[d [H E]]|[[l [H E]]
                  |[z [H E]]]]]]]]]].
  - now apply forbid_extra_rejects.
  - rewrite H. simpl. some_violation.
  - rewrite H. unfold required_str at 1. rewrite E. simpl. some_violation.
  - rewrite H. unfold required_str at 1.
    destruct (len (strip t) <? 1) eqn:L; [simpl; some_violation|].
    replace (500 <? len (strip t)) with true by lia. simpl. some_violation.
  - rewrite H. unfold optional_str at 1.
    replace (5000 <? len (strip n)) with true by lia. simpl. some_violation.
  - rewrite H. unfold optional_date at 1. rewrite E. simpl. some_violation.
  - rewrite H. unfold optional_date at 2. rewrite E. simpl. some_violation.
  - rewrite H. unfold optional_str_list.
    replace (20 <? len l) with true by lia. simpl. some_violation.
  - rewrite H. unfold optional_int.
    destruct (z <? 60000) eqn:L; [simpl; some_violation|].
    destruct (86400000 <? z) eqn:G; [simpl; some_violation|]. lia.
Qed.

Lemma validate_GetTasksInput_rejects (raw : GetTasksInput.raw) :
  (GetTasksInput.raw_extra raw <> []
   \/ (exists d, GetTasksInput.raw_date raw = Some d
                 /\ full_match digit_value DATE_PATTERN (strip d) = false)
   \/ GetTasksInput.raw_response_format raw = Null
   \/ (exists s, GetTasksInput.raw_response_format raw = Given s
                 /\ s <> U "markdown" /\ s <> U "json")) ->
  exists violations, validate_GetTasksInput digit_value raw = inl violations.
Proof.
  intros H. apply model_validate_fails. cbn [fst pure ap app].
  destruct H as [H|[H|H]].
  - now apply forbid_extra_rejects.
  - apply optional_date_rejects with (field := "date"%string) in H. some_violation.
  - apply response_format_field_rejects in H. some_violation.
Qed.

Lemma validate_MarkDoneInput_rejects (raw : MarkDoneInput.raw) :
  (MarkDoneInput.raw_extra raw <> []
   \/ MarkDoneInput.raw_item_id raw = None
   \/ (exists s, MarkDoneInput.raw_item_id raw = Some s /\ strip s = [])) ->
  exists violations, validate_MarkDoneInput raw = inl violations.
Proof.
  intros H. apply model_validate_fails. cbn [fst pure ap app].
  destruct H as [H|H].
  - now apply forbid_extra_rejects.
  - apply required_str_rejects with (field := "item_id"%string) (max_length := None) in H.
    some_violation.
Qed.

Lemma validate_StartTrackingInput_rejects (raw : StartTrackingInput.raw) :
  (StartTrackingInput.raw_extra raw <> []
   \/ StartTrackingInput.raw_item_id raw = None
   \/ (exists s, StartTrackingInput.raw_item_id raw = Some s /\ strip s = [])) ->
  exists violations, validate_StartTrackingInput raw = inl violations.
Proof.
  intros H. apply model_validate_fails. cbn [fst pure ap app].
  destruct H as [H|H].
  - now apply forbid_extra_rejects.
  - apply required_str_rejects with (field := "item_id"%string) (max_length := None) in H.
    some_violation.
Qed.

Lemma validate_GetChildrenInput_rejects (raw : GetChildrenInput.raw) :
  (GetChildrenInput.raw_extra raw <> []
   \/ GetChildrenInput.raw_parent_id raw = None
   \/ (exists s, GetChildrenInput.raw_parent_id raw = Some s /\ strip s = [])
   \/ GetChildrenInput.raw_response_format raw = Null
   \/ (exists s, GetChildrenInput.raw_response_format raw = Given s
                 /\ s <> U "markdown" /\ s <> U "json")) ->
  exists violations, validate_GetChildrenInput raw = inl violations.
Proof.
  intros H. apply model_validate_fails. cbn [fst pure ap app].
  assert (H' : GetChildrenInput.raw_extra raw <> []
               \/ (GetChildrenInput.raw_parent_id raw = None
                   \/ (exists s, GetChildrenInput.raw_parent_id raw = Some s
                                 /\ strip s = []))
               \/ (GetChildrenInput.raw_response_format raw = Null
                   \/ (exists s, GetChildrenInput.raw_response_format raw = Given s
                                 /\ s <> U "markdown" /\ s <> U "json"))) by tauto.
  destruct H' as [E|[P|F]].
  - now apply forbid_extra_rejects.
  - apply required_str_rejects with (field := "parent_id"%string) (max_length := None) in P.
    some_violation.
  - apply response_format_field_rejects in F. some_violation.
Qed.

Lemma validate_SimpleFormatInput_rejects (raw : SimpleFormatInput.raw) :
  (SimpleFormatInput.raw_extra raw <> []
   \/ SimpleFormatInput.raw_response_format raw = Null
   \/ (exists s, SimpleFormatInput.raw_response_format raw = Given s
                 /\ s <> U "markdown" /\ s <> U "json")) ->
  exists violations, validate_SimpleFormatInput raw = inl violations.
Proof.
  intros H. apply model_validate_fails. cbn [fst pure ap app].
  destruct H as [H|H].
  - now apply forbid_extra_rejects.
  - apply response_format_field_rejects in H. some_violation.
Qed.

(** The claim C3, against the dispatch modelled from the spec: a call of
    any tool whose arguments fail validation ends in the validation
    error with no request issued.  For every tool that takes arguments,
    the arguments fail validation for each violation of its input
    model: an unknown field for any of them; for add-task a missing or
    blank title, a title above 500 or a note above 5000 characters, a
    [day] or [due_date] that does not match the pattern, more than 20
    label identifiers, a time estimate outside 60000..86400000; for the
    two listings by date a date that does not match the pattern; a
    missing or blank identifier for mark-done, start-tracking and the
    listing of children; and for every listing a response format that
    is [null] or is neither "markdown" nor "json". *)
Theorem validation_failure_issues_no_request :
  forall (e : env),
    (forall (c : tool_call) (violations : list violation),
       fst (call_tool digit_value py_digit_value repr e c) = ValidationError violations ->
       snd (call_tool digit_value py_digit_value repr e c) = []) /\
    (forall raw : AddTaskInput.raw,
       (AddTaskInput.raw_extra raw <> []
        \/ AddTaskInput.raw_title raw = None
        \/ (exists t, AddTaskInput.raw_title raw = Some t /\ strip t = [])
        \/ (exists t, AddTaskInput.raw_title raw = Some t /\ 500 < len (strip t))
        \/ (exists n, AddTaskInput.raw_note raw = Some n /\ 5000 < len (strip n))
        \/ (exists d, AddTaskInput.raw_day raw = Some d
                      /\ full_match digit_value DATE_PATTERN (strip d) = false)
        \/ (exists d, AddTaskInput.raw_due_date raw = Some d
                      /\ full_match digit_value DATE_PATTERN (strip d) = false)
        \/ (exists l, AddTaskInput.raw_label_ids raw = Some l /\ 20 < len l)
        \/ (exists z, AddTaskInput.raw_time_estimate raw = Some z
                      /\ (z < 60000 \/ 86400000 < z))) ->
       exists violations,
         call_tool digit_value py_digit_value repr e (call_marvin_add_task raw)
         = (ValidationError violations, [])) /\
    (forall raw : GetTasksInput.raw,
       (GetTasksInput.raw_extra raw <> []
        \/ (exists d, GetTasksInput.raw_date raw = Some d
                      /\ full_match digit_value DATE_PATTERN (strip d) = false)
        \/ GetTasksInput.raw_response_format raw = Null
        \/ (exists s, GetTasksInput.raw_response_format raw = Given s
                      /\ s <> U "markdown" /\ s <> U "json")) ->
       exists violations,
         call_tool digit_value py_digit_value repr e (call_marvin_get_todays_tasks raw)
         = (ValidationError violations, [])
         /\ call_tool digit_value py_digit_value repr e (call_marvin_get_due_tasks raw)
            = (ValidationError violations, [])) /\
    (forall raw : MarkDoneInput.raw,
       (MarkDoneInput.raw_extra raw <> []
        \/ MarkDoneInput.raw_item_id raw = None
        \/ (exists s, MarkDoneInput.raw_item_id raw = Some s /\ strip s = [])) ->
       exists violations,
         call_tool digit_value py_digit_value repr e (call_marvin_mark_done raw)
         = (ValidationError violations, [])) /\
    (forall raw : StartTrackingInput.raw,
       (StartTrackingInput.raw_extra raw <> []
        \/ StartTrackingInput.raw_item_id raw = None
        \/ (exists s, StartTrackingInput.raw_item_id raw = Some s /\ strip s = [])) ->
       exists violations,
         call_tool digit_value py_digit_value repr e (call_marvin_start_tracking raw)
         = (ValidationError violations, [])) /\
    (forall raw : GetChildrenInput.raw,
       (GetChildrenInput.raw_extra raw <> []
        \/ GetChildrenInput.raw_parent_id raw = None
        \/ (exists s, GetChildrenInput.raw_parent_id raw = Some s /\ strip s = [])
        \/ GetChildrenInput.raw_response_format raw = Null
        \/ (exists s, GetChildrenInput.raw_response_format raw = Given s
                      /\ s <> U "markdown" /\ s <> U "json")) ->
       exists violations,
         call_tool digit_value py_digit_value repr e (call_marvin_get_children raw)
         = (ValidationError violations, [])) /\
    (forall raw : SimpleFormatInput.raw,
       (SimpleFormatInput.raw_extra raw <> []
        \/ SimpleFormatInput.raw_response_format raw = Null
        \/ (exists s, SimpleFormatInput.raw_response_format raw = Given s
                      /\ s <> U "markdown" /\ s <> U "json")) ->
       exists violations,
         call_tool digit_value py_digit_value repr e (call_marvin_get_categories raw)
         = (ValidationError violations, [])
         /\ call_tool digit_value py_digit_value repr e (call_marvin_get_labels raw)
            = (ValidationError violations, [])).
Proof.
  intros e. split; [|split; [|split; [|split; [|split; [|split]]]]].
  - intros c violations H.
    destruct c; simpl in *; try (apply validated_failure in H; tauto).
    destruct (marvin_stop_tracking e). simpl in H. discriminate.
  - intros raw H. simpl. apply validated_rejects.
    now apply validate_AddTaskInput_rejects.
  - intros raw H. apply validate_GetTasksInput_rejects in H as [vs H].
    exists vs. cbn [call_tool]. unfold validated. now rewrite H.
  - intros raw H. simpl. apply validated_rejects.
    now apply validate_MarkDoneInput_rejects.
  - intros raw H. simpl. apply validated_rejects.
    now apply validate_StartTrackingInput_rejects.
  - intros raw H. simpl. apply validated_rejects.
    now apply validate_GetChildrenInput_rejects.
  - intros raw H. apply validate_SimpleFormatInput_rejects in H as [vs H].
    exists vs. cbn [call_tool]. unfold validated. now rewrite H.
Qed.

(** ** Empty results *)

Lemma try_except_get (e : env) (endpoint : string) (params : option (dict str))
  (k : payload -> M str) :
  try_except (bindM (_make_api_request e endpoint "GET" None params false) k)
  = match remote e (get_call e endpoint params) with
    | Ok p =>
        match k p [get_call e endpoint params] with
        | (Ok text, log) => (text, log)
        | (Raise x, log) => (_handle_api_error x, log)
        end
    | Raise x => (_handle_api_error x, [get_call e endpoint params])
    end.
Proof.
  unfold try_except, bindM. rewrite make_api_request_get.
  now destruct (remote e (get_call e endpoint params)).
Qed.

Lemma try_except_bind_lift {A : Type} (r : result A) (k : A -> M str) :
  try_except (bindM (lift r) k)
  = match r with
    | Ok a => try_except (k a)
    | Raise x => (_handle_api_error x, [])
    end.
Proof.
  unfold try_except, bindM, lift. now destruct r.
Qed.


End GatewayProperties.

(** ** The body of the create-task request *)

Lemma try_except_post_log (e : env) (endpoint : string) (body : dict json)
  (k : payload -> M str) :
  (forall p log, snd (k p log) = log) ->
  snd (try_except
         (bindM (_make_api_request e endpoint "POST" (Some (JDict body)) None false) k))
  = [post_call e endpoint body].
Proof.
  intros H. unfold try_except, bindM. rewrite make_api_request_post.
  destruct (remote e (post_call e endpoint body)) as [p|x]; [|reflexivity].
  specialize (H p ([] ++ [post_call e endpoint body])).
  destruct (k p ([] ++ [post_call e endpoint body])) as [[text|x] log];
    simpl in *; now subst.
Qed.

(** The claim C10: add-task issues exactly one request, a POST to the
    create-task endpoint, whose body holds the title, [done] set to
    false, and each optional field under its key exactly when the
    validated input carries it, with the value supplied; no value of
    the body is null and no other key occurs. *)
Theorem add_task_body_keys :
  forall (e : env) (params : AddTaskInput.t),
    let body := add_task_data params in
    snd (marvin_add_task e params) = [post_call e "/addTask" body] /\
    dict_lookup (U "title") body = Some (JStr (AddTaskInput.title params)) /\
    dict_lookup (U "done") body = Some (JBool false) /\
    dict_lookup (U "note") body = option_map JStr (AddTaskInput.note params) /\
    dict_lookup (U "day") body = option_map JStr (AddTaskInput.day params) /\
    dict_lookup (U "dueDate") body = option_map JStr (AddTaskInput.due_date params) /\
    dict_lookup (U "parentId") body = option_map JStr (AddTaskInput.parent_id params) /\
    dict_lookup (U "labelIds") body
      = option_map (fun ids => JList (map JStr ids)) (AddTaskInput.label_ids params) /\
    dict_lookup (U "timeEstimate") body
      = option_map JInt (AddTaskInput.time_estimate params) /\
    dict_lookup (U "isStarred") body = option_map JBool (AddTaskInput.is_starred params) /\
    Forall (fun kv => snd kv <> JNull /\ In (fst kv) ADD_TASK_KEYS) body /\
    NoDup (map fst body).
Proof.
  intros e params body. split.
  - unfold marvin_add_task.
    apply try_except_post_log. intros p log. unfold bindM, lift.
    now destruct (add_task_lines e p).
  - subst body.
    destruct params as [title [note|] [day|] [due|] [parent|] [labels|] [estimate|] [starred|]];
      vm_compute;
      (repeat split;
       [repeat (constructor; [split; [discriminate | tauto]|]); constructor
       |repeat (constructor; [intros H; repeat destruct H as [H|H]; try discriminate; contradiction|]); constructor]).
Qed.

(** ** Date fields *)

Section DateFields.

Variable digit_value : char -> option Z.

Lemma full_match_date_shape (t : str) :
  full_match digit_value DATE_PATTERN t = true <-> date_shape digit_value t.
Proof.
  unfold full_match. split.
  - intros H.
    destruct t as [|y1 [|y2 [|y3 [|y4 [|s1 [|m1 [|m2 [|s2 [|d1 [|d2 r]]]]]]]]]];
      simpl in H;
      repeat match type of H with
             | context [if ?b then _ else _] => destruct b eqn:?; simpl in H
             end;
      try discriminate.
    destruct r; [|discriminate].
    repeat match goal with
           | E : N.eqb _ _ = true |- _ => apply N.eqb_eq in E; subst
           end.
    exists y1, y2, y3, y4, m1, m2, d1, d2. split; [reflexivity|].
    repeat constructor; assumption.
  - intros (y1 & y2 & y3 & y4 & m1 & m2 & d1 & d2 & -> & F).
    apply Forall_cons_iff in F as [D1 F]. apply Forall_cons_iff in F as [D2 F].
    apply Forall_cons_iff in F as [D3 F]. apply Forall_cons_iff in F as [D4 F].
    apply Forall_cons_iff in F as [D5 F]. apply Forall_cons_iff in F as [D6 F].
    apply Forall_cons_iff in F as [D7 F]. apply Forall_cons_iff in F as [D8 _].
    simpl. rewrite D1, D2, D3, D4. simpl. rewrite D5, D6. simpl.
    rewrite D7, D8. reflexivity.
Qed.

(** The claim C8, as amended: validation of a date field accepts a
    string exactly when the string without its leading and trailing
    whitespace consists of four digits, a dash, two digits, a dash and
    two digits, and it yields that trimmed string; nothing but the
    pattern is checked, so with the ASCII digits among the digits
    "2024-13-40" is accepted. *)
Theorem date_field_pattern_only :
  (forall s : str,
     date_field_accepts digit_value s = true <-> date_shape digit_value (strip s)) /\
  (forall (field : string) (s : str),
     date_shape digit_value (strip s) ->
     optional_date digit_value field (Some s) = ([], Some (Some (strip s)))) /\
  ((forall c, in_range c 48 57 = true -> is_digit digit_value c = true) ->
   date_field_accepts digit_value (U "2024-13-40") = true).
Proof.
  assert (A : forall s, date_field_accepts digit_value s = true
                        <-> date_shape digit_value (strip s)).
  { intros s. rewrite <- full_match_date_shape.
    unfold date_field_accepts, optional_date.
    destruct (full_match digit_value DATE_PATTERN (strip s)); simpl; split;
      congruence. }
  split; [exact A|]. split.
  - intros field s H. apply full_match_date_shape in H.
    unfold optional_date. now rewrite H.
  - intros D. apply A.
    exists 50%N, 48%N, 50%N, 52%N, 49%N, 51%N, 52%N, 48%N.
    split; [reflexivity|]. repeat constructor; now apply D.
Qed.

End DateFields.

(** ** Days overdue *)

Lemma format_timestamp_ok (e : env) (v : value) (ms : Z) (dt : datetime) (default : str) :
  truthy v = true -> as_int v = Some ms -> fromtimestamp e ms = Ok dt ->
  _format_timestamp e v default = Ok (strftime_ymd dt).
Proof.
  intros T A F. unfold _format_timestamp. now rewrite T, A, F.
Qed.

Lemma days_overdue_ok (e : env) (target_dt : datetime) (task : record) (ms : Z)
  (due_dt : datetime) :
  truthy (get task "dueDate") = true ->
  as_int (get task "dueDate") = Some ms ->
  fromtimestamp e ms = Ok due_dt ->
  days_overdue e target_dt task = Ok (Some (timedelta_days target_dt due_dt)).
Proof.
  intros T A F. unfold days_overdue. now rewrite T, A, F.
Qed.

(** The claim C6: for a due task whose due date is a timestamp the
    clock converts, the days overdue are the whole days (rounded down)
    from the due time to the reference date.  When they are positive the
    heading of the markdown block ends in " [OVERDUE]" and the JSON
    object ends with a [daysOverdue] field holding them; when they are
    zero the heading ends in " [DUE TODAY]" and the JSON object has no
    [daysOverdue] field.  The block and the object are produced whenever
    the estimate and the note of the task render. *)
Theorem days_overdue_rendering :
  forall (e : env) (target_dt : datetime) (task : record) (ms : Z) (due_dt : datetime),
    truthy (get task "dueDate") = true ->
    as_int (get task "dueDate") = Some ms ->
    fromtimestamp e ms = Ok due_dt ->
    exists days_diff : Z,
      days_diff * MS_PER_DAY <= target_dt - due_dt < (days_diff + 1) * MS_PER_DAY /\
      days_overdue e target_dt task = Ok (Some days_diff) /\
      (0 < days_diff ->
       due_task_block e target_dt task
       = due_block_with task (U " [OVERDUE]") (strftime_ymd due_dt) /\
       due_task_json e target_dt task
       = due_json_with task (strftime_ymd due_dt) [(U "daysOverdue", JInt days_diff)]) /\
      (days_diff = 0 ->
       due_task_block e target_dt task
       = due_block_with task (U " [DUE TODAY]") (strftime_ymd due_dt) /\
       due_task_json e target_dt task = due_json_with task (strftime_ymd due_dt) []) /\
      (forall obj, due_task_json e target_dt task = Ok obj ->
                   json_get "daysOverdue" obj
                   = if 0 <? days_diff then Some (JInt days_diff) else None).
Proof.
  intros e target_dt task ms due_dt T A F.
  exists (timedelta_days target_dt due_dt).
  assert (B : timedelta_days target_dt due_dt * MS_PER_DAY <= target_dt - due_dt
              < (timedelta_days target_dt due_dt + 1) * MS_PER_DAY).
  { unfold timedelta_days, MS_PER_DAY.
    pose proof (Z.div_mod (target_dt - due_dt) 86400000 ltac:(lia)).
    pose proof (Z.mod_pos_bound (target_dt - due_dt) 86400000 ltac:(lia)). lia. }
  split; [exact B|]. split; [now apply days_overdue_ok with (ms := ms)|].
  assert (Eblock : forall tag,
            overdue_tag (Some (timedelta_days target_dt due_dt)) = tag ->
            due_task_block e target_dt task
            = due_block_with task tag (strftime_ymd due_dt)).
  { intros tag <-. unfold due_task_block, due_block_with.
    rewrite (format_timestamp_ok e _ NOT_SET T A F).
    rewrite (days_overdue_ok e target_dt task T A F). reflexivity. }
  assert (Ejson : due_task_json e target_dt task
                  = due_json_with task (strftime_ymd due_dt)
                      (if timedelta_days target_dt due_dt >? 0
                       then [(U "daysOverdue", JInt (timedelta_days target_dt due_dt))]
                       else [])).
  { unfold due_task_json, due_json_with, due_json, formatted_or_null.
    rewrite T, (format_timestamp_ok e _ NOT_SET T A F).
    rewrite (days_overdue_ok e target_dt task T A F). simpl.
    destruct (estimate_json task) as [est|x]; [simpl|reflexivity].
    destruct (timedelta_days target_dt due_dt >? 0); reflexivity. }
  split; [|split].
  - intros P. split.
    + apply Eblock. unfold overdue_tag.
      destruct (timedelta_days target_dt due_dt >? 0) eqn:G; [reflexivity|lia].
    + rewrite Ejson.
      destruct (timedelta_days target_dt due_dt >? 0) eqn:G; [reflexivity|lia].
  - intros Z0. split.
    + apply Eblock. now rewrite Z0.
    + rewrite Ejson. now rewrite Z0.
  - intros obj H. rewrite Ejson in H. unfold due_json_with in H.
    destruct (estimate_json task) as [est|x]; [|discriminate].
    simpl in H. injection H as <-.
    destruct (timedelta_days target_dt due_dt >? 0) eqn:G.
    + assert (L : (0 <? timedelta_days target_dt due_dt) = true) by lia.
      rewrite L. reflexivity.
    + assert (L : (0 <? timedelta_days target_dt due_dt) = false) by lia.
      rewrite L. reflexivity.
Qed.

(** ** The two renderings of a record *)

Lemma strip_prefix_app (p x : str) : strip_prefix p (p ++ x) = Some x.
Proof.
  induction p as [|a p IH]; simpl; [now destruct x|].
  now rewrite N.eqb_refl.
Qed.


Lemma line_if_cases (cond : bool) (line : result str) (lines : list str) :
  line_if cond line = Ok lines ->
  (cond = false /\ lines = []) \/ (cond = true /\ exists l, line = Ok l /\ lines = [l]).
Proof.
  unfold line_if. destruct cond.
  - destruct line as [l|x]; simpl; [|discriminate].
    intros H. injection H as <-. right. eauto.
  - intros H. injection H as <-. now left.
Qed.

Lemma bind_ok {A B : Type} (m : result A) (f : A -> result B) (b : B) :
  bind m f = Ok b -> exists a, m = Ok a /\ f a = Ok b.
Proof.
  destruct m as [a|x]; simpl; [eauto|discriminate].
Qed.

Lemma due_line_cases (e : env) (task : record) (lines : list str) :
  due_line e task = Ok lines ->
  (due_json e task = Ok JNull /\ lines = [])
  \/ (exists d, due_json e task = Ok (JStr d) /\ lines = [U "- **Due**: " ++ d]).
Proof.
  unfold due_line, due_json, formatted_or_null. intros H.
  apply line_if_cases in H as [[C ->]|[C [l [H ->]]]]; rewrite C.
  - now left.
  - right. apply bind_ok in H as [d [H E]]. injection E as <-.
    exists d. now rewrite H.
Qed.

Lemma estimate_line_cases (task : record) (lines : list str) :
  estimate_line task = Ok lines ->
  (estimate_json task = Ok JNull /\ lines = [])
  \/ (exists t, estimate_json task = Ok (JStr t) /\ lines = [U "- **Estimate**: " ++ t]).
Proof.
  unfold estimate_line, estimate_json, formatted_or_null. intros H.
  apply line_if_cases in H as [[C ->]|[C [l [H ->]]]]; rewrite C.
  - now left.
  - right. apply bind_ok in H as [d [H E]]. injection E as <-.
    exists d. now rewrite H.
Qed.


Lemma project_line_cases (task : record) (lines : list str) :
  line_if (truthy (get task "parentId"))
    (Ok (U "- **Project**: " ++ py_str (get task "parentId"))) = Ok lines ->
  lines = [] \/ lines = [U "- **Project**: " ++ py_str (get task "parentId")].
Proof.
  intros H. apply line_if_cases in H as [[_ ->]|[_ [l [H ->]]]]; [now left|].
  injection H as <-. now right.
Qed.

Lemma todays_task_block_inv (e : env) (task : record) (block : list str) :
  todays_task_block e task = Ok block ->
  exists due estimate project note,
    due_line e task = Ok due /\ estimate_line task = Ok estimate /\
    (project = [] \/ project = [U "- **Project**: " ++ py_str (get task "parentId")]) /\
    note_line task 200 = Ok note /\
    block = [U "## " ++ status_glyph task ++ U " "
               ++ py_str (get_default task "title" (VStr (U "Untitled")));
             U "- **ID**: " ++ py_str (get_default task "_id" (VStr []))]
            ++ due ++ estimate ++ project ++ note ++ [[]].
Proof.
  unfold todays_task_block. intros H.
  apply bind_ok in H as [due [Hd H]]. apply bind_ok in H as [est [He H]].
  apply bind_ok in H as [proj [Hp H]]. apply bind_ok in H as [note [Hn H]].
  injection H as <-. apply project_line_cases in Hp.
  exists due, est, proj, note. repeat split; assumption.
Qed.

Lemma due_task_block_inv (e : env) (target_dt : datetime) (task : record)
  (block : list str) :
  due_task_block e target_dt task = Ok block ->
  exists due_date_str days_diff estimate note,
    _format_timestamp e (get task "dueDate") NOT_SET = Ok due_date_str /\
    days_overdue e target_dt task = Ok days_diff /\
    estimate_line task = Ok estimate /\
    note_line task 200 = Ok note /\
    block = [U "## " ++ status_glyph task ++ U " "
               ++ py_str (get_default task "title" (VStr (U "Untitled")))
               ++ overdue_tag days_diff;
             U "- **ID**: " ++ py_str (get_default task "_id" (VStr []));
             U "- **Due**: " ++ due_date_str]
            ++ estimate ++ note ++ [[]].
Proof.
  unfold due_task_block. intros H.
  apply bind_ok in H as [due [Hd H]]. apply bind_ok in H as [days [Hdays H]].
  apply bind_ok in H as [est [He H]]. apply bind_ok in H as [note [Hn H]].
  injection H as <-.
  exists due, days, est, note. repeat split; assumption.
Qed.










(** ** Order of the records in the two renderings *)

Lemma for_each_Forall2 {A B : Type} (f : A -> result B) (l : list A) (ys : list B) :
  for_each f l = Ok ys -> Forall2 (fun x y => f x = Ok y) l ys.
Proof.
  revert ys. induction l as [|x l IH]; simpl; intros ys H.
  - injection H as <-. constructor.
  - apply bind_ok in H as [y [Hy H]]. apply bind_ok in H as [ys' [Hys H]].
    injection H as <-. constructor; [exact Hy | now apply IH].
Qed.

Lemma Forall2_common_source {A B C : Type} (P : A -> B -> Prop) (Q : A -> C -> Prop)
  (S : B -> C -> Prop) (l : list A) (bs : list B) (cs : list C) :
  (forall a b c, P a b -> Q a c -> S b c) ->
  Forall2 P l bs -> Forall2 Q l cs -> Forall2 S bs cs.
Proof.
  intros HS HP. revert cs. induction HP as [|a b l bs Hab HP IH]; intros cs HQ.
  - inversion HQ. constructor.
  - inversion HQ as [|a' c l' cs' Hac HQ']; subst.
    constructor; [eapply HS; eassumption | now apply IH].
Qed.

Lemma shows_json_of_value (task : record) (k placeholder : string) :
  shows_value placeholder (py_str (get_default task k (VStr (U placeholder))))
    (Some (json_of_value (get task k))).
Proof.
  unfold shows_value, get_default, get.
  destruct (dict_lookup (U k) task) as [v|]; [|now left].
  destruct v as [|[|]|z|s]; try reflexivity. now right.
Qed.

Lemma glyph_json_of_value (task : record) :
  status_glyph task
  = glyph_of (json_truthy (Some (json_of_value (get_default task "done" (VBool false))))).
Proof.
  unfold status_glyph, get_default, get.
  destruct (dict_lookup (U "done") task) as [v|]; [|reflexivity].
  destruct v as [|[|]|z|s]; reflexivity.
Qed.

Lemma md_heading_block (h : str) (rest : list str) :
  md_heading ((U "## " ++ h) :: rest) = Some h.
Proof.
  reflexivity.
Qed.

Lemma md_field_ID_block (h x : str) (rest : list str) :
  md_field "ID" ((U "## " ++ h) :: (U "- **ID**: " ++ x) :: rest) = Some x.
Proof.
  reflexivity.
Qed.

Lemma todays_task_json_inv (e : env) (task : record) (object : json) :
  todays_task_json e task = Ok object ->
  json_get "id" object = Some (json_of_value (get task "_id")) /\
  json_get "title" object = Some (json_of_value (get task "title")) /\
  json_get "done" object = Some (json_of_value (get_default task "done" (VBool false))).
Proof.
  unfold todays_task_json. intros H.
  apply bind_ok in H as [due [_ H]]. apply bind_ok in H as [est [_ H]].
  injection H as <-. repeat split; reflexivity.
Qed.

Lemma due_task_json_inv (e : env) (target_dt : datetime) (task : record) (object : json) :
  due_task_json e target_dt task = Ok object ->
  json_get "id" object = Some (json_of_value (get task "_id")) /\
  json_get "title" object = Some (json_of_value (get task "title")) /\
  json_get "done" object = Some (json_of_value (get_default task "done" (VBool false))).
Proof.
  unfold due_task_json. intros H.
  apply bind_ok in H as [due [_ H]]. apply bind_ok in H as [est [_ H]].
  apply bind_ok in H as [days [_ H]]. injection H as <-.
  destruct days as [d|]; [destruct (d >? 0)|]; repeat split; reflexivity.
Qed.

Lemma overdue_tag_cases (days : option Z) : In (overdue_tag days) OVERDUE_TAGS.
Proof.
  unfold overdue_tag, OVERDUE_TAGS. destruct days as [d|]; simpl; [|tauto].
  destruct (d >? 0); [tauto|]. destruct (d =? 0); tauto.
Qed.

Lemma todays_shows_entry (e : env) (task : record) (block : list str) (object : json) :
  todays_task_block e task = Ok block ->
  todays_task_json e task = Ok object ->
  shows_entry block object [].
Proof.
  intros Hb Ho. apply todays_task_json_inv in Ho as (Hi & Ht & Hd).
  apply todays_task_block_inv in Hb as (due & est & proj & note & _ & _ & _ & _ & ->).
  exists (py_str (get_default task "title" (VStr (U "Untitled")))),
    (py_str (get_default task "_id" (VStr (U "")))).
  rewrite Hi, Ht, Hd, app_nil_r, <- glyph_json_of_value.
  split; [apply md_heading_block|]. split; [apply md_field_ID_block|].
  split; apply shows_json_of_value.
Qed.

Lemma due_shows_entry (e : env) (target_dt : datetime) (task : record)
  (block : list str) (object : json) :
  due_task_block e target_dt task = Ok block ->
  due_task_json e target_dt task = Ok object ->
  exists tag, In tag OVERDUE_TAGS /\ shows_entry block object tag.
Proof.
  intros Hb Ho. apply due_task_json_inv in Ho as (Hi & Ht & Hd).
  apply due_task_block_inv in Hb as (due & days & est & note & _ & _ & _ & _ & ->).
  exists (overdue_tag days). split; [apply overdue_tag_cases|].
  exists (py_str (get_default task "title" (VStr (U "Untitled")))),
    (py_str (get_default task "_id" (VStr (U "")))).
  rewrite Hi, Ht, Hd, <- glyph_json_of_value.
  split; [apply md_heading_block|]. split; [apply md_field_ID_block|].
  split; apply shows_json_of_value.
Qed.

Lemma todays_task_json_exists (e : env) (task : record) (block : list str) :
  todays_task_block e task = Ok block ->
  exists object, todays_task_json e task = Ok object.
Proof.
  intros H.
  apply todays_task_block_inv in H as (due & est & proj & note & Hd & He & _ & _ & _).
  unfold todays_task_json.
  apply due_line_cases in Hd as [[Hd _]|[d [Hd _]]];
    apply estimate_line_cases in He as [[He _]|[t [He _]]];
    rewrite Hd, He; eexists; reflexivity.
Qed.

Lemma due_task_json_exists (e : env) (target_dt : datetime) (task : record)
  (block : list str) :
  due_task_block e target_dt task = Ok block ->
  exists object, due_task_json e target_dt task = Ok object.
Proof.
  intros H.
  apply due_task_block_inv in H as (due & days & est & note & Hd & Hdays & He & _ & _).
  unfold due_task_json, due_json, formatted_or_null. rewrite Hdays.
  destruct (truthy (get task "dueDate")); [rewrite Hd|];
    apply estimate_line_cases in He as [[He _]|[t [He _]]];
    rewrite He; eexists; reflexivity.
Qed.

Lemma for_each_exists {A B C : Type} (f : A -> result B) (g : A -> result C)
  (l : list A) (ys : list B) :
  (forall x y, f x = Ok y -> exists z, g x = Ok z) ->
  for_each f l = Ok ys -> exists zs, for_each g l = Ok zs.
Proof.
  intros H. revert ys. induction l as [|x l IH]; simpl; intros ys Hf.
  - now exists [].
  - apply bind_ok in Hf as [y [Hy Hf]]. apply bind_ok in Hf as [ys' [Hys _]].
    destruct (H x y Hy) as [z Hz]. destruct (IH ys' Hys) as [zs Hzs].
    exists (z :: zs). now rewrite Hz, Hzs.
Qed.

(** The claim C5, as amended: whenever the markdown rendering of a list
    of records is produced, so is the JSON rendering, and both follow
    the list: the i-th block and the i-th object of the "tasks" array
    are the renderings of the i-th record, so nothing is reordered,
    dropped or repeated.  Read back, the i-th block shows the done-flag
    of the i-th object and the text of its identifier and of its title;
    where the object has null, the block shows the placeholder of an
    absent field ("Untitled", the empty identifier) or "None" for a
    field that is present and null.  In the listing of due tasks the
    title may be followed by an overdue tag. *)
Theorem renderings_preserve_order :
  forall (e : env) (target_date : str) (target_dt : datetime) (tasks : list record),
    (forall lines : list str,
       todays_tasks_markdown e target_date (PRecords tasks) = Ok lines ->
       exists (blocks : list (list str)) (objects : list json),
         lines = [U "# Today's Tasks (" ++ target_date ++ U ")"; [];
                  U "Found " ++ str_of_int (len tasks) ++ U " task"
                    ++ plural (len tasks) "" "s"; []] ++ concat blocks /\
         todays_tasks_response e target_date (PRecords tasks)
         = Ok (JDict [(U "date", JStr target_date); (U "total", JInt (len tasks));
                      (U "tasks", JList objects)]) /\
         Forall2 (fun task block => todays_task_block e task = Ok block) tasks blocks /\
         Forall2 (fun task object => todays_task_json e task = Ok object) tasks objects /\
         Forall2 (fun block object => shows_entry block object []) blocks objects) /\
    (forall lines : list str,
       due_tasks_markdown e target_date target_dt (PRecords tasks) = Ok lines ->
       exists (blocks : list (list str)) (objects : list json),
         lines = [U "# Due & Overdue Tasks (as of " ++ target_date ++ U ")"; [];
                  U "Found " ++ str_of_int (len tasks) ++ U " task"
                    ++ plural (len tasks) "" "s" ++ U " requiring attention"; []]
                 ++ concat blocks /\
         due_tasks_response e target_date target_dt (PRecords tasks)
         = Ok (JDict [(U "asOf", JStr target_date); (U "total", JInt (len tasks));
                      (U "tasks", JList objects)]) /\
         Forall2 (fun task block => due_task_block e target_dt task = Ok block)
           tasks blocks /\
         Forall2 (fun task object => due_task_json e target_dt task = Ok object)
           tasks objects /\
         Forall2 (fun block object =>
                    exists tag, In tag OVERDUE_TAGS /\ shows_entry block object tag)
           blocks objects).
Proof.
  intros e target_date target_dt tasks. split.
  - intros lines H. unfold todays_tasks_markdown in H. simpl in H.
    apply bind_ok in H as [blocks [Hb H]]. injection H as <-.
    destruct (for_each_exists (todays_task_block e) (todays_task_json e) tasks
                (todays_task_json_exists e) Hb) as [objects Ho].
    exists blocks, objects. split; [reflexivity|]. split.
    { unfold todays_tasks_response. simpl. now rewrite Ho. }
    apply for_each_Forall2 in Hb, Ho. split; [exact Hb|]. split; [exact Ho|].
    exact (Forall2_common_source _
             (fun task block object Hblock Hobject =>
                @todays_shows_entry e task block object Hblock Hobject) Hb Ho).
  - intros lines H. unfold due_tasks_markdown in H. simpl in H.
    apply bind_ok in H as [blocks [Hb H]]. injection H as <-.
    destruct (for_each_exists (due_task_block e target_dt) (due_task_json e target_dt)
                tasks (due_task_json_exists e target_dt) Hb) as [objects Ho].
    exists blocks, objects. split; [reflexivity|]. split.
    { unfold due_tasks_response. simpl. now rewrite Ho. }
    apply for_each_Forall2 in Hb, Ho. split; [exact Hb|]. split; [exact Ho|].
    exact (Forall2_common_source _
             (fun task block object Hblock Hobject =>
                @due_shows_entry e target_dt task block object Hblock Hobject) Hb Ho).
Qed.

(** ** Instances *)

Lemma validation_failure_issues_no_request_witness :
  snd (call_tool ascii_digit_value ascii_digit_value plain_repr (utc_env (Ok PNull))
         (call_marvin_add_task blank_title_raw)) = []
  /\ exists violations,
       call_tool ascii_digit_value ascii_digit_value plain_repr (utc_env (Ok PNull))
         (call_marvin_get_labels null_format_raw)
       = (ValidationError violations, []).
Proof.
  pose proof (@validation_failure_issues_no_request ascii_digit_value ascii_digit_value
                plain_repr (utc_env (Ok PNull))) as [Hnone [_ [_ [_ [_ [_ Hformat]]]]]].
  split.
  - apply (Hnone (call_marvin_add_task blank_title_raw) [string_too_short "title"]).
    reflexivity.
  - destruct (Hformat null_format_raw) as [violations [_ H]].
    + right. left. reflexivity.
    + exists violations. exact H.
Defined.


Lemma days_overdue_rendering_witness :
  json_get "daysOverdue" (unwrap JNull (due_task_json sample_env reference_dt sample_task))
  = Some (JInt 1).
Proof.
  destruct (@days_overdue_rendering sample_env reference_dt sample_task
              1710374400000 1710374400000 eq_refl eq_refl eq_refl)
    as [d [_ [D [_ [_ L]]]]].
  vm_compute in D. injection D as <-.
  exact (L _ eq_refl).
Defined.

(** A date with a leading space is accepted although it is not of the
    shape of the pattern: the claim C8 as stated fails. *)
Lemma date_field_accepts_padded_date :
  date_field_accepts ascii_digit_value (U " 2024-03-15") = true
  /\ ~ date_shape ascii_digit_value (U " 2024-03-15").
Proof.
  split; [reflexivity|].
  intros (y1 & y2 & y3 & y4 & m1 & m2 & d1 & d2 & E & _).
  apply (f_equal (@length char)) in E. discriminate E.
Qed.

Lemma date_field_pattern_only_witness :
  date_field_accepts ascii_digit_value (U "2024-13-40") = true.
Proof.
  apply (proj2 (proj2 (@date_field_pattern_only ascii_digit_value))).
  intros c H. unfold is_digit, ascii_digit_value. now rewrite H.
Defined.



Lemma renderings_preserve_order_witness :
  exists (blocks : list (list str)) (objects : list json),
    Forall2 (fun task block => todays_task_block sample_env task = Ok block)
      [sample_task; untitled_task] blocks
    /\ Forall2 (fun task object => todays_task_json sample_env task = Ok object)
         [sample_task; untitled_task] objects
    /\ Forall2 (fun block object => shows_entry block object []) blocks objects.
Proof.
  destruct (proj1 (@renderings_preserve_order sample_env (U "2024-03-15") reference_dt
                     [sample_task; untitled_task])
              (unwrap [] (todays_tasks_markdown sample_env (U "2024-03-15")
                            (PRecords [sample_task; untitled_task]))) eq_refl)
    as [blocks [objects [_ [_ [Hb [Ho Hs]]]]]].
  exists blocks, objects. split; [exact Hb|]. split; [exact Ho|]. exact Hs.
Defined.

(** A task without a title: read back from JSON its title is null, read
    back from markdown it is "Untitled"; the titles of the two
    renderings are not the same, and the claim C5 as stated fails. *)
Lemma untitled_task_titles_differ :
  json_get "title" (unwrap JNull (todays_task_json sample_env untitled_task)) = Some JNull
  /\ json_text "title" (unwrap JNull (todays_task_json sample_env untitled_task)) = None
  /\ md_heading (unwrap [] (todays_task_block sample_env untitled_task))
     = Some (GLYPH_DONE ++ U " Untitled").
Proof.
  repeat split; vm_compute; reflexivity.
Qed.

(* ================================================================== *)
(** * Further properties *)
(* ================================================================== *)

(** ** Dicts *)

Lemma dict_lookup_set_same {V : Type} (k : str) (v : V) (d : dict V) :
  dict_lookup k (dict_set k v d) = Some v.
Proof.
  induction d as [|[k' v'] d IH]; simpl.
  - now rewrite (proj2 (str_eqb_eq k k) eq_refl).
  - destruct (str_eqb k' k) eqn:E; simpl.
    + now rewrite (proj2 (str_eqb_eq k k) eq_refl).
    + now rewrite E.
Qed.

Lemma str_eqb_false (a b : str) : a <> b -> str_eqb a b = false.
Proof.
  intros H. destruct (str_eqb a b) eqn:E; [|reflexivity].
  apply str_eqb_eq in E. contradiction.
Qed.

Lemma dict_lookup_set_other {V : Type} (k k' : str) (v : V) (d : dict V) :
  k <> k' -> dict_lookup k' (dict_set k v d) = dict_lookup k' d.
Proof.
  intros N. induction d as [|[k0 v0] d IH]; simpl.
  - now rewrite (str_eqb_false N).
  - destruct (str_eqb k0 k) eqn:E; simpl.
    + apply str_eqb_eq in E. subst k0. now rewrite (str_eqb_false N).
    + now rewrite IH.
Qed.

Lemma dict_set_keys {V : Type} (k : str) (v : V) (d : dict V) :
  keys (dict_set k v d) = if in_dec (list_eq_dec N.eq_dec) k (keys d)
                          then keys d else keys d ++ [k].
Proof.
  unfold keys. induction d as [|[k0 v0] d IH]; simpl; [reflexivity|].
  destruct (str_eqb k0 k) eqn:E; simpl.
  - apply str_eqb_eq in E. subst k0.
    destruct (list_eq_dec N.eq_dec k k); [reflexivity|contradiction].
  - rewrite IH. apply str_eqb_neq in E.
    destruct (list_eq_dec N.eq_dec k0 k); [contradiction|].
    now destruct (in_dec (list_eq_dec N.eq_dec) k (map fst d)).
Qed.

(** Assignment to a key of a dict, as in [task_data["note"] = ...] and
    [headers["Content-Type"] = ...]: the key then holds the value, every
    other key holds what it held, a key that was present keeps its
    place and a new key goes last, and keys stay distinct. *)
Theorem dict_set_lookup :
  forall (V : Type) (k : str) (v : V) (d : dict V),
    dict_lookup k (dict_set k v d) = Some v /\
    (forall k', k <> k' -> dict_lookup k' (dict_set k v d) = dict_lookup k' d) /\
    (In k (keys d) -> keys (dict_set k v d) = keys d) /\
    (~ In k (keys d) -> keys (dict_set k v d) = keys d ++ [k]) /\
    (NoDup (keys d) -> NoDup (keys (dict_set k v d))).
Proof.
  intros V k v d. split; [apply dict_lookup_set_same|].
  split; [intros k' N; now apply dict_lookup_set_other|].
  rewrite dict_set_keys.
  destruct (in_dec (list_eq_dec N.eq_dec) k (keys d)) as [I|I].
  - split; [reflexivity|]. split; [contradiction | trivial].
  - split; [contradiction|]. split; [reflexivity|].
    intros ND. apply NoDup_app; [exact ND | repeat constructor; intros [] |].
    intros x Hx [<-|[]]. contradiction.
Qed.

Lemma dict_set_lookup_witness :
  dict_lookup (U "X-API-Token")
    (dict_set (U "Content-Type") (U "application/json") [(U "X-API-Token", U "token")])
  = Some (U "token")
  /\ keys (dict_set (U "Content-Type") (U "application/json") [(U "X-API-Token", U "token")])
     = [U "X-API-Token"; U "Content-Type"].
Proof.
  destruct (dict_set_lookup (U "Content-Type") (U "application/json")
              [(U "X-API-Token", U "token")]) as [_ [Hother [_ [Hnew _]]]].
  split.
  - rewrite Hother; [reflexivity|]. intros E. discriminate E.
  - apply Hnew. intros [E|[]]. discriminate E.
Defined.


(** The message for a status outside 401, 403, 404, 429 and below 500
    cites the status in decimal, so two such errors with the same
    message have the same status code. *)
Theorem generic_status_message_determines_status :
  forall (s1 s2 : Z) (body1 body2 : str),
    s1 < 500 -> s1 <> 401 -> s1 <> 403 -> s1 <> 404 -> s1 <> 429 ->
    s2 < 500 -> s2 <> 401 -> s2 <> 403 -> s2 <> 404 -> s2 <> 429 ->
    _handle_api_error (HTTPStatusError s1 body1)
    = _handle_api_error (HTTPStatusError s2 body2) ->
    s1 = s2.
Proof.
  intros s1 s2 body1 body2 A1 A2 A3 A4 A5 B1 B2 B3 B4 B5.
  unfold _handle_api_error.
  replace (s1 =? 401) with false by lia. replace (s1 =? 403) with false by lia.
  replace (s1 =? 404) with false by lia. replace (s1 =? 429) with false by lia.
  replace (s1 >=? 500) with false by lia.
  replace (s2 =? 401) with false by lia. replace (s2 =? 403) with false by lia.
  replace (s2 =? 404) with false by lia. replace (s2 =? 429) with false by lia.
  replace (s2 >=? 500) with false by lia.
  unfold msg_status. intros H.
  apply app_inv_head in H. apply app_inv_tail in H.
  apply (f_equal int_of_str) in H. rewrite !int_of_str_of_int in H. congruence.
Qed.

Lemma generic_status_message_determines_status_witness :
  _handle_api_error (HTTPStatusError 418 (U "teapot"))
  = _handle_api_error (HTTPStatusError (400 + 18) [])
  /\ 418 = 400 + 18.
Proof.
  split; [reflexivity|].
  apply (@generic_status_message_determines_status 418 (400 + 18) (U "teapot") []);
    first [lia | reflexivity].
Defined.

(** ** Durations and dates *)

(** A positive time estimate is shown in whole hours and whole minutes,
    the seconds dropped: with [h] hours and [m] minutes shown, [m] is
    below 60 and [60 * h + m] is the estimate in minutes rounded down.
    Below one minute the text is "< 1m"; a unit that is zero is left
    out; "Not set" appears for none of them. *)
Theorem format_time_estimate_whole_minutes :
  forall ms : Z,
    0 < ms ->
    let h := ms / 3600000 in
    let m := (ms mod 3600000) / 60000 in
    0 <= h /\ 0 <= m < 60 /\ 60 * h + m = ms / 60000 /\
    _format_time_estimate (VInt ms)
    = Ok (if ms <? 60000 then U "< 1m"
          else if m =? 0 then str_of_int h ++ U "h"
          else if h =? 0 then str_of_int m ++ U "m"
          else str_of_int h ++ U "h " ++ str_of_int m ++ U "m").
Proof.
  intros ms P h m.
  assert (A : 0 <= h /\ 0 <= m < 60 /\ 60 * h + m = ms / 60000
              /\ (ms < 60000 <-> h = 0 /\ m = 0)).
  { subst h m. Z.to_euclidean_division_equations. lia. }
  destruct A as (Hh & Hm & Hsum & Hsmall).
  repeat split; try lia.
  unfold _format_time_estimate. cbn [truthy as_int negb].
  replace (ms =? 0) with false by lia. cbn [negb].
  fold h m.
  destruct (ms <? 60000) eqn:S.
  - assert (h = 0 /\ m = 0) as [-> ->] by (apply Hsmall; lia). reflexivity.
  - destruct (m =? 0) eqn:M; destruct (h =? 0) eqn:H; cbn [negb andb];
      try reflexivity.
    exfalso. assert (ms < 60000) by (apply Hsmall; lia). lia.
Qed.

Lemma format_time_estimate_whole_minutes_witness :
  _format_time_estimate (VInt 5459999) = Ok (U "1h 30m").
Proof.
  destruct (@format_time_estimate_whole_minutes 5459999 ltac:(lia)) as (_ & _ & _ & E).
  rewrite E. reflexivity.
Defined.

Lemma calendar_bounds :
  LOCALTIME_MIN = -67768040609740800000 /\ LOCALTIME_MAX = 67768036191676799999
  /\ Datetime.MIN = -62135596800000 /\ Datetime.MAX = 253402300799999
  /\ MS_PER_DAY = 86400000.
Proof.
  repeat split; vm_compute; reflexivity.
Qed.

Lemma float_overflow_bound : 2 ^ 64 * 1000 < FLOAT_OVERFLOW * 1000.
Proof.
  apply Z.ltb_lt. vm_compute. reflexivity.
Qed.

Lemma round_half_even_ge (n d : Z) : n / d <= round_half_even n d.
Proof.
  unfold round_half_even.
  destruct (2 * (n mod d) <? d); [lia|].
  destruct (d <? 2 * (n mod d)); [lia|].
  destruct (Z.even (n / d)); lia.
Qed.

(** Beyond [2 ^ 64] seconds the float of the quotient, when there is
    one, has whole seconds that do not fit [time_t]. *)
Lemma timet_beyond (ms : Z) :
  2 ^ 64 * 1000 <= Z.abs ms -> timet ms < - 2 ^ 63 \/ 2 ^ 63 < timet ms.
Proof.
  intros H. unfold timet.
  replace (Z.abs ms <? 2 ^ 53) with false by lia.
  set (a := Z.abs ms) in *.
  set (p := Z.log2 (a / 1000) - 52).
  assert (Ha : 2 ^ 64 <= a / 1000) by (apply Z.div_le_lower_bound; lia).
  assert (Hp : 12 <= p).
  { unfold p. pose proof (Z.log2_le_mono (2 ^ 64) (a / 1000) Ha) as L.
    change (Z.log2 (2 ^ 64)) with 64 in L. lia. }
  replace (0 <=? p) with true by lia.
  assert (Hlog : 2 ^ (p + 52) <= a / 1000).
  { unfold p. replace (Z.log2 (a / 1000) - 52 + 52) with (Z.log2 (a / 1000)) by lia.
    apply Z.log2_spec. lia. }
  assert (P2 : 2 ^ 12 <= 2 ^ p) by (apply Z.pow_le_mono_r; lia).
  assert (Hm : 2 ^ 52 <= round_half_even a (1000 * 2 ^ p)).
  { etransitivity; [|apply round_half_even_ge].
    apply Z.div_le_lower_bound; [lia|].
    rewrite Z.pow_add_r in Hlog by lia.
    assert (2 ^ p * 2 ^ 52 * 1000 <= a); [|lia].
    etransitivity; [apply Z.mul_le_mono_nonneg_r; [lia | exact Hlog]|].
    rewrite Z.mul_comm. apply Z.mul_div_le. lia. }
  assert (Big : 2 ^ 64 <= round_half_even a (1000 * 2 ^ p) * 2 ^ p).
  { change (2 ^ 64) with (2 ^ 52 * 2 ^ 12).
    apply Z.mul_le_mono_nonneg; lia. }
  destruct (Z.sgn_spec ms) as [[Hs ->]|[[Hs E]|[Hs ->]]].
  - right. lia.
  - subst ms. unfold a in H. simpl in H. lia.
  - left. lia.
Qed.

(** The timestamp formatter returns the default for a value that counts
    as false (absent, zero, [False], the empty string).  For a number
    of less than [2 ^ 53] milliseconds it never raises: the result is
    the date of the local time of the instant, or the default when that
    lies outside the years 1 to 9999 or within the first day of the
    year 1.  For a number of [2 ^ 64] seconds or more, either way, it
    raises the [OverflowError] of the division or of the conversion,
    which it does not catch; and a non-empty string is not divided by
    1000: the [TypeError] is not caught either. *)
Theorem format_timestamp_cases :
  forall (e : env) (v : value) (default : str),
    (truthy v = false -> _format_timestamp e v default = Ok default) /\
    (forall ms,
       truthy v = true -> as_int v = Some ms ->
       Z.abs ms < 2 ^ 53 ->
       let local := ms + utc_offset e ms in
       _format_timestamp e v default
       = Ok (if (Datetime.MIN + MS_PER_DAY <=? local) && (local <=? Datetime.MAX)
             then strftime_ymd local else default)) /\
    (forall ms,
       truthy v = true -> as_int v = Some ms ->
       2 ^ 64 * 1000 <= Z.abs ms ->
       exists message,
         _format_timestamp e v default = Raise (OverflowError message)) /\
    (forall s,
       v = VStr s -> s <> [] ->
       _format_timestamp e v default = Raise (unsupported_operand "/" v)).
Proof.
  intros e v default. split; [|split; [|split]].
  - intros T. unfold _format_timestamp. now rewrite T.
  - intros ms T A B local. unfold _format_timestamp, fromtimestamp.
    rewrite T, A. cbn [negb].
    pose proof float_overflow_bound as F.
    replace (FLOAT_OVERFLOW * 1000 <=? Z.abs ms) with false by lia.
    unfold timet. replace (Z.abs ms <? 2 ^ 53) with true by lia.
    assert (Q : - 2 ^ 53 <= ms / 1000 <= 2 ^ 53).
    { split; [apply Z.div_le_lower_bound | apply Z.div_le_upper_bound]; lia. }
    replace (ms / 1000 <? - 2 ^ 63) with false by lia.
    replace (2 ^ 63 <? ms / 1000) with false by lia.
    cbn [orb]. unfold local_datetime. fold local.
    destruct calendar_bounds as (L1 & L2 & M1 & M2 & D).
    rewrite L1, L2, M1, M2, D.
    destruct ((local <? -67768040609740800000) || (67768036191676799999 <? local)) eqn:O.
    + replace ((-62135596800000 + 86400000 <=? local) && (local <=? 253402300799999))
        with false by lia.
      reflexivity.
    + destruct ((-62135596800000 <=? local) && (local <=? 253402300799999)) eqn:R.
      * destruct (-62135596800000 <=? local - 86400000) eqn:P.
        -- now replace ((-62135596800000 + 86400000 <=? local)
                        && (local <=? 253402300799999)) with true by lia.
        -- replace ((-62135596800000 + 86400000 <=? local)
                    && (local <=? 253402300799999)) with false by lia.
           reflexivity.
      * replace ((-62135596800000 + 86400000 <=? local)
                 && (local <=? 253402300799999)) with false by lia.
        reflexivity.
  - intros ms T A B. unfold _format_timestamp, fromtimestamp.
    rewrite T, A. cbn [negb].
    destruct (FLOAT_OVERFLOW * 1000 <=? Z.abs ms); [eexists; reflexivity|].
    destruct (timet_beyond ms B) as [L|G].
    + replace (timet ms <? - 2 ^ 63) with true by lia. eexists. reflexivity.
    + replace (2 ^ 63 <? timet ms) with true by lia. rewrite orb_true_r.
      eexists. reflexivity.
  - intros s -> N. unfold _format_timestamp.
    destruct s; [contradiction|reflexivity].
Qed.

Lemma format_timestamp_cases_witness :
  _format_timestamp (utc_env (Ok PNull)) (VInt 0) NOT_SET = Ok NOT_SET
  /\ _format_timestamp (utc_env (Ok PNull)) (VInt 1710374400000) NOT_SET
     = Ok (U "2024-03-14")
  /\ _format_timestamp (utc_env (Ok PNull)) (VInt (-62135596800000)) NOT_SET
     = Ok NOT_SET
  /\ (exists message,
        _format_timestamp (utc_env (Ok PNull)) (VInt (10 ^ 30)) NOT_SET
        = Raise (OverflowError message))
  /\ _format_timestamp (utc_env (Ok PNull)) (VStr (U "2024-03-14")) NOT_SET
     = Raise (unsupported_operand "/" (VStr (U "2024-03-14"))).
Proof.
  split; [|split; [|split; [|split]]].
  - apply (proj1 (format_timestamp_cases (utc_env (Ok PNull)) (VInt 0) NOT_SET)).
    reflexivity.
  - rewrite (proj1 (proj2 (format_timestamp_cases (utc_env (Ok PNull))
                             (VInt 1710374400000) NOT_SET)) 1710374400000);
      [reflexivity | reflexivity | reflexivity | vm_compute; reflexivity].
  - rewrite (proj1 (proj2 (format_timestamp_cases (utc_env (Ok PNull))
                             (VInt (-62135596800000)) NOT_SET)) (-62135596800000));
      [reflexivity | reflexivity | reflexivity | vm_compute; reflexivity].
  - apply (proj1 (proj2 (proj2 (format_timestamp_cases (utc_env (Ok PNull))
                                  (VInt (10 ^ 30)) NOT_SET))) (10 ^ 30));
      [reflexivity | reflexivity | vm_compute; discriminate].
  - apply (proj2 (proj2 (proj2 (format_timestamp_cases (utc_env (Ok PNull))
                                  (VStr (U "2024-03-14")) NOT_SET))) (U "2024-03-14"));
      [reflexivity | discriminate].
Defined.

(** ** Requests *)

(** A method other than GET and POST is refused with a [ValueError]
    before any request; GET and POST issue exactly one call on the
    client, to the base URL followed by the endpoint, with the token
    header that [full_access] selects.  GET sends the query and no
    content type; POST sends the body with the JSON content type, and
    the query is dropped. *)
Theorem make_api_request_calls :
  forall (e : env) (endpoint method : string) (data : option json)
         (params : option (dict str)) (full_access : bool) (log : list http_call),
    let token := if full_access
                 then (U "X-Full-Access-Token", AMAZING_MARVIN_FULL_TOKEN e)
                 else (U "X-API-Token", API_TOKEN e) in
    (method = "GET"%string ->
     let call := HttpGet (API_BASE_URL ++ U endpoint) [token] params in
     _make_api_request e endpoint method data params full_access log
     = (remote e call, log ++ [call])) /\
    (method = "POST"%string ->
     let call := HttpPost (API_BASE_URL ++ U endpoint)
                   [token; (U "Content-Type", U "application/json")] data in
     _make_api_request e endpoint method data params full_access log
     = (remote e call, log ++ [call])) /\
    (method <> "GET"%string -> method <> "POST"%string ->
     _make_api_request e endpoint method data params full_access log
     = (Raise (ValueError (U "Unsupported HTTP method: " ++ U method)), log)).
Proof.
  intros e endpoint method data params full_access log token.
  split; [|split].
  - intros ->. unfold _make_api_request, _get_headers. subst token.
    now destruct full_access.
  - intros ->. unfold _make_api_request, _get_headers. subst token.
    now destruct full_access.
  - intros G P. unfold _make_api_request.
    destruct (String.eqb method "GET") eqn:EG; [apply String.eqb_eq in EG; contradiction|].
    destruct (String.eqb method "POST") eqn:EP; [apply String.eqb_eq in EP; contradiction|].
    reflexivity.
Qed.

Lemma make_api_request_calls_witness :
  _make_api_request (utc_env (Ok PNull)) "/labels" "DELETE" None None false []
  = (Raise (ValueError (U "Unsupported HTTP method: DELETE")), []).
Proof.
  apply (proj2 (proj2 (@make_api_request_calls (utc_env (Ok PNull)) "/labels" "DELETE"
                         None None false []))); discriminate.
Defined.

Lemma issues_nothing_lift {A : Type} (r : result A) : issues_nothing (lift r).
Proof.
  intros log. reflexivity.
Qed.

Lemma issues_nothing_bind {A B : Type} (m : M A) (k : A -> M B) :
  issues_nothing m -> (forall a, issues_nothing (k a)) -> issues_nothing (bindM m k).
Proof.
  intros Hm Hk log. unfold bindM. specialize (Hm log).
  destruct (m log) as [[a|x] log']; simpl in *; subst; [apply Hk | reflexivity].
Qed.

Ltac issues_nothing :=
  repeat first
    [ apply issues_nothing_lift
    | apply issues_nothing_bind; [|intros ?]
    | match goal with
      | |- issues_nothing (if ?b then _ else _) => destruct b
      | |- issues_nothing (match ?f with MARKDOWN => _ | JSON => _ end) => destruct f
      end ].

Lemma try_except_get_log (e : env) (endpoint : string) (params : option (dict str))
  (k : payload -> M str) :
  (forall p, issues_nothing (k p)) ->
  snd (try_except (bindM (_make_api_request e endpoint "GET" None params false) k))
  = [get_call e endpoint params].
Proof.
  intros H. rewrite try_except_get.
  destruct (remote e (get_call e endpoint params)) as [p|x]; [|reflexivity].
  specialize (H p [get_call e endpoint params]).
  destruct (k p [get_call e endpoint params]) as [[text|x] log]; simpl in *; now subst.
Qed.

Section Requests.

Variable digit_value : char -> option Z.
Variable repr : str -> str.

Lemma todays_tasks_log (e : env) (params : GetTasksInput.t) :
  match target_date_of e (GetTasksInput.date params) with
  | Ok target_date =>
      snd (marvin_get_todays_tasks e params)
      = [get_call e "/todayItems" (Some [(U "date", target_date)])]
  | Raise x => marvin_get_todays_tasks e params = (_handle_api_error x, [])
  end.
Proof.
  unfold marvin_get_todays_tasks. rewrite try_except_bind_lift.
  destruct (target_date_of e (GetTasksInput.date params)) as [d|x]; [|reflexivity].
  apply try_except_get_log. intros p. issues_nothing.
Qed.

Lemma due_tasks_log (e : env) (params : GetTasksInput.t) :
  match target_date_of e (GetTasksInput.date params) with
  | Ok target_date =>
      snd (marvin_get_due_tasks digit_value repr e params)
      = [get_call e "/dueItems" (Some [(U "by", target_date)])]
  | Raise x => marvin_get_due_tasks digit_value repr e params = (_handle_api_error x, [])
  end.
Proof.
  unfold marvin_get_due_tasks. rewrite try_except_bind_lift.
  destruct (target_date_of e (GetTasksInput.date params)) as [d|x]; [|reflexivity].
  apply try_except_get_log. intros p. issues_nothing.
Qed.

Lemma categories_log (e : env) (params : SimpleFormatInput.t) :
  snd (marvin_get_categories e params) = [get_call e "/categories" None].
Proof.
  unfold marvin_get_categories. apply try_except_get_log. intros p. issues_nothing.
Qed.

Lemma labels_log (e : env) (params : SimpleFormatInput.t) :
  snd (marvin_get_labels e params) = [get_call e "/labels" None].
Proof.
  unfold marvin_get_labels. apply try_except_get_log. intros p. issues_nothing.
Qed.

Lemma children_log (e : env) (params : GetChildrenInput.t) :
  snd (marvin_get_children e params)
  = [get_call e "/children" (Some [(U "parentId", GetChildrenInput.parent_id params)])].
Proof.
  unfold marvin_get_children. apply try_except_get_log. intros p. issues_nothing.
Qed.

Lemma add_task_log (e : env) (params : AddTaskInput.t) :
  snd (marvin_add_task e params) = [post_call e "/addTask" (add_task_data params)].
Proof.
  unfold marvin_add_task. apply try_except_post_log. intros p.
  change (issues_nothing
            (bindM (lift (add_task_lines e p)) (fun lines => lift (Ok (join [nl] lines))))).
  issues_nothing.
Qed.

Lemma mark_done_log (e : env) (params : MarkDoneInput.t) :
  snd (marvin_mark_done e params)
  = [post_call e "/markDone" [(U "itemId", JStr (MarkDoneInput.item_id params))]].
Proof.
  unfold marvin_mark_done. apply try_except_post_log. intros p log. reflexivity.
Qed.

Lemma start_tracking_log (e : env) (params : StartTrackingInput.t) :
  snd (marvin_start_tracking e params)
  = [post_call e "/track" [(U "itemId", JStr (StartTrackingInput.item_id params));
                            (U "action", JStr (U "START"))]].
Proof.
  unfold marvin_start_tracking. apply try_except_post_log. intros p log. reflexivity.
Qed.

Lemma stop_tracking_log (e : env) :
  snd (marvin_stop_tracking e) = [post_call e "/track" [(U "action", JStr (U "STOP"))]].
Proof.
  unfold marvin_stop_tracking. apply try_except_post_log. intros p log. reflexivity.
Qed.

(** Every one of the nine tools makes a single attempt: whatever the
    remote API answers and whatever the response format, a tool issues
    exactly one request, which its input alone determines; the two
    date-based listings issue none when the date of today cannot be
    computed, and then return the normalized error. *)
Theorem tools_issue_one_request :
  forall e : env,
    (forall params,
       snd (marvin_add_task e params)
       = [post_call e "/addTask" (add_task_data params)]) /\
    (forall params,
       snd (marvin_mark_done e params)
       = [post_call e "/markDone" [(U "itemId", JStr (MarkDoneInput.item_id params))]]) /\
    (forall params,
       snd (marvin_start_tracking e params)
       = [post_call e "/track" [(U "itemId", JStr (StartTrackingInput.item_id params));
                                 (U "action", JStr (U "START"))]]) /\
    snd (marvin_stop_tracking e) = [post_call e "/track" [(U "action", JStr (U "STOP"))]] /\
    (forall params, snd (marvin_get_categories e params) = [get_call e "/categories" None]) /\
    (forall params, snd (marvin_get_labels e params) = [get_call e "/labels" None]) /\
    (forall params,
       snd (marvin_get_children e params)
       = [get_call e "/children"
            (Some [(U "parentId", GetChildrenInput.parent_id params)])]) /\
    (forall params target_date,
       target_date_of e (GetTasksInput.date params) = Ok target_date ->
       snd (marvin_get_todays_tasks e params)
       = [get_call e "/todayItems" (Some [(U "date", target_date)])]
       /\ snd (marvin_get_due_tasks digit_value repr e params)
          = [get_call e "/dueItems" (Some [(U "by", target_date)])]) /\
    (forall params x,
       target_date_of e (GetTasksInput.date params) = Raise x ->
       marvin_get_todays_tasks e params = (_handle_api_error x, [])
       /\ marvin_get_due_tasks digit_value repr e params = (_handle_api_error x, [])).
Proof.
  intros e. split; [apply add_task_log|].
  split; [apply mark_done_log|]. split; [apply start_tracking_log|].
  split; [apply stop_tracking_log|]. split; [apply categories_log|].
  split; [apply labels_log|]. split; [apply children_log|]. split.
  - intros params d H.
    pose proof (todays_tasks_log e params) as T.
    pose proof (due_tasks_log e params) as D. rewrite H in T, D. now split.
  - intros params x H.
    pose proof (todays_tasks_log e params) as T.
    pose proof (due_tasks_log e params) as D. rewrite H in T, D. now split.
Qed.

End Requests.

Lemma tools_issue_one_request_witness :
  snd (marvin_get_todays_tasks (utc_env (Raise TimeoutException))
         (tasks_input "2024-03-15" JSON))
  = [get_call (utc_env (Raise TimeoutException)) "/todayItems"
       (Some [(U "date", U "2024-03-15")])].
Proof.
  apply (proj1 (proj2 (proj2 (proj2 (proj2 (proj2 (proj2 (proj2
           (@tools_issue_one_request ascii_digit_value plain_repr
              (utc_env (Raise TimeoutException))))))))))
           (tasks_input "2024-03-15" JSON) (U "2024-03-15") eq_refl).
Defined.

(** ** Failures and successes of the remote API *)

Lemma try_except_post (e : env) (endpoint : string) (body : dict json)
  (k : payload -> M str) :
  try_except (bindM (_make_api_request e endpoint "POST" (Some (JDict body)) None false) k)
  = match remote e (post_call e endpoint body) with
    | Ok p =>
        match k p [post_call e endpoint body] with
        | (Ok text, log) => (text, log)
        | (Raise x, log) => (_handle_api_error x, log)
        end
    | Raise x => (_handle_api_error x, [post_call e endpoint body])
    end.
Proof.
  unfold try_except, bindM. rewrite make_api_request_post.
  now destruct (remote e (post_call e endpoint body)).
Qed.

Section Outcomes.

Variable digit_value : char -> option Z.
Variable repr : str -> str.

(** No remote failure is swallowed or retried: when the request of a
    tool raises (a status error, a timeout, a connection failure or
    anything else), the tool returns the normalized message of that
    very exception, having issued that one request. *)
Theorem remote_failure_is_reported :
  forall (e : env) (i : tool_input) (call : http_call) (x : exn),
    tool_request e i = Ok call ->
    remote e call = Raise x ->
    run_tool digit_value repr e i = (_handle_api_error x, [call]).
Proof.
  intros e i call x Hreq Hx.
  destruct i as [p|p|p|p|p|p|p|p|]; simpl in Hreq |- *;
    try (injection Hreq as <-);
    try (apply bind_ok in Hreq as [d [Hd Hreq]]; injection Hreq as <-).
  - unfold marvin_add_task. now rewrite try_except_post, Hx.
  - unfold marvin_get_todays_tasks.
    now rewrite try_except_bind_lift, Hd, try_except_get, Hx.
  - unfold marvin_mark_done. now rewrite try_except_post, Hx.
  - unfold marvin_get_due_tasks.
    now rewrite try_except_bind_lift, Hd, try_except_get, Hx.
  - unfold marvin_get_categories. now rewrite try_except_get, Hx.
  - unfold marvin_get_labels. now rewrite try_except_get, Hx.
  - unfold marvin_get_children. now rewrite try_except_get, Hx.
  - unfold marvin_start_tracking. now rewrite try_except_post, Hx.
  - unfold marvin_stop_tracking. now rewrite try_except_post, Hx.
Qed.

(** The mutating tools other than add-task do not look at what the
    remote API answers: whenever the request succeeds, with any
    payload, the result is the fixed confirmation, which carries the
    item identifier of the input. *)
Theorem confirmation_ignores_payload :
  forall (e : env) (p : payload),
    (forall params,
       remote e (post_call e "/markDone"
                   [(U "itemId", JStr (MarkDoneInput.item_id params))]) = Ok p ->
       fst (marvin_mark_done e params) = mark_done_text (MarkDoneInput.item_id params)) /\
    (forall params,
       remote e (post_call e "/track"
                   [(U "itemId", JStr (StartTrackingInput.item_id params));
                    (U "action", JStr (U "START"))]) = Ok p ->
       fst (marvin_start_tracking e params)
       = start_tracking_text (StartTrackingInput.item_id params)) /\
    (remote e (post_call e "/track" [(U "action", JStr (U "STOP"))]) = Ok p ->
     fst (marvin_stop_tracking e) = stop_tracking_text).
Proof.
  intros e p. split; [|split].
  - intros params H. unfold marvin_mark_done. now rewrite try_except_post, H.
  - intros params H. unfold marvin_start_tracking. now rewrite try_except_post, H.
  - intros H. unfold marvin_stop_tracking. now rewrite try_except_post, H.
Qed.

End Outcomes.

Lemma remote_failure_is_reported_witness :
  run_tool ascii_digit_value plain_repr (utc_env (Raise ConnectError))
    (input_marvin_get_due_tasks (tasks_input "2024-03-15" MARKDOWN))
  = (msg_connect,
     [get_call (utc_env (Raise ConnectError)) "/dueItems" (Some [(U "by", U "2024-03-15")])]).
Proof.
  apply (@remote_failure_is_reported ascii_digit_value plain_repr
           (utc_env (Raise ConnectError))
           (input_marvin_get_due_tasks (tasks_input "2024-03-15" MARKDOWN))
           _ ConnectError eq_refl eq_refl).
Defined.

Lemma confirmation_ignores_payload_witness :
  fst (marvin_mark_done (utc_env (Ok (PRecords [sample_task])))
         {| MarkDoneInput.item_id := U "t1" |})
  = mark_done_text (U "t1").
Proof.
  apply (proj1 (@confirmation_ignores_payload (utc_env (Ok (PRecords [sample_task])))
                  (PRecords [sample_task]))).
  reflexivity.
Defined.

(** ** Hints and addresses *)

Lemma snd_validated {R T : Type} (validate : R -> list violation + T)
  (tool : T -> str * list http_call) (raw : R) :
  snd (validated validate tool raw)
  = match validate raw with
    | inl _ => []
    | inr params => snd (tool params)
    end.
Proof.
  unfold validated. destruct (validate raw) as [vs|p]; [reflexivity|].
  now destruct (tool p).
Qed.

Lemma get_call_well_addressed (e : env) (endpoint : string) (params : option (dict str)) :
  call_is_get (get_call e endpoint params) = true
  /\ well_addressed e (get_call e endpoint params).
Proof.
  split; [reflexivity|]. split; [now eexists|]. split; reflexivity.
Qed.

Lemma post_call_well_addressed (e : env) (endpoint : string) (body : dict json) :
  call_is_get (post_call e endpoint body) = false
  /\ well_addressed e (post_call e endpoint body).
Proof.
  split; [reflexivity|]. split; [now eexists|]. split; reflexivity.
Qed.

Section Hints.

Variable digit_value : char -> option Z.
Variable py_digit_value : char -> option Z.
Variable repr : str -> str.

(** A call of a tool, valid or not, issues at most one request.  The
    request is a GET exactly when the tool is registered as read-only
    and a POST otherwise; it goes to the fixed base URL and carries the
    API token: no tool ever sends the full-access token. *)
Theorem read_only_hint_matches_method :
  forall (e : env) (c : tool_call),
    (length (snd (call_tool digit_value py_digit_value repr e c)) <= 1)%nat /\
    Forall (fun call =>
              call_is_get call = readOnlyHint (tool_annotations c)
              /\ well_addressed e call)
      (snd (call_tool digit_value py_digit_value repr e c)).
Proof.
  intros e c.
  assert (G : forall endpoint params,
             (length [get_call e endpoint params] <= 1)%nat /\
             Forall (fun call => call_is_get call = true /\ well_addressed e call)
               [get_call e endpoint params]).
  { intros. split; [simpl; lia|]. repeat constructor; apply get_call_well_addressed. }
  assert (P : forall endpoint body,
             (length [post_call e endpoint body] <= 1)%nat /\
             Forall (fun call => call_is_get call = false /\ well_addressed e call)
               [post_call e endpoint body]).
  { intros. split; [simpl; lia|]. repeat constructor; apply post_call_well_addressed. }
  assert (E : forall b, (length (@nil http_call) <= 1)%nat /\
                        Forall (fun call => call_is_get call = b /\ well_addressed e call) []).
  { intros. split; [simpl; lia | constructor]. }
  destruct c as [raw|raw|raw|raw|raw|raw|raw|raw|]; cbn [call_tool tool_annotations readOnlyHint];
    try rewrite snd_validated.
  - destruct (validate_AddTaskInput digit_value raw); [apply E|].
    rewrite add_task_log. apply P.
  - destruct (validate_GetTasksInput digit_value raw) as [|p]; [apply E|].
    pose proof (todays_tasks_log e p) as L.
    destruct (target_date_of e (GetTasksInput.date p)); [rewrite L; apply G|].
    rewrite L. apply E.
  - destruct (validate_MarkDoneInput raw); [apply E|].
    rewrite mark_done_log. apply P.
  - destruct (validate_GetTasksInput digit_value raw) as [|p]; [apply E|].
    pose proof (due_tasks_log py_digit_value repr e p) as L.
    destruct (target_date_of e (GetTasksInput.date p)); [rewrite L; apply G|].
    rewrite L. apply E.
  - destruct (validate_SimpleFormatInput raw); [apply E|].
    rewrite categories_log. apply G.
  - destruct (validate_SimpleFormatInput raw); [apply E|].
    rewrite labels_log. apply G.
  - destruct (validate_GetChildrenInput raw); [apply E|].
    rewrite children_log. apply G.
  - destruct (validate_StartTrackingInput raw); [apply E|].
    rewrite start_tracking_log. apply P.
  - pose proof (stop_tracking_log e) as L.
    destruct (marvin_stop_tracking e) as [text log]. simpl in L |- *. subst log.
    apply P.
Qed.

End Hints.

(** ** What validation accepts *)

Lemma ap_accepted {A B : Type} (f : checked (A -> B)) (x : checked A) (b : B) :
  accepted (ap f x) b <-> exists g a, accepted f g /\ accepted x a /\ b = g a.
Proof.
  unfold accepted, ap. destruct f as [vf og], x as [vx oa]. simpl. split.
  - intros [V S]. apply app_eq_nil in V as [-> ->].
    destruct og as [g|]; [|discriminate]. destruct oa as [a|]; [|discriminate].
    injection S as <-. now exists g, a.
  - intros (g & a & [-> ->] & [-> ->] & ->). now split.
Qed.

Lemma pure_accepted {A : Type} (a b : A) : accepted (pure a) b <-> b = a.
Proof.
  unfold accepted, pure. simpl. split; [intros [_ H]; congruence | intros ->; now split].
Qed.

Lemma model_validate_inr {A : Type} (fields : checked A) (extra : list str) (a : A) :
  model_validate fields extra = inr a <-> accepted fields a /\ extra = [].
Proof.
  unfold model_validate, accepted, forbid_extra.
  destruct fields as [vs oa]. simpl. split.
  - intros H. destruct (vs ++ map extra_forbidden extra) as [|v l] eqn:E;
      [|destruct oa; discriminate].
    apply app_eq_nil in E as [-> E]. apply map_eq_nil in E.
    destruct oa as [a'|]; [|discriminate]. injection H as <-. now repeat split.
  - intros [[-> ->] ->]. reflexivity.
Qed.

Lemma required_str_accepted (field : string) (max_length : option Z)
  (v : option str) (s : str) :
  accepted (required_str field max_length v) s
  <-> exists t, v = Some t /\ s = strip t /\ 1 <= len (strip t)
                /\ match max_length with
                   | Some m => len (strip t) <= m
                   | None => True
                   end.
Proof.
  unfold accepted, required_str. destruct v as [t|]; simpl.
  - destruct (len (strip t) <? 1) eqn:L; simpl.
    + split; [intros [H _]; discriminate | intros (t' & E & _ & H & _)].
      injection E as <-. lia.
    + destruct max_length as [m|]; [destruct (m <? len (strip t)) eqn:G|]; simpl.
      * split; [intros [H _]; discriminate | intros (t' & E & _ & _ & H)].
        injection E as <-. lia.
      * split; [intros [_ H]; injection H as <-; exists t; repeat split; lia
               |intros (t' & E & -> & _); injection E as <-; now split].
      * split; [intros [_ H]; injection H as <-; exists t; repeat split; lia
               |intros (t' & E & -> & _); injection E as <-; now split].
  - split; [intros [H _]; discriminate | intros (t & E & _); discriminate].
Qed.

Lemma optional_str_accepted (field : string) (max_length : option Z)
  (v o : option str) :
  accepted (optional_str field max_length v) o
  <-> option_rel (fun n s => s = strip n
                             /\ match max_length with
                                | Some m => len (strip n) <= m
                                | None => True
                                end) v o.
Proof.
  unfold accepted, optional_str, option_rel. destruct v as [n|]; simpl.
  - destruct max_length as [m|]; [destruct (m <? len (strip n)) eqn:G|]; simpl.
    + split; [intros [H _]; discriminate|]. destruct o; [intros [_ H]; lia | tauto].
    + split; [intros [_ H]; injection H as <-; split; [reflexivity | lia]|].
      destruct o; [intros [-> _]; now split | tauto].
    + split; [intros [_ H]; injection H as <-; now split|].
      destruct o; [intros [-> _]; now split | tauto].
  - split; [intros [_ H]; injection H as <-; exact I|].
    destruct o; [tauto | now split].
Qed.

Lemma optional_str_list_accepted (field : string) (max_length : Z)
  (v o : option (list str)) :
  accepted (optional_str_list field max_length v) o
  <-> option_rel (fun l ids => ids = map strip l /\ len l <= max_length) v o.
Proof.
  unfold accepted, optional_str_list, option_rel. destruct v as [l|]; simpl.
  - destruct (max_length <? len l) eqn:G; simpl.
    + split; [intros [H _]; discriminate|]. destruct o; [intros [_ H]; lia | tauto].
    + split; [intros [_ H]; injection H as <-; split; [reflexivity | lia]|].
      destruct o; [intros [-> _]; now split | tauto].
  - split; [intros [_ H]; injection H as <-; exact I|].
    destruct o; [tauto | now split].
Qed.

Lemma optional_int_accepted (field : string) (ge le : Z) (v o : option Z) :
  accepted (optional_int field ge le v) o
  <-> option_rel (fun z z' => z' = z /\ ge <= z <= le) v o.
Proof.
  unfold accepted, optional_int, option_rel. destruct v as [z|]; simpl.
  - destruct (z <? ge) eqn:L; simpl.
    + split; [intros [H _]; discriminate|]. destruct o; [intros [_ H]; lia | tauto].
    + destruct (le <? z) eqn:G; simpl.
      * split; [intros [H _]; discriminate|]. destruct o; [intros [_ H]; lia | tauto].
      * split; [intros [_ H]; injection H as <-; split; [reflexivity | lia]|].
        destruct o; [intros [-> _]; now split | tauto].
  - split; [intros [_ H]; injection H as <-; exact I|].
    destruct o; [tauto | now split].
Qed.

Lemma lstrip_head (s : str) :
  match lstrip s with
  | [] => True
  | c :: _ => is_whitespace c = false
  end.
Proof.
  induction s as [|c s IH]; cbn [lstrip]; [exact I|].
  destruct (is_whitespace c) eqn:W; [exact IH | exact W].
Qed.

Lemma lstrip_fixed (s : str) :
  match s with
  | [] => True
  | c :: _ => is_whitespace c = false
  end ->
  lstrip s = s.
Proof.
  destruct s as [|c s]; cbn [lstrip]; [reflexivity|]. now intros ->.
Qed.

Lemma lstrip_lstrip (s : str) : lstrip (lstrip s) = lstrip s.
Proof.
  apply lstrip_fixed, lstrip_head.
Qed.

Lemma lstrip_snoc (l : str) (c : char) :
  is_whitespace c = false -> exists l', lstrip (l ++ [c]) = l' ++ [c].
Proof.
  intros W. induction l as [|x l IH]; cbn [app lstrip].
  - rewrite W. now exists [].
  - destruct (is_whitespace x); [exact IH | now exists (x :: l)].
Qed.

Lemma strip_strip (s : str) : strip (strip s) = strip s.
Proof.
  unfold strip.
  assert (H : lstrip (rev (lstrip (rev (lstrip s)))) = rev (lstrip (rev (lstrip s)))).
  { pose proof (lstrip_head s) as Hh. destruct (lstrip s) as [|c r]; [reflexivity|].
    cbn [rev]. destruct (@lstrip_snoc (rev r) c Hh) as [l' ->].
    rewrite rev_app_distr. cbn [rev app lstrip]. now rewrite Hh. }
  rewrite H, rev_involutive, lstrip_lstrip. reflexivity.
Qed.

Section Accepted.

Variable digit_value : char -> option Z.

Lemma optional_date_accepted (field : string) (v o : option str) :
  accepted (optional_date digit_value field v) o
  <-> option_rel (fun d s => s = strip d /\ date_shape digit_value (strip d)) v o.
Proof.
  unfold accepted, optional_date, option_rel. destruct v as [d|]; simpl.
  - destruct (full_match digit_value DATE_PATTERN (strip d)) eqn:F; simpl.
    + apply full_match_date_shape in F.
      split; [intros [_ H]; injection H as <-; now split|].
      destruct o; [intros [-> _]; now split | tauto].
    + split; [intros [H _]; discriminate|].
      destruct o; [|tauto]. intros [_ H].
      apply full_match_date_shape in H. congruence.
  - split; [intros [_ H]; injection H as <-; exact I|].
    destruct o; [tauto | now split].
Qed.

Lemma validate_AddTaskInput_inr :
  forall (raw : AddTaskInput.raw) (p : AddTaskInput.t),
    validate_AddTaskInput digit_value raw = inr p <->
    AddTaskInput.raw_extra raw = [] /\
    (exists t, AddTaskInput.raw_title raw = Some t
               /\ AddTaskInput.title p = strip t /\ 1 <= len (strip t) <= 500) /\
    option_rel (fun n s => s = strip n /\ len (strip n) <= 5000)
      (AddTaskInput.raw_note raw) (AddTaskInput.note p) /\
    option_rel (fun d s => s = strip d /\ date_shape digit_value (strip d))
      (AddTaskInput.raw_day raw) (AddTaskInput.day p) /\
    option_rel (fun d s => s = strip d /\ date_shape digit_value (strip d))
      (AddTaskInput.raw_due_date raw) (AddTaskInput.due_date p) /\
    option_rel (fun i s => s = strip i)
      (AddTaskInput.raw_parent_id raw) (AddTaskInput.parent_id p) /\
    option_rel (fun l ids => ids = map strip l /\ len l <= 20)
      (AddTaskInput.raw_label_ids raw) (AddTaskInput.label_ids p) /\
    option_rel (fun z z' => z' = z /\ 60000 <= z <= 86400000)
      (AddTaskInput.raw_time_estimate raw) (AddTaskInput.time_estimate p) /\
    AddTaskInput.is_starred p = AddTaskInput.raw_is_starred raw.
Proof.
  intros raw p. unfold validate_AddTaskInput. rewrite model_validate_inr. split.
  - intros [H Hextra].
    apply ap_accepted in H as (g8 & starred & H & Hstarred & ->).
    apply ap_accepted in H as (g7 & est & H & Hest & ->).
    apply ap_accepted in H as (g6 & labels & H & Hlabels & ->).
    apply ap_accepted in H as (g5 & parent & H & Hparent & ->).
    apply ap_accepted in H as (g4 & due & H & Hdue & ->).
    apply ap_accepted in H as (g3 & day & H & Hday & ->).
    apply ap_accepted in H as (g2 & note & H & Hnote & ->).
    apply ap_accepted in H as (g1 & title & H & Htitle & ->).
    apply pure_accepted in H. subst g1. simpl.
    apply pure_accepted in Hstarred.
    apply required_str_accepted in Htitle as (t & Et & -> & L1 & L2).
    apply optional_str_accepted in Hnote, Hparent.
    apply optional_date_accepted in Hday, Hdue.
    apply optional_str_list_accepted in Hlabels.
    apply optional_int_accepted in Hest.
    repeat split; try assumption.
    + exists t. repeat split; assumption.
    + destruct (AddTaskInput.raw_parent_id raw), parent; simpl in *; tauto.
  - intros (Hextra & (t & Et & Ht & L) & Hnote & Hday & Hdue & Hparent & Hlabels
            & Hest & Hstarred).
    split; [|exact Hextra].
    destruct p as [title note day due parent labels est starred]. simpl in *.
    repeat (apply ap_accepted; eexists; eexists; split; [|split; [|reflexivity]]).
    + now apply pure_accepted.
    + apply required_str_accepted. exists t. repeat split; try tauto; lia.
    + now apply optional_str_accepted.
    + now apply optional_date_accepted.
    + now apply optional_date_accepted.
    + apply optional_str_accepted.
      destruct (AddTaskInput.raw_parent_id raw), parent; simpl in *; tauto.
    + now apply optional_str_list_accepted.
    + now apply optional_int_accepted.
    + now apply pure_accepted.
Qed.

(** Validation of the arguments of add-task accepts exactly the
    arguments that meet every declared constraint, and the validated
    input holds the arguments with every string trimmed: no unknown
    key; a title of 1 to 500 characters once trimmed; a note of at most
    5000; [day] and [due_date] of the shape of a date; at most 20 label
    identifiers; a time estimate from 60000 to 86400000. *)
Theorem validate_AddTaskInput_accepts :
  forall (raw : AddTaskInput.raw) (p : AddTaskInput.t),
    validate_AddTaskInput digit_value raw = inr p <->
    AddTaskInput.raw_extra raw = [] /\
    (exists t, AddTaskInput.raw_title raw = Some t
               /\ AddTaskInput.title p = strip t /\ 1 <= len (strip t) <= 500) /\
    option_rel (fun n s => s = strip n /\ len (strip n) <= 5000)
      (AddTaskInput.raw_note raw) (AddTaskInput.note p) /\
    option_rel (fun d s => s = strip d /\ date_shape digit_value (strip d))
      (AddTaskInput.raw_day raw) (AddTaskInput.day p) /\
    option_rel (fun d s => s = strip d /\ date_shape digit_value (strip d))
      (AddTaskInput.raw_due_date raw) (AddTaskInput.due_date p) /\
    option_rel (fun i s => s = strip i)
      (AddTaskInput.raw_parent_id raw) (AddTaskInput.parent_id p) /\
    option_rel (fun l ids => ids = map strip l /\ len l <= 20)
      (AddTaskInput.raw_label_ids raw) (AddTaskInput.label_ids p) /\
    option_rel (fun z z' => z' = z /\ 60000 <= z <= 86400000)
      (AddTaskInput.raw_time_estimate raw) (AddTaskInput.time_estimate p) /\
    AddTaskInput.is_starred p = AddTaskInput.raw_is_starred raw.
Proof.
  exact validate_AddTaskInput_inr.
Qed.

(** Validation is idempotent: the validated input of add-task, given
    back as arguments, is accepted and validates to itself, since
    trimming a trimmed string changes nothing and every bound is
    checked on the trimmed value. *)
Theorem validate_AddTaskInput_idempotent :
  forall (raw : AddTaskInput.raw) (p : AddTaskInput.t),
    validate_AddTaskInput digit_value raw = inr p ->
    validate_AddTaskInput digit_value (AddTaskInput_dump p) = inr p.
Proof.
  intros raw p H.
  apply validate_AddTaskInput_inr in H
    as (_ & (t & _ & Ht & L) & Hnote & Hday & Hdue & Hparent & Hlabels & Hest & _).
  apply validate_AddTaskInput_inr.
  destruct p as [title note day due parent labels est starred]. simpl in *.
  split; [reflexivity|]. split.
  { exists title. subst title. rewrite strip_strip. now repeat split. }
  unfold option_rel in *.
  repeat split.
  - destruct (AddTaskInput.raw_note raw), note; try tauto.
    destruct Hnote as [-> B]. now rewrite strip_strip.
  - destruct (AddTaskInput.raw_day raw), day; try tauto.
    destruct Hday as [-> B]. now rewrite strip_strip.
  - destruct (AddTaskInput.raw_due_date raw), due; try tauto.
    destruct Hdue as [-> B]. now rewrite strip_strip.
  - destruct (AddTaskInput.raw_parent_id raw), parent; try tauto.
    subst. now rewrite strip_strip.
  - destruct (AddTaskInput.raw_label_ids raw) as [l|], labels; try tauto.
    destruct Hlabels as [-> B]. split.
    + rewrite map_map. apply map_ext. intros x. now rewrite strip_strip.
    + unfold len in *. now rewrite length_map.
  - destruct (AddTaskInput.raw_time_estimate raw), est; try tauto.
    destruct Hest as [-> B]. now split.
Qed.

End Accepted.

Lemma validate_AddTaskInput_idempotent_witness :
  validate_AddTaskInput ascii_digit_value padded_raw = inr trimmed_input
  /\ validate_AddTaskInput ascii_digit_value (AddTaskInput_dump trimmed_input)
     = inr trimmed_input.
Proof.
  assert (H : validate_AddTaskInput ascii_digit_value padded_raw = inr trimmed_input)
    by reflexivity.
  split; [exact H|].
  exact (@validate_AddTaskInput_idempotent ascii_digit_value padded_raw trimmed_input H).
Defined.

Section Identifiers.

Variable digit_value : char -> option Z.
Variable py_digit_value : char -> option Z.
Variable repr : str -> str.

Lemma len_lt_1 (s : str) : (len s <? 1) = true <-> s = [].
Proof.
  unfold len. destruct s as [|c s]; split; intros H;
    [reflexivity | reflexivity
    | apply Z.ltb_lt in H; rewrite length_cons, Nat2Z.inj_succ in H; lia
    | discriminate H].
Qed.

(** An item identifier is trimmed before it is sent: the request of
    mark-done carries the identifier without its surrounding
    whitespace, and an identifier that is blank once trimmed is refused
    by validation without any request. *)
Theorem item_id_is_sent_trimmed :
  forall (e : env) (item_id : str),
    let c := call_marvin_mark_done
               {| MarkDoneInput.raw_item_id := Some item_id;
                  MarkDoneInput.raw_extra := [] |} in
    (strip item_id <> [] ->
     snd (call_tool digit_value py_digit_value repr e c)
     = [post_call e "/markDone" [(U "itemId", JStr (strip item_id))]]) /\
    (strip item_id = [] ->
     call_tool digit_value py_digit_value repr e c
     = (ValidationError [string_too_short "item_id"], [])).
Proof.
  intros e item_id c. subst c. cbn [call_tool]. split.
  - intros N. rewrite snd_validated.
    unfold validate_MarkDoneInput, model_validate, required_str, ap, pure.
    cbn [MarkDoneInput.raw_item_id MarkDoneInput.raw_extra fst snd].
    destruct (len (strip item_id) <? 1) eqn:L; [apply len_lt_1 in L; contradiction|].
    cbn. apply mark_done_log.
  - intros E. unfold validated, validate_MarkDoneInput, model_validate, required_str, ap, pure.
    cbn [MarkDoneInput.raw_item_id MarkDoneInput.raw_extra fst snd].
    rewrite E. reflexivity.
Qed.

End Identifiers.

Lemma item_id_is_sent_trimmed_witness :
  snd (call_tool ascii_digit_value ascii_digit_value plain_repr (utc_env (Ok PNull))
         (call_marvin_mark_done
            {| MarkDoneInput.raw_item_id := Some (U " task_1 ");
               MarkDoneInput.raw_extra := [] |}))
  = [post_call (utc_env (Ok PNull)) "/markDone" [(U "itemId", JStr (U "task_1"))]].
Proof.
  apply (proj1 (@item_id_is_sent_trimmed ascii_digit_value ascii_digit_value plain_repr
                  (utc_env (Ok PNull)) (U " task_1 "))).
  discriminate.
Defined.

(** ** Overdue tags *)

(** The tag of a due task by its due time: " [OVERDUE]" exactly when
    the task is due a full day or more before the reference time,
    " [DUE TODAY]" exactly when it is due within the day that ends at
    the reference time, that time included, and no tag exactly when it
    is due after the reference time. *)
Theorem overdue_tag_by_due_time :
  forall (e : env) (target_dt : datetime) (task : record) (ms : Z) (due_dt : datetime),
    truthy (get task "dueDate") = true ->
    as_int (get task "dueDate") = Some ms ->
    fromtimestamp e ms = Ok due_dt ->
    exists days_diff : Z,
      days_overdue e target_dt task = Ok (Some days_diff) /\
      (overdue_tag (Some days_diff) = U " [OVERDUE]"
       <-> due_dt + MS_PER_DAY <= target_dt) /\
      (overdue_tag (Some days_diff) = U " [DUE TODAY]"
       <-> due_dt <= target_dt < due_dt + MS_PER_DAY) /\
      (overdue_tag (Some days_diff) = [] <-> target_dt < due_dt).
Proof.
  intros e target_dt task ms due_dt T A F.
  exists (timedelta_days target_dt due_dt).
  split; [now apply days_overdue_ok with (ms := ms)|].
  assert (B : timedelta_days target_dt due_dt * MS_PER_DAY <= target_dt - due_dt
              < (timedelta_days target_dt due_dt + 1) * MS_PER_DAY).
  { unfold timedelta_days, MS_PER_DAY.
    pose proof (Z.div_mod (target_dt - due_dt) 86400000 ltac:(lia)).
    pose proof (Z.mod_pos_bound (target_dt - due_dt) 86400000 ltac:(lia)). lia. }
  unfold overdue_tag, MS_PER_DAY in *.
  destruct (timedelta_days target_dt due_dt >? 0) eqn:G;
    [|destruct (timedelta_days target_dt due_dt =? 0) eqn:Z0];
    (split; [|split]); split; intros Htag;
    first [ reflexivity
          | match type of Htag with
            | @eq str _ _ => vm_compute in Htag; discriminate Htag
            end
          | lia ].
Qed.

Lemma overdue_tag_by_due_time_witness :
  exists days_diff : Z,
    days_overdue sample_env reference_dt
      [(U "dueDate", VInt (1710374400000 + 36000000))] = Ok (Some days_diff)
    /\ overdue_tag (Some days_diff) = U " [DUE TODAY]".
Proof.
  destruct (@overdue_tag_by_due_time sample_env reference_dt
              [(U "dueDate", VInt (1710374400000 + 36000000))]
              (1710374400000 + 36000000) (1710374400000 + 36000000)
              eq_refl eq_refl eq_refl) as [d [D [_ [T _]]]].
  exists d. split; [exact D|]. apply T. vm_compute. split; [discriminate | reflexivity].
Defined.

(** ** Shape of the JSON objects *)

Lemma get_absent (r : record) (field : string) :
  dict_lookup (U field) r = None -> get r field = VNone.
Proof.
  intros H. unfold get. now rewrite H.
Qed.

Lemma get_default_absent (r : record) (field : string) (default : value) :
  dict_lookup (U field) r = None -> get_default r field default = default.
Proof.
  intros H. unfold get_default. now rewrite H.
Qed.

Lemma due_json_absent (e : env) (r : record) :
  dict_lookup (U "dueDate") r = None -> due_json e r = Ok JNull.
Proof.
  intros H. unfold due_json. now rewrite (get_absent r "dueDate" H).
Qed.

Lemma estimate_json_absent (r : record) :
  dict_lookup (U "timeEstimate") r = None -> estimate_json r = Ok JNull.
Proof.
  intros H. unfold estimate_json. now rewrite (get_absent r "timeEstimate" H).
Qed.

Lemma days_overdue_absent (e : env) (target_dt : datetime) (r : record) :
  dict_lookup (U "dueDate") r = None -> days_overdue e target_dt r = Ok None.
Proof.
  intros H. unfold days_overdue. now rewrite (get_absent r "dueDate" H).
Qed.

Ltac lookup_key H :=
  unfold json_get in H;
  cbn [dict_lookup str_eqb U map list_ascii_of_string N_of_ascii N.eqb Pos.eqb andb
       N_of_digits N.add N.mul Pos.add Pos.mul Pos.succ app] in H.

Ltac source_field Hin :=
  cbn [In SOURCE_FIELDS] in Hin;
  repeat match type of Hin with
         | _ \/ _ => destruct Hin as [Hin|Hin]
         end;
  [injection Hin as <- <- .. | contradiction].

(** The JSON object of a record has the same keys in the same order
    whatever fields the record has: a field that the record lacks is
    null in the object ([false] for [done]), never left out.  The one
    exception is [daysOverdue], which the object of a due task has, as
    its last key, exactly when the task is overdue by a day or more. *)
Theorem json_objects_have_fixed_keys :
  forall (e : env) (target_dt : datetime) (r : record) (object : json),
    (todays_task_json e r = Ok object ->
     json_keys object = Some TASK_KEYS /\ nulls_absent_fields r object) /\
    (due_task_json e target_dt r = Ok object ->
     exists days_diff : option Z,
       days_overdue e target_dt r = Ok days_diff /\
       json_keys object = Some (due_task_keys days_diff) /\
       nulls_absent_fields r object) /\
    (category_json r = Ok object ->
     json_keys object = Some CATEGORY_KEYS /\ nulls_absent_fields r object) /\
    (label_json r = Ok object ->
     json_keys object = Some LABEL_KEYS /\ nulls_absent_fields r object) /\
    (child_json e r = Ok object ->
     json_keys object = Some CHILD_KEYS /\ nulls_absent_fields r object).
Proof.
  intros e target_dt r object. split; [|split; [|split; [|split]]].
  - unfold todays_task_json. intros H.
    apply bind_ok in H as [due [Hd H]]. apply bind_ok in H as [est [He H]].
    injection H as <-. split; [reflexivity|].
    intros key field value Hin Habs Hget. source_field Hin; lookup_key Hget;
      first [discriminate Hget | injection Hget as <-];
      rewrite ?(get_absent r _ Habs), ?(get_default_absent r _ _ Habs);
      try reflexivity.
    + rewrite (due_json_absent e r Habs) in Hd. now injection Hd as <-.
    + rewrite (estimate_json_absent r Habs) in He. now injection He as <-.
  - unfold due_task_json. intros H.
    apply bind_ok in H as [due [Hd H]]. apply bind_ok in H as [est [He H]].
    apply bind_ok in H as [days [Hdays H]]. injection H as <-.
    exists days. split; [exact Hdays|]. split.
    + unfold due_task_keys. destruct days as [d|]; [destruct (d >? 0)|]; reflexivity.
    + intros key field value Hin Habs Hget.
      assert (K : forall extra : dict json,
                 (exists d, extra = [(U "daysOverdue", JInt d)]
                            /\ dict_lookup (U "dueDate") r <> None)
                 \/ extra = [] ->
                 json_get key
                   (JDict ([(U "id", json_of_value (get r "_id"));
                            (U "title", json_of_value (get r "title"));
                            (U "done", json_of_value (get_default r "done" (VBool false)));
                            (U "dueDate", due);
                            (U "timeEstimate", est)] ++ extra)) = Some value ->
                 value = absent_value key).
      { intros extra [[d [-> Hdue]]| ->] G; source_field Hin; lookup_key G;
          first [discriminate G | contradiction | injection G as <-];
          rewrite ?(get_absent r _ Habs), ?(get_default_absent r _ _ Habs);
          try reflexivity;
          first [rewrite (due_json_absent e r Habs) in Hd; now injection Hd as <-
                |rewrite (estimate_json_absent r Habs) in He; now injection He as <-]. }
      destruct days as [d|].
      * destruct (d >? 0) eqn:P.
        -- apply (K [(U "daysOverdue", JInt d)]); [|exact Hget].
           left. exists d. split; [reflexivity|]. intros A.
           rewrite (days_overdue_absent e target_dt r A) in Hdays. discriminate Hdays.
        -- apply (K []); [now right | exact Hget].
      * apply (K []); [now right | exact Hget].
  - unfold category_json. intros H. injection H as <-. split; [reflexivity|].
    intros key field value Hin Habs Hget. source_field Hin; lookup_key Hget;
      first [discriminate Hget | injection Hget as <-];
      rewrite ?(get_absent r _ Habs); reflexivity.
  - unfold label_json. intros H. injection H as <-. split; [reflexivity|].
    intros key field value Hin Habs Hget. source_field Hin; lookup_key Hget;
      first [discriminate Hget | injection Hget as <-];
      rewrite ?(get_absent r _ Habs); reflexivity.
  - unfold child_json. intros H.
    apply bind_ok in H as [due [Hd H]]. apply bind_ok in H as [est [He H]].
    injection H as <-. split; [reflexivity|].
    intros key field value Hin Habs Hget. source_field Hin; lookup_key Hget;
      first [discriminate Hget | injection Hget as <-];
      rewrite ?(get_absent r _ Habs), ?(get_default_absent r _ _ Habs);
      try reflexivity.
    + rewrite (due_json_absent e r Habs) in Hd. now injection Hd as <-.
    + rewrite (estimate_json_absent r Habs) in He. now injection He as <-.
Qed.

Lemma json_objects_have_fixed_keys_witness :
  json_keys (unwrap JNull (todays_task_json sample_env untitled_task)) = Some TASK_KEYS
  /\ nulls_absent_fields untitled_task
       (unwrap JNull (todays_task_json sample_env untitled_task)).
Proof.
  apply (proj1 (@json_objects_have_fixed_keys sample_env reference_dt untitled_task
                  (unwrap JNull (todays_task_json sample_env untitled_task)))).
  reflexivity.
Defined.

(** ** Labels *)

Lemma for_each_label_block (labels : list record) :
  for_each label_block labels = Ok (map label_lines labels).
Proof.
  induction labels as [|l labels IH]; [reflexivity|].
  cbn [for_each map]. rewrite IH. reflexivity.
Qed.

Lemma nth_error_label_lines (labels : list record) (i : nat) (label : record) :
  nth_error labels i = Some label ->
  forall k, (k < 3)%nat ->
            nth_error (concat (map label_lines labels)) (3 * i + k)
            = nth_error (label_lines label) k.
Proof.
  revert i. induction labels as [|l labels IH]; intros i H k Hk.
  - destruct i; discriminate H.
  - destruct i as [|i].
    + injection H as ->. destruct k as [|[|[|k]]]; [reflexivity ..|lia].
    + replace (3 * S i + k)%nat with (S (S (S (3 * i + k)))) by lia.
      cbn [map concat label_lines app nth_error]. now apply IH.
Qed.

Lemma labels_markdown_lines (labels : list record) :
  exists lines : list str,
    labels_markdown (PRecords labels) = Ok lines /\
    length lines = (4 + 3 * length labels)%nat /\
    nth_error lines 0 = Some (U "# Labels") /\
    forall (i : nat) (label : record),
      nth_error labels i = Some label ->
      nth_error lines (4 + 3 * i)
      = Some (U "## " ++ py_str (get_default label "title" (VStr (U "Untitled"))))
      /\ nth_error lines (5 + 3 * i)
         = Some (U "- **ID**: " ++ py_str (get_default label "_id" (VStr [])))
      /\ nth_error lines (6 + 3 * i) = Some [].
Proof.
  unfold labels_markdown.
  cbn [payload_len payload_items bind]. rewrite for_each_label_block. cbn [bind].
  eexists. split; [reflexivity|]. split; [|split; [reflexivity|]].
  - cbn [app length]. do 4 f_equal.
    induction labels as [|l labels IH]; [reflexivity|].
    cbn [map concat label_lines app length]. rewrite IH. lia.
  - intros i label H.
    pose proof (nth_error_label_lines labels i H) as N.
    cbn [app].
    replace (4 + 3 * i)%nat with (S (S (S (S (3 * i + 0))))) by lia.
    replace (5 + 3 * i)%nat with (S (S (S (S (3 * i + 1))))) by lia.
    replace (6 + 3 * i)%nat with (S (S (S (S (3 * i + 2))))) by lia.
    cbn [nth_error]. rewrite !N by lia. repeat split; reflexivity.
Qed.

(** The markdown listing of labels never fails on a list of records,
    whatever fields they have: the tool returns its lines, joined by
    line breaks and passed through the truncation guard.  The lines are
    four heading lines and then three for each label, in the order of
    the list: for the label at position [i], "## " and its title at
    [4 + 3 i], "- **ID**: " and its identifier next, and an empty line;
    a label without title or identifier reads "Untitled" and an empty
    identifier.  (A title that holds a line break makes more than one
    line of the text out of its line.) *)
Theorem labels_markdown_layout :
  forall (e : env) (params : SimpleFormatInput.t) (labels : list record),
    SimpleFormatInput.response_format params = MARKDOWN ->
    labels <> [] ->
    remote e (get_call e "/labels" None) = Ok (PRecords labels) ->
    exists lines : list str,
      marvin_get_labels e params
      = (_truncate_response (join [nl] lines) (len labels),
         [get_call e "/labels" None]) /\
      length lines = (4 + 3 * length labels)%nat /\
      nth_error lines 0 = Some (U "# Labels") /\
      forall (i : nat) (label : record),
        nth_error labels i = Some label ->
        nth_error lines (4 + 3 * i)
        = Some (U "## " ++ py_str (get_default label "title" (VStr (U "Untitled"))))
        /\ nth_error lines (5 + 3 * i)
           = Some (U "- **ID**: " ++ py_str (get_default label "_id" (VStr [])))
        /\ nth_error lines (6 + 3 * i) = Some [].
Proof.
  intros e params labels Hformat Hlabels Hremote.
  destruct (labels_markdown_lines labels) as (lines & Hlines & Hrest).
  exists lines. split; [|exact Hrest].
  unfold marvin_get_labels. rewrite try_except_get, Hremote, Hformat.
  destruct labels as [|l labels]; [contradiction|].
  cbn [payload_truthy negb]. unfold bindM, lift. rewrite Hlines.
  reflexivity.
Qed.

Lemma labels_markdown_layout_witness :
  exists lines : list str,
    marvin_get_labels (utc_env (Ok (PRecords [untitled_task; sample_task])))
      {| SimpleFormatInput.response_format := MARKDOWN |}
    = (_truncate_response (join [nl] lines) 2,
       [get_call (utc_env (Ok (PRecords [untitled_task; sample_task]))) "/labels" None])
    /\ nth_error lines 7 = Some (U "## Write report").
Proof.
  destruct (@labels_markdown_layout
              (utc_env (Ok (PRecords [untitled_task; sample_task])))
              {| SimpleFormatInput.response_format := MARKDOWN |}
              [untitled_task; sample_task] eq_refl ltac:(discriminate) eq_refl)
    as [lines [H [_ [_ L]]]].
  exists lines. split; [exact H|].
  exact (proj1 (L 1%nat sample_task eq_refl)).
Defined.

(** ** Children *)

(** An item of type "project" is headed by the folder glyph in the
    markdown listing of children, done or not: its completion shows in
    the JSON object only, which carries the [done] field of every
    item.  Any other item is headed by its completion glyph. *)
Theorem child_heading_glyph :
  forall (e : env) (item : record) (block : list str),
    child_block e item = Ok block ->
    let title := py_str (get_default item "title" (VStr (U "Untitled"))) in
    let item_type := get_default item "type" (VStr (U "task")) in
    (item_type = VStr (U "project") ->
     md_heading block = Some (GLYPH_PROJECT ++ U " " ++ title ++ U " (project)")) /\
    (item_type <> VStr (U "project") ->
     md_heading block
     = Some (status_glyph item ++ U " " ++ title ++ U " (" ++ py_str item_type ++ U ")")) /\
    exists object,
      child_json e item = Ok object
      /\ json_get "done" object
         = Some (json_of_value (get_default item "done" (VBool false))).
Proof.
  intros e item block H title item_type.
  unfold child_block in H.
  apply bind_ok in H as [due [Hd H]]. apply bind_ok in H as [est [He H]].
  apply bind_ok in H as [note [_ H]]. injection H as <-.
  fold title item_type. split; [|split].
  - intros E. rewrite E. reflexivity.
  - intros N.
    assert (V : value_is_str item_type "project" = false).
    { unfold value_is_str. destruct item_type as [| | |s]; try reflexivity.
      apply str_eqb_false. congruence. }
    rewrite V. apply md_heading_block.
  - unfold child_json.
    apply due_line_cases in Hd as [[Hd _]|[d [Hd _]]];
      apply estimate_line_cases in He as [[He _]|[t [He _]]];
      rewrite Hd, He; eexists; split; reflexivity.
Qed.

Lemma child_heading_glyph_witness :
  md_heading (unwrap [] (child_block sample_env
                           [(U "title", VStr (U "Launch")); (U "type", VStr (U "project"));
                            (U "done", VBool true)]))
  = Some (GLYPH_PROJECT ++ U " Launch (project)").
Proof.
  apply (proj1 (@child_heading_glyph sample_env
                  [(U "title", VStr (U "Launch")); (U "type", VStr (U "project"));
                   (U "done", VBool true)]
                  _ eq_refl)).
  reflexivity.
Defined.

(** ** Size of a truncated text *)

(** The truncation guard does not keep a text within the character
    limit: a text longer than the limit with no line break at the
    positions 1 to 24999 comes back as its first 25000 characters and
    the notice, 25000 characters plus the length of the notice, which is
    more than the limit. *)
Theorem truncated_text_exceeds_limit :
  forall (content : str) (items_count : Z),
    CHARACTER_LIMIT < len content ->
    (forall i, 0 < i < CHARACTER_LIMIT -> char_at content i <> Some nl) ->
    _truncate_response content items_count
    = slice_to content CHARACTER_LIMIT ++ truncation_notice (len content)
    /\ len (_truncate_response content items_count)
       = CHARACTER_LIMIT + len (truncation_notice (len content))
    /\ CHARACTER_LIMIT < len (_truncate_response content items_count).
Proof.
  intros content items_count L N.
  assert (HL : 0 <= CHARACTER_LIMIT) by (unfold CHARACTER_LIMIT; lia).
  assert (E : _truncate_response content items_count
              = slice_to content CHARACTER_LIMIT ++ truncation_notice (len content)).
  { unfold _truncate_response.
    replace (len content <=? CHARACTER_LIMIT) with false by lia.
    set (truncated := slice_to content CHARACTER_LIMIT).
    assert (Hlen : len truncated = CHARACTER_LIMIT) by (apply len_slice_to; lia).
    unfold rfind.
    destruct (rfind_from_spec nl truncated 0 (-1)) as [[R _]|[j [Hj [R [Hc _]]]]].
    - rewrite R. reflexivity.
    - rewrite R. destruct (0 + Z.of_nat j >? 0) eqn:P; [|reflexivity].
      exfalso. apply (N (Z.of_nat j)).
      + unfold len in Hlen. lia.
      + rewrite <- (char_at_slice_to content (n := CHARACTER_LIMIT))
          by (unfold len in Hlen; lia).
        unfold char_at. replace (Z.of_nat j <? 0) with false by lia.
        now rewrite Nat2Z.id. }
  split; [exact E|]. rewrite E, len_app, len_slice_to by lia.
  split; [reflexivity|].
  assert (0 < len (truncation_notice (len content))).
  { rewrite truncation_notice_parts. unfold NOTICE_HEAD.
    rewrite <- !app_assoc, len_app. cbn [len length app].
    pose proof (len_nonneg (([nl] ++ U "---" ++ [nl] ++ U "**")
                            ++ U "Response Truncated" ++ NOTICE_SIZE
                            ++ format_thousands (len content) ++ NOTICE_HINTS)).
    unfold len in *. cbn [length app] in *. lia. }
  lia.
Qed.

Lemma truncated_text_exceeds_limit_witness :
  CHARACTER_LIMIT < len (_truncate_response (repeat 97%N (Z.to_nat 25001)) 1).
Proof.
  apply (@truncated_text_exceeds_limit (repeat 97%N (Z.to_nat 25001)) 1).
  - vm_compute. reflexivity.
  - intros i Hi. unfold char_at. replace (i <? 0) with false by lia.
    intros H. apply nth_error_In, repeat_spec in H. discriminate H.
Defined.

(** ** JSON text *)

Lemma json_induction (P : json -> Prop) :
  P JNull -> (forall b, P (JBool b)) -> (forall z, P (JInt z)) ->
  (forall s, P (JStr s)) ->
  (forall l, Forall P l -> P (JList l)) ->
  (forall d, Forall (fun kv => P (snd kv)) d -> P (JDict d)) ->
  forall j, P j.
Proof.
  intros Hnull Hbool Hint Hstr Hlist Hdict. fix IH 1. intros [|b|z|s|l|d].
  - exact Hnull.
  - apply Hbool.
  - apply Hint.
  - apply Hstr.
  - apply Hlist. induction l as [|j l IHl]; constructor; [apply IH | exact IHl].
  - apply Hdict. induction d as [|[k v] d IHd]; constructor; [apply IH | exact IHd].
Qed.

Lemma is_ascii_check (s : str) :
  forallb (fun c => (c <? 128)%N) s = true -> is_ascii s.
Proof.
  intros H. apply Forall_forall. intros c Hc.
  apply N.ltb_lt. revert c Hc. now apply forallb_forall.
Qed.

Lemma is_ascii_app (a b : str) : is_ascii a -> is_ascii b -> is_ascii (a ++ b).
Proof.
  intros Ha Hb. apply Forall_app. now split.
Qed.

Lemma is_ascii_cons (c : char) (s : str) : (c < 128)%N -> is_ascii s -> is_ascii (c :: s).
Proof.
  intros Hc Hs. now constructor.
Qed.

Lemma is_ascii_digits (n : N) : is_ascii (digits n).
Proof.
  unfold digits. eapply Forall_impl; [|apply uint_chars_digits].
  intros c H. apply in_range_bounds in H. lia.
Qed.

Lemma is_ascii_str_of_int (z : Z) : is_ascii (str_of_int z).
Proof.
  unfold str_of_int. destruct (z <? 0).
  - apply is_ascii_cons; [unfold minus; lia | apply is_ascii_digits].
  - apply is_ascii_digits.
Qed.

Lemma hex_digit_ascii (d : N) : (d < 16)%N -> (Json.hex_digit d < 128)%N.
Proof.
  intros H. unfold Json.hex_digit. destruct (d <? 10)%N; lia.
Qed.

Lemma is_ascii_hex4 (n : N) : is_ascii (Json.hex4 n).
Proof.
  unfold Json.hex4.
  repeat (apply is_ascii_cons; [apply hex_digit_ascii; apply N.mod_lt; lia|]).
  constructor.
Qed.

Lemma is_ascii_escape_char (c : char) : is_ascii (Json.escape_char c).
Proof.
  unfold Json.escape_char.
  repeat match goal with
         | |- is_ascii (if ?b then _ else _) => destruct b eqn:?
         end;
    try (apply is_ascii_check; reflexivity).
  - apply andb_true_iff in Heqb6 as [_ H]. apply N.leb_le in H.
    repeat constructor. lia.
  - apply is_ascii_cons; [unfold Json.backslash; lia|].
    apply is_ascii_app; [apply is_ascii_check; reflexivity | apply is_ascii_hex4].
  - apply is_ascii_cons; [unfold Json.backslash; lia|].
    apply is_ascii_app; [apply is_ascii_check; reflexivity|].
    apply is_ascii_app; [apply is_ascii_hex4|].
    apply is_ascii_cons; [unfold Json.backslash; lia|].
    apply is_ascii_app; [apply is_ascii_check; reflexivity | apply is_ascii_hex4].
Qed.

Lemma is_ascii_encode_str (s : str) : is_ascii (Json.encode_str s).
Proof.
  unfold Json.encode_str.
  apply is_ascii_app; [apply is_ascii_check; reflexivity|].
  apply is_ascii_app; [|apply is_ascii_check; reflexivity].
  induction s as [|c s IH]; [constructor|].
  cbn [flat_map]. apply is_ascii_app; [apply is_ascii_escape_char | exact IH].
Qed.

Lemma is_ascii_newline_indent (level : nat) : is_ascii (Json.newline_indent level).
Proof.
  unfold Json.newline_indent. apply is_ascii_cons; [unfold nl; lia|].
  induction level as [|n IH]; [constructor|].
  cbn [repeat concat]. apply is_ascii_app; [apply is_ascii_check; reflexivity | exact IH].
Qed.

Lemma is_ascii_join (sep : str) (parts : list str) :
  is_ascii sep -> Forall is_ascii parts -> is_ascii (join sep parts).
Proof.
  intros Hsep. induction 1 as [|x parts Hx Hparts IH]; [constructor|].
  cbn [join]. destruct parts as [|y parts]; [exact Hx|].
  apply is_ascii_app; [exact Hx|]. apply is_ascii_app; [exact Hsep | exact IH].
Qed.

(** The text of a JSON document consists of ASCII characters only,
    whatever characters its strings and keys hold: every other
    character is written as an escape, so the JSON renderings of the
    listings are ASCII. *)
Theorem json_dumps_is_ascii :
  forall j : json, is_ascii (Json.dumps j).
Proof.
  unfold Json.dumps. intros j. generalize 0%nat.
  induction j as [|b|z|s|l IH|d IH] using json_induction; intros level.
  - apply is_ascii_check. reflexivity.
  - destruct b; apply is_ascii_check; reflexivity.
  - apply is_ascii_str_of_int.
  - apply is_ascii_encode_str.
  - destruct l as [|j l]; [apply is_ascii_check; reflexivity|].
    cbn [Json.dumps_at].
    apply is_ascii_app; [apply is_ascii_check; reflexivity|].
    apply is_ascii_app; [apply is_ascii_newline_indent|].
    apply is_ascii_app;
      [|apply is_ascii_app;
         [apply is_ascii_newline_indent | apply is_ascii_check; reflexivity]].
    apply is_ascii_join.
    + apply is_ascii_cons; [unfold comma; lia | apply is_ascii_newline_indent].
    + apply Forall_map. eapply Forall_impl; [|exact IH]. intros a Ha. apply Ha.
  - destruct d as [|kv d]; [apply is_ascii_check; reflexivity|].
    cbn [Json.dumps_at].
    apply is_ascii_app; [apply is_ascii_check; reflexivity|].
    apply is_ascii_app; [apply is_ascii_newline_indent|].
    apply is_ascii_app;
      [|apply is_ascii_app;
         [apply is_ascii_newline_indent | apply is_ascii_check; reflexivity]].
    apply is_ascii_join.
    + apply is_ascii_cons; [unfold comma; lia | apply is_ascii_newline_indent].
    + apply Forall_map. eapply Forall_impl; [|exact IH]. intros a Ha.
      apply is_ascii_app; [apply is_ascii_encode_str|].
      apply is_ascii_app; [apply is_ascii_check; reflexivity | apply Ha].
Qed.

(** ** Dates that are not of the calendar *)

Lemma ascii_digit_cases (c : char) :
  in_range c 48 57 = true ->
  (c = 48 \/ c = 49 \/ c = 50 \/ c = 51 \/ c = 52 \/ c = 53 \/ c = 54 \/ c = 55
   \/ c = 56 \/ c = 57)%N.
Proof.
  intros H. apply in_range_bounds in H. lia.
Qed.

Ltac ascii_digit c H :=
  let E := fresh "E" in
  destruct (@ascii_digit_cases c H) as [E|[E|[E|[E|[E|[E|[E|[E|[E|E]]]]]]]]]; subst c.

Lemma ascii_digit_not_whitespace (c : char) :
  in_range c 48 57 = true -> is_whitespace c = false.
Proof.
  intros H. ascii_digit c H; reflexivity.
Qed.

Lemma parse_month_ascii (m1 m2 : char) (rest : str) :
  in_range m1 48 57 = true -> in_range m2 48 57 = true ->
  parse_month (m1 :: m2 :: rest)
  = if (1 <=? spelled_two m1 m2) && (spelled_two m1 m2 <=? 12)
    then Some (spelled_two m1 m2, rest)
    else if in_range m1 49 57 then Some (ascii_value m1, m2 :: rest) else None.
Proof.
  intros H1 H2. ascii_digit m1 H1; ascii_digit m2 H2; reflexivity.
Qed.

Lemma days_in_month_bounds (y m : Z) : 28 <= days_in_month y m <= 31.
Proof.
  unfold days_in_month.
  destruct (m =? 2); [destruct (is_leap y); lia|].
  destruct ((m =? 4) || (m =? 6) || (m =? 9) || (m =? 11)); lia.
Qed.

Section CalendarDates.

Variable digit_value : char -> option Z.
Variable py_digit_value : char -> option Z.
Variable repr : str -> str.

(** Both digit tables have the ASCII digits, Python's with their
    values. *)
Hypothesis ascii_digits :
  forall c, in_range c 48 57 = true -> digit_value c = Some (ascii_value c).
Hypothesis py_ascii_digits :
  forall c, in_range c 48 57 = true -> py_digit_value c = Some (ascii_value c).

Lemma parse_day_ascii (d1 d2 : char) (rest : str) :
  in_range d1 48 57 = true -> in_range d2 48 57 = true ->
  parse_day py_digit_value (d1 :: d2 :: rest)
  = if (1 <=? spelled_two d1 d2) && (spelled_two d1 d2 <=? 31)
    then Some (spelled_two d1 d2, rest)
    else if in_range d1 49 57 then Some (ascii_value d1, d2 :: rest) else None.
Proof.
  intros H1 H2. unfold parse_day. rewrite (py_ascii_digits d2 H2).
  ascii_digit d1 H1; ascii_digit d2 H2; reflexivity.
Qed.

Lemma parse_year_ascii (y1 y2 y3 y4 : char) (rest : str) :
  in_range y1 48 57 = true -> in_range y2 48 57 = true ->
  in_range y3 48 57 = true -> in_range y4 48 57 = true ->
  parse_year py_digit_value (y1 :: y2 :: y3 :: y4 :: rest)
  = Some (spelled_year y1 y2 y3 y4, rest).
Proof.
  intros H1 H2 H3 H4. unfold parse_year.
  now rewrite (py_ascii_digits y1 H1), (py_ascii_digits y2 H2), (py_ascii_digits y3 H3),
    (py_ascii_digits y4 H4).
Qed.

Lemma expect_minus_digit (c : char) (rest : str) :
  in_range c 48 57 = true -> expect minus (c :: rest) = None.
Proof.
  intros H. apply in_range_bounds in H. unfold expect, minus.
  destruct (N.eqb c 45) eqn:E; [apply N.eqb_eq in E; lia | reflexivity].
Qed.

Lemma strptime_ymd_ascii (y1 y2 y3 y4 m1 m2 d1 d2 : char) :
  Forall (fun c => in_range c 48 57 = true) [y1; y2; y3; y4; m1; m2; d1; d2] ->
  let y := spelled_year y1 y2 y3 y4 in
  let m := spelled_two m1 m2 in
  let d := spelled_two d1 d2 in
  (calendar_date y m d ->
   strptime_ymd py_digit_value repr [y1; y2; y3; y4; minus; m1; m2; minus; d1; d2]
   = Ok (days_from_civil y m d * MS_PER_DAY)) /\
  (~ calendar_date y m d ->
   exists message,
     strptime_ymd py_digit_value repr [y1; y2; y3; y4; minus; m1; m2; minus; d1; d2]
     = Raise (ValueError message)).
Proof.
  intros F y m d.
  apply Forall_cons_iff in F as [Y1 F]. apply Forall_cons_iff in F as [Y2 F].
  apply Forall_cons_iff in F as [Y3 F]. apply Forall_cons_iff in F as [Y4 F].
  apply Forall_cons_iff in F as [M1 F]. apply Forall_cons_iff in F as [M2 F].
  apply Forall_cons_iff in F as [D1 F]. apply Forall_cons_iff in F as [D2 _].
  pose proof (days_in_month_bounds y m) as B.
  set (date := [y1; y2; y3; y4; minus; m1; m2; minus; d1; d2]).
  assert (H : match strptime_ymd py_digit_value repr date with
              | Ok t => calendar_date y m d /\ t = days_from_civil y m d * MS_PER_DAY
              | Raise x => ~ calendar_date y m d /\ exists message, x = ValueError message
              end).
  { unfold strptime_ymd, parse_ymd, date.
    rewrite (@parse_year_ascii y1 y2 y3 y4 _ Y1 Y2 Y3 Y4). fold y.
    unfold expect at 1. rewrite N.eqb_refl.
    rewrite (@parse_month_ascii m1 m2 _ M1 M2). fold m.
    unfold calendar_date.
    destruct ((1 <=? m) && (m <=? 12)) eqn:Em.
    - unfold expect at 1. rewrite N.eqb_refl.
      rewrite (@parse_day_ascii d1 d2 _ D1 D2). fold d.
      destruct ((1 <=? d) && (d <=? 31)) eqn:Ed.
      + destruct (y <? 1) eqn:Ey; [split; [lia | eauto]|].
        destruct (days_in_month y m <? d) eqn:El; [split; [lia | eauto]|].
        split; [lia | reflexivity].
      + destruct (in_range d1 49 57); (split; [lia | eauto]).
    - destruct (in_range m1 49 57); [|split; [lia | eauto]].
      rewrite (@expect_minus_digit m2 _ M2). split; [lia | eauto]. }
  destruct (strptime_ymd py_digit_value repr date) as [t|x].
  - destruct H as [C ->]. split; [reflexivity | tauto].
  - destruct H as [C [message ->]]. split; [tauto | eauto].
Qed.

Lemma ascii_date_validates (field : string) (y1 y2 y3 y4 m1 m2 d1 d2 : char) :
  Forall (fun c => in_range c 48 57 = true) [y1; y2; y3; y4; m1; m2; d1; d2] ->
  let date := [y1; y2; y3; y4; minus; m1; m2; minus; d1; d2] in
  optional_date digit_value field (Some date) = ([], Some (Some date)).
Proof.
  intros F date.
  assert (S : strip date = date).
  { pose proof F as G.
    apply Forall_cons_iff in G as [Y1 G]. apply Forall_cons_iff in G as [_ G].
    apply Forall_cons_iff in G as [_ G]. apply Forall_cons_iff in G as [_ G].
    apply Forall_cons_iff in G as [_ G]. apply Forall_cons_iff in G as [_ G].
    apply Forall_cons_iff in G as [_ G]. apply Forall_cons_iff in G as [D2 _].
    unfold strip, date. cbn [lstrip]. rewrite (@ascii_digit_not_whitespace y1 Y1).
    cbn [rev app lstrip]. rewrite (@ascii_digit_not_whitespace d2 D2).
    reflexivity. }
  unfold optional_date. rewrite S.
  assert (M : full_match digit_value DATE_PATTERN date = true).
  { apply full_match_date_shape. exists y1, y2, y3, y4, m1, m2, d1, d2.
    split; [reflexivity|].
    eapply Forall_impl; [|exact F]. intros c Hc. unfold is_digit.
    now rewrite (ascii_digits c Hc). }
  now rewrite M.
Qed.

(** The due-tasks listing parses its date with the calendar, which
    validation does not consult: called with a date of ASCII digits in
    the shape YYYY-MM-DD that names no day of the calendar (a month
    above 12, a day the month does not have, the year 0000), the tool
    is run, sends its request and, unless the answer is empty, returns
    the unexpected-error message of a [ValueError], whatever the
    response format. *)
Theorem due_tasks_rejects_invalid_calendar_date :
  forall (e : env) (raw : GetTasksInput.raw) (format : ResponseFormat)
         (y1 y2 y3 y4 m1 m2 d1 d2 : char) (tasks : payload),
    let date := [y1; y2; y3; y4; minus; m1; m2; minus; d1; d2] in
    let call := get_call e "/dueItems" (Some [(U "by", date)]) in
    Forall (fun c => in_range c 48 57 = true) [y1; y2; y3; y4; m1; m2; d1; d2] ->
    GetTasksInput.raw_date raw = Some date ->
    accepted (response_format_field (GetTasksInput.raw_response_format raw)) format ->
    GetTasksInput.raw_extra raw = [] ->
    ~ calendar_date (spelled_year y1 y2 y3 y4) (spelled_two m1 m2) (spelled_two d1 d2) ->
    remote e call = Ok tasks ->
    payload_truthy tasks = true ->
    exists message,
      call_tool digit_value py_digit_value repr e (call_marvin_get_due_tasks raw)
      = (Returned (U "Error: Unexpected error occurred - ValueError: " ++ message),
         [call]).
Proof.
  intros e raw format y1 y2 y3 y4 m1 m2 d1 d2 tasks date call F Hdate Hformat Hextra
    Hcal Hremote Htruthy.
  destruct (proj2 (@strptime_ymd_ascii y1 y2 y3 y4 m1 m2 d1 d2 F) Hcal) as [message Hm].
  exists message.
  assert (V : validate_GetTasksInput digit_value raw
              = inr {| GetTasksInput.date := Some date;
                       GetTasksInput.response_format := format |}).
  { apply model_validate_inr. split; [|exact Hextra].
    apply ap_accepted. eexists _, format. split; [|split; [exact Hformat | reflexivity]].
    apply ap_accepted. eexists _, (Some date). split; [|split; [|reflexivity]].
    - apply pure_accepted. reflexivity.
    - rewrite Hdate. unfold date. rewrite (@ascii_date_validates "date" y1 y2 y3 y4 m1 m2 d1 d2 F). now split. }
  cbn [call_tool]. unfold validated. rewrite V.
  unfold marvin_get_due_tasks.
  rewrite try_except_bind_lift. cbn [GetTasksInput.date target_date_of date].
  rewrite try_except_get. subst call date.
  match goal with
  | |- context [remote e ?c] =>
      replace (remote e c) with (Ok tasks) by (symmetry; exact Hremote)
  end.
  rewrite Htruthy. cbn [negb].
  unfold bindM at 1, lift at 1. rewrite Hm. reflexivity.
Qed.

End CalendarDates.

Lemma ascii_digit_value_ascii (c : char) :
  in_range c 48 57 = true -> ascii_digit_value c = Some (ascii_value c).
Proof.
  intros H. unfold ascii_digit_value. rewrite H. reflexivity.
Defined.

Lemma due_tasks_rejects_invalid_calendar_date_witness :
  exists message,
    call_tool ascii_digit_value ascii_digit_value plain_repr sample_env
      (call_marvin_get_due_tasks february_30_raw)
    = (Returned (U "Error: Unexpected error occurred - ValueError: " ++ message),
       [get_call sample_env "/dueItems" (Some [(U "by", U "2024-02-30")])]).
Proof.
  apply (@due_tasks_rejects_invalid_calendar_date ascii_digit_value ascii_digit_value
           plain_repr ascii_digit_value_ascii ascii_digit_value_ascii
           sample_env february_30_raw JSON
           50%N 48%N 50%N 52%N 48%N 50%N 51%N 48%N
           (PRecords [sample_task; untitled_task])).
  - repeat constructor.
  - reflexivity.
  - split; reflexivity.
  - reflexivity.
  - intros (_ & _ & _ & H). vm_compute in H. apply H. reflexivity.
  - reflexivity.
  - reflexivity.
Defined.

(** ** The date of today *)

Lemma civil_from_days_inverse (z : Z) :
  let '(y, m, d) := civil_from_days z in
  days_from_civil y m d = z.
Proof.
  unfold civil_from_days, days_from_civil. cbv beta iota zeta.
  set (z' := z + 719468).
  set (era := z' / 146097).
  set (doe := z' - era * 146097).
  set (yoe := (doe - doe / 1460 + doe / 36524 - doe / 146096) / 365).
  set (doy := doe - (365 * yoe + yoe / 4 - yoe / 100)).
  set (mp := (5 * doy + 2) / 153).
  assert (Hdoe : 0 <= doe <= 146096) by (subst doe era; Z.div_mod_to_equations; lia).
  assert (Hyoe : 0 <= yoe <= 399 /\ 0 <= doy <= 365)
    by (subst doy yoe; Z.div_mod_to_equations; lia).
  assert (Hmp : 0 <= mp <= 11) by (subst mp; Z.div_mod_to_equations; lia).
  destruct (mp <? 10) eqn:E.
  - replace (mp + 3 <=? 2) with false by lia.
    replace (mp + 3 >? 2) with true by lia.
    replace (mp + 3 - 3) with mp by lia.
    replace ((yoe + era * 400) / 400) with era by (Z.div_mod_to_equations; lia).
    replace (yoe + era * 400 - era * 400) with yoe by lia.
    subst doy doe z'. lia.
  - replace (mp - 9 <=? 2) with true by lia.
    replace (mp - 9 >? 2) with false by lia.
    replace (mp - 9 + 9) with mp by lia.
    replace ((yoe + era * 400 + 1 - 1) / 400) with era by (Z.div_mod_to_equations; lia).
    replace (yoe + era * 400 + 1 - 1 - era * 400) with yoe by lia.
    subst doy doe z'. lia.
Qed.

Lemma civil_from_days_valid (z : Z) :
  let '(y, m, d) := civil_from_days z in
  1 <= m <= 12 /\ 1 <= d <= days_in_month y m.
Proof.
  unfold civil_from_days. cbv beta iota zeta.
  set (z' := z + 719468).
  set (era := z' / 146097).
  set (doe := z' - era * 146097).
  set (yoe := (doe - doe / 1460 + doe / 36524 - doe / 146096) / 365).
  set (doy := doe - (365 * yoe + yoe / 4 - yoe / 100)).
  set (mp := (5 * doy + 2) / 153).
  assert (Hdoe : 0 <= doe <= 146096) by (subst doe era; Z.div_mod_to_equations; lia).
  assert (Hyoe : 0 <= yoe <= 399 /\ 0 <= doy <= 365)
    by (subst doy yoe; Z.div_mod_to_equations; lia).
  assert (Hmp : 0 <= mp <= 11) by (subst mp; Z.div_mod_to_equations; lia).
  assert (Hd : 1 <= doy - (153 * mp + 2) / 5 + 1 <= 31)
    by (subst mp; Z.div_mod_to_equations; lia).
  split; [destruct (mp <? 10) eqn:E; lia|]. split; [lia|].
  unfold days_in_month, is_leap.
  destruct (mp <? 10) eqn:E.
  - replace (mp + 3 <=? 2) with false by lia.
    replace (mp + 3 =? 2) with false by lia.
    assert (mp = 0 \/ mp = 1 \/ mp = 2 \/ mp = 3 \/ mp = 4 \/ mp = 5 \/ mp = 6
            \/ mp = 7 \/ mp = 8 \/ mp = 9) as C by lia.
    destruct C as [C|[C|[C|[C|[C|[C|[C|[C|[C|C]]]]]]]]]; rewrite C in *;
      cbn; subst mp; Z.div_mod_to_equations; lia.
  - replace (mp - 9 <=? 2) with true by lia.
    assert (mp = 10 \/ mp = 11) as C by lia.
    destruct C as [C|C]; rewrite C in *; cbn -[Z.modulo Z.div].
    + subst mp; Z.div_mod_to_equations; lia.
    + assert (L : doy = 365 -> yoe mod 4 = 3 /\ (yoe mod 100 <> 99 \/ yoe = 399)).
      { subst doy yoe. Z.div_mod_to_equations. lia. }
      assert (D : doy - (153 * 11 + 2) / 5 + 1 <= 29) by (Z.div_mod_to_equations; lia).
      destruct ((((yoe + era * 400 + 1) mod 4 =? 0)
                 && negb ((yoe + era * 400 + 1) mod 100 =? 0))
                || ((yoe + era * 400 + 1) mod 400 =? 0)) eqn:Leap.
      * exact D.
      * assert (doy <> 365); [|Z.div_mod_to_equations; lia].
        intros Q. destruct (L Q) as [A B].
        apply orb_false_iff in Leap as [L1 L2]. apply andb_false_iff in L1.
        revert L1 L2 A B Hyoe. clear. intros.
        assert ((yoe + era * 400 + 1) mod 4 = 0) by (Z.div_mod_to_equations; lia).
        assert ((yoe + era * 400 + 1) mod 400 <> 0) by lia.
        destruct L1 as [L1|L1]; [lia|].
        apply negb_false_iff in L1.
        assert ((yoe + era * 400 + 1) mod 100 = 0) by lia.
        Z.div_mod_to_equations; lia.
Qed.

Lemma civil_from_days_year (z : Z) :
  days_from_civil 1000 1 1 <= z <= days_from_civil 9999 12 31 ->
  1000 <= fst (fst (civil_from_days z)) <= 9999.
Proof.
  intros H.
  pose proof (civil_from_days_inverse z) as I.
  pose proof (civil_from_days_valid z) as V.
  destruct (civil_from_days z) as [[y m] d]. cbn [fst].
  destruct V as [Vm Vd]. pose proof (days_in_month_bounds y m) as B.
  change (days_from_civil 1000 1 1) with (-354285) in H.
  change (days_from_civil 9999 12 31) with 2932896 in H.
  subst z. unfold days_from_civil in H. cbv beta iota zeta in H.
  destruct (m <=? 2) eqn:E1; destruct (m >? 2) eqn:E2; try lia;
    Z.div_mod_to_equations; lia.
Qed.

Lemma forallb_Z_range (f : Z -> bool) (lo n : Z) :
  forallb f (map (fun k => lo + Z.of_nat k) (seq 0 (Z.to_nat n))) = true ->
  forall z, lo <= z < lo + n -> f z = true.
Proof.
  intros H z Hz. rewrite forallb_forall in H. apply H.
  apply in_map_iff. exists (Z.to_nat (z - lo)). split; [lia|].
  apply in_seq. lia.
Qed.

Lemma four_digit_years (y : Z) : 1000 <= y <= 9999 -> four_digit_year y = true.
Proof.
  intros H. apply (@forallb_Z_range four_digit_year 1000 9000); [|lia].
  vm_compute. reflexivity.
Qed.

Lemma two_digit_fields (n : Z) : 1 <= n <= 31 -> two_digit_field n = true.
Proof.
  intros H. apply (@forallb_Z_range two_digit_field 1 31); [|lia].
  vm_compute. reflexivity.
Qed.

Lemma four_digit_year_spec (y : Z) :
  four_digit_year y = true ->
  exists a b c d,
    str_of_int y = [a; b; c; d]
    /\ Forall (fun c => in_range c 48 57 = true) [a; b; c; d]
    /\ spelled_year a b c d = y.
Proof.
  unfold four_digit_year.
  destruct (str_of_int y) as [|a [|b [|c [|d [|x r]]]]]; try discriminate.
  intros H. apply andb_prop in H as [H E]. apply andb_prop in H as [H Hd].
  apply andb_prop in H as [H Hc]. apply andb_prop in H as [Ha Hb].
  apply Z.eqb_eq in E.
  exists a, b, c, d. split; [reflexivity|]. split; [|exact E].
  repeat constructor; assumption.
Qed.

Lemma two_digit_field_spec (n : Z) :
  two_digit_field n = true ->
  exists a b,
    two_digits n = [a; b]
    /\ Forall (fun c => in_range c 48 57 = true) [a; b]
    /\ spelled_two a b = n.
Proof.
  unfold two_digit_field.
  destruct (two_digits n) as [|a [|b [|x r]]]; try discriminate.
  intros H. apply andb_prop in H as [H E]. apply andb_prop in H as [Ha Hb].
  apply Z.eqb_eq in E.
  exists a, b. split; [reflexivity|]. split; [|exact E].
  repeat constructor; assumption.
Qed.

Section Today.

Variable digit_value : char -> option Z.
Variable py_digit_value : char -> option Z.
Variable repr : str -> str.

(** Both digit tables have the ASCII digits, Python's with their
    values. *)
Hypothesis ascii_digits :
  forall c, in_range c 48 57 = true -> digit_value c = Some (ascii_value c).
Hypothesis py_ascii_digits :
  forall c, in_range c 48 57 = true -> py_digit_value c = Some (ascii_value c).

(** Called without a date, a listing asks for the local date of the
    clock.  While that date lies in the years 1000 to 9999 it has the
    shape that validation demands of a date, and the due-tasks listing
    parses it back to the local midnight that began the day: the default
    date never fails to parse, and days overdue are counted from the
    start of the local day. *)
Theorem default_date_is_local_today :
  forall (e : env) (format : ResponseFormat),
    let local := now_ms e + utc_offset e (now_ms e) in
    let date := strftime_ymd local in
    - 2 ^ 63 <= now_ms e / 1000 < 2 ^ 63 ->
    days_from_civil 1000 1 1 * MS_PER_DAY <= local <= Datetime.MAX ->
    snd (marvin_get_todays_tasks e (undated_input format))
    = [get_call e "/todayItems" (Some [(U "date", date)])]
    /\ snd (marvin_get_due_tasks py_digit_value repr e (undated_input format))
       = [get_call e "/dueItems" (Some [(U "by", date)])]
    /\ date_field_accepts digit_value date = true
    /\ strptime_ymd py_digit_value repr date = Ok (local / MS_PER_DAY * MS_PER_DAY).
Proof.
  intros e format local date Htime Hrange.
  assert (Htoday : today e = Ok date).
  { unfold today, local_datetime. fold local.
    destruct calendar_bounds as (L1 & L2 & M1 & M2 & D).
    change (days_from_civil 1000 1 1) with (-354285) in Hrange.
    rewrite M2, D in Hrange. rewrite L1, L2, M1, M2, D.
    replace ((local <? -67768040609740800000) || (67768036191676799999 <? local))
      with false by lia.
    replace ((-62135596800000 <=? local) && (local <=? 253402300799999))
      with true by lia.
    replace (-62135596800000 <=? local - 86400000) with true by lia.
    reflexivity. }
  assert (Hdays : days_from_civil 1000 1 1 <= local / MS_PER_DAY
                  <= days_from_civil 9999 12 31).
  { change (days_from_civil 1000 1 1) with (-354285) in *.
    change (days_from_civil 9999 12 31) with 2932896.
    change Datetime.MAX with 253402300799999 in Hrange.
    unfold MS_PER_DAY in *. Z.div_mod_to_equations. lia. }
  pose proof (@civil_from_days_year _ Hdays) as Hy.
  pose proof (civil_from_days_inverse (local / MS_PER_DAY)) as Hinv.
  pose proof (civil_from_days_valid (local / MS_PER_DAY)) as Hvalid.
  assert (Hdate : date = strftime_ymd local) by reflexivity.
  unfold strftime_ymd in Hdate.
  destruct (civil_from_days (local / MS_PER_DAY)) as [[y m] d]. cbn [fst] in Hy.
  destruct Hvalid as [Hm Hd].
  pose proof (days_in_month_bounds y m) as Hb.
  destruct (@four_digit_year_spec y (@four_digit_years y Hy))
    as (y1 & y2 & y3 & y4 & Sy & Fy & Ey).
  destruct (@two_digit_field_spec m (@two_digit_fields m ltac:(lia)))
    as (m1 & m2 & Sm & Fm & Em).
  destruct (@two_digit_field_spec d (@two_digit_fields d ltac:(lia)))
    as (d1 & d2 & Sd & Fd & Ed).
  rewrite Sy, Sm, Sd in Hdate. cbn [app] in Hdate.
  assert (F : Forall (fun c => in_range c 48 57 = true) [y1; y2; y3; y4; m1; m2; d1; d2]).
  { apply (Forall_app _ [y1; y2; y3; y4] [m1; m2; d1; d2]). split; [exact Fy|].
    apply (Forall_app _ [m1; m2] [d1; d2]). now split. }
  split; [|split; [|split]].
  - pose proof (todays_tasks_log e (undated_input format)) as L.
    cbn [undated_input GetTasksInput.date target_date_of] in L.
    rewrite Htoday in L. exact L.
  - pose proof (due_tasks_log py_digit_value repr e (undated_input format)) as L.
    cbn [undated_input GetTasksInput.date target_date_of] in L.
    rewrite Htoday in L. exact L.
  - pose proof (@ascii_date_validates digit_value ascii_digits "day"
                  y1 y2 y3 y4 m1 m2 d1 d2 F) as V.
    cbv zeta in V. unfold date_field_accepts. rewrite Hdate.
    match goal with
    | |- (let (_, _) := ?t in _) = true =>
        replace t with (@nil violation, Some (Some [y1; y2; y3; y4; minus; m1; m2; minus; d1; d2]))
          by (symmetry; exact V)
    end.
    reflexivity.
  - rewrite Hdate.
    destruct (@strptime_ymd_ascii py_digit_value repr py_ascii_digits
                y1 y2 y3 y4 m1 m2 d1 d2 F) as [Hok _].
    rewrite Ey, Em, Ed in Hok. rewrite <- Hinv.
    apply Hok. unfold calendar_date. lia.
Qed.

End Today.

Lemma default_date_is_local_today_witness :
  snd (marvin_get_todays_tasks sample_env (undated_input MARKDOWN))
  = [get_call sample_env "/todayItems" (Some [(U "date", U "2024-03-15")])]
  /\ snd (marvin_get_due_tasks ascii_digit_value plain_repr sample_env
            (undated_input MARKDOWN))
     = [get_call sample_env "/dueItems" (Some [(U "by", U "2024-03-15")])]
  /\ date_field_accepts ascii_digit_value (U "2024-03-15") = true
  /\ strptime_ymd ascii_digit_value plain_repr (U "2024-03-15") = Ok 1710460800000.
Proof.
  apply (@default_date_is_local_today ascii_digit_value ascii_digit_value plain_repr
           ascii_digit_value_ascii ascii_digit_value_ascii sample_env MARKDOWN).
  - vm_compute. split; [discriminate | reflexivity].
  - vm_compute. split; discriminate.
Defined.

(** ** The answer to add-task *)

Lemma add_task_answered (e : env) (params : AddTaskInput.t) (answer : payload) :
  remote e (post_call e "/addTask" (add_task_data params)) = Ok answer ->
  marvin_add_task e params
  = (match add_task_lines e answer with
     | Ok lines => join [nl] lines
     | Raise x => _handle_api_error x
     end,
     [post_call e "/addTask" (add_task_data params)]).
Proof.
  intros H. unfold marvin_add_task. rewrite try_except_post, H.
  unfold bindM, lift. now destruct (add_task_lines e answer).
Qed.

(** The confirmation of add-task is rendered from the answer of the
    remote API after the task was requested, and an answer it cannot
    render is reported as an error although the request was sent: an
    answer that is no object is an [AttributeError], and an object whose
    [day], or with no [day] whose [dueDate], is a non-empty string (a
    date as it was sent, not a timestamp) is the [TypeError] of dividing
    a string. *)
Theorem add_task_error_after_request :
  forall (e : env) (params : AddTaskInput.t) (answer : payload),
    let call := post_call e "/addTask" (add_task_data params) in
    remote e call = Ok answer ->
    (answer = PNull -> marvin_add_task e params = (ATTRIBUTE_ERROR_NONE, [call])) /\
    (forall l, answer = PRecords l ->
               marvin_add_task e params = (ATTRIBUTE_ERROR_LIST, [call])) /\
    (forall r s,
       answer = PRecord r -> s <> [] ->
       get r "day" = VStr s
       \/ (truthy (get r "day") = false /\ get r "dueDate" = VStr s) ->
       marvin_add_task e params = (TYPE_ERROR_STR_DIV, [call])).
Proof.
  intros e params answer call H.
  rewrite (@add_task_answered e params answer H). fold call.
  split; [|split].
  - intros ->. reflexivity.
  - intros l ->. reflexivity.
  - intros r s -> Hs Hr. f_equal.
    unfold add_task_lines. cbn [payload_record bind].
    destruct s as [|c s]; [contradiction|].
    destruct Hr as [Hday|[Hday Hdue]].
    + rewrite Hday. reflexivity.
    + rewrite Hday, Hdue. reflexivity.
Qed.

Lemma add_task_error_after_request_witness :
  marvin_add_task (utc_env (Ok (PRecord echoed_task))) trimmed_input
  = (TYPE_ERROR_STR_DIV,
     [post_call (utc_env (Ok (PRecord echoed_task))) "/addTask"
        (add_task_data trimmed_input)]).
Proof.
  apply (proj2 (proj2 (@add_task_error_after_request
                         (utc_env (Ok (PRecord echoed_task))) trimmed_input
                         (PRecord echoed_task) eq_refl))
           echoed_task (U "2024-03-20") eq_refl).
  - discriminate.
  - left. reflexivity.
Defined.

(** The confirmation of add-task shows what the remote API answered,
    never what was sent: two requests that are answered alike are
    confirmed with the same text, whatever their titles and fields. *)
Theorem add_task_text_from_answer :
  forall (e : env) (p q : AddTaskInput.t),
    remote e (post_call e "/addTask" (add_task_data p))
    = remote e (post_call e "/addTask" (add_task_data q)) ->
    fst (marvin_add_task e p) = fst (marvin_add_task e q).
Proof.
  intros e p q H. unfold marvin_add_task. rewrite !try_except_post, H.
  destruct (remote e (post_call e "/addTask" (add_task_data q))) as [answer|x];
    [|reflexivity].
  unfold bindM, lift. now destruct (add_task_lines e answer).
Qed.

Lemma add_task_text_from_answer_witness :
  fst (marvin_add_task (utc_env (Ok (PRecord echoed_task))) trimmed_input)
  = fst (marvin_add_task (utc_env (Ok (PRecord echoed_task))) title_only_input).
Proof.
  apply (@add_task_text_from_answer (utc_env (Ok (PRecord echoed_task)))).
  reflexivity.
Defined.

(** ** The hosted variant *)

Lemma smithery_handle_api_error_prefixed (e : exn) :
  starts_with (U "Error: ") (Smithery._handle_api_error e).
Proof.
  exists (skipn 7 (Smithery._handle_api_error e)).
  destruct e as [status body| | |name message]; try reflexivity.
  unfold Smithery._handle_api_error.
  repeat match goal with |- context [if ?b then _ else _] => destruct b end;
    reflexivity.
Qed.

(** The error normalizer of the hosted variant also starts every message
    with "Error: ", and its message differs from the one of the
    standalone server exactly for the HTTP status errors 401 and 403. *)
Theorem smithery_handle_api_error_differs_on_401_403 :
  forall x : exn,
    starts_with (U "Error: ") (Smithery._handle_api_error x) /\
    (Smithery._handle_api_error x <> _handle_api_error x
     <-> exists body, x = HTTPStatusError 401 body \/ x = HTTPStatusError 403 body).
Proof.
  intros x. split; [apply smithery_handle_api_error_prefixed|]. split.
  - intros H. destruct x as [status body| | |name message];
      try (exfalso; apply H; reflexivity).
    exists body. unfold Smithery._handle_api_error, _handle_api_error in H.
    destruct (status =? 401) eqn:E1; [left; f_equal; lia|].
    destruct (status =? 403) eqn:E2; [right; f_equal; lia|].
    exfalso. apply H. reflexivity.
  - intros [body [->| ->]] H; vm_compute in H; discriminate H.
Qed.

(** ** Records that a listing cannot render *)

Section Unrendered.

Variable digit_value : char -> option Z.
Variable repr : str -> str.

(** A listing is all or nothing.  When the first record of the answer
    has a non-empty string as its [dueDate] (a date as text instead of a
    timestamp), the listing of today's tasks and, for a date that
    parses, the listing of due tasks return the message of the
    [TypeError] of dividing a string and nothing of the other records,
    in markdown and in JSON alike. *)
Theorem listing_fails_on_due_date_string :
  forall (e : env) (params : GetTasksInput.t) (target_date s : str)
         (first : record) (rest : list record),
    target_date_of e (GetTasksInput.date params) = Ok target_date ->
    get first "dueDate" = VStr s ->
    s <> [] ->
    (let call := get_call e "/todayItems" (Some [(U "date", target_date)]) in
     remote e call = Ok (PRecords (first :: rest)) ->
     marvin_get_todays_tasks e params = (TYPE_ERROR_STR_DIV, [call])) /\
    (let call := get_call e "/dueItems" (Some [(U "by", target_date)]) in
     forall target_dt,
       strptime_ymd digit_value repr target_date = Ok target_dt ->
       remote e call = Ok (PRecords (first :: rest)) ->
       marvin_get_due_tasks digit_value repr e params = (TYPE_ERROR_STR_DIV, [call])).
Proof.
  intros e params target_date s first rest Hdate Hdue Hs.
  destruct s as [|c s]; [contradiction|]. clear Hs.
  assert (Hts : _format_timestamp e (get first "dueDate") NOT_SET
                = Raise (unsupported_operand "/" (VStr (c :: s)))).
  { rewrite Hdue. reflexivity. }
  assert (Hline : due_line e first = Raise (unsupported_operand "/" (VStr (c :: s)))).
  { unfold due_line. rewrite Hts, Hdue. reflexivity. }
  assert (Hjson : due_json e first = Raise (unsupported_operand "/" (VStr (c :: s)))).
  { unfold due_json. rewrite Hts, Hdue. reflexivity. }
  split.
  - intros call Hremote. unfold marvin_get_todays_tasks.
    rewrite try_except_bind_lift, Hdate, try_except_get.
    fold call. rewrite Hremote. cbn [payload_truthy negb].
    destruct (GetTasksInput.response_format params).
    + unfold bindM at 1, lift at 1, todays_tasks_markdown.
      cbn [payload_len payload_items bind for_each]. unfold todays_task_block.
      rewrite Hline. reflexivity.
    + unfold bindM at 1, lift at 1, todays_tasks_response.
      cbn [payload_len payload_items bind for_each]. unfold todays_task_json.
      rewrite Hjson. reflexivity.
  - intros call target_dt Hparse Hremote. unfold marvin_get_due_tasks.
    rewrite try_except_bind_lift, Hdate, try_except_get.
    fold call. rewrite Hremote. cbn [payload_truthy negb].
    unfold bindM at 1, lift at 1. rewrite Hparse.
    destruct (GetTasksInput.response_format params).
    + unfold bindM at 1, lift at 1, due_tasks_markdown.
      cbn [payload_len payload_items bind for_each]. unfold due_task_block.
      rewrite Hts. reflexivity.
    + unfold bindM at 1, lift at 1, due_tasks_response.
      cbn [payload_len payload_items bind for_each]. unfold due_task_json.
      rewrite Hjson. reflexivity.
Qed.

End Unrendered.

Lemma listing_fails_on_due_date_string_witness :
  marvin_get_todays_tasks dated_env (tasks_input "2024-03-15" JSON)
  = (TYPE_ERROR_STR_DIV,
     [get_call dated_env "/todayItems" (Some [(U "date", U "2024-03-15")])])
  /\ marvin_get_due_tasks ascii_digit_value plain_repr dated_env
       (tasks_input "2024-03-15" MARKDOWN)
     = (TYPE_ERROR_STR_DIV,
        [get_call dated_env "/dueItems" (Some [(U "by", U "2024-03-15")])]).
Proof.
  split.
  - apply (proj1 (@listing_fails_on_due_date_string ascii_digit_value plain_repr
                    dated_env (tasks_input "2024-03-15" JSON) (U "2024-03-15")
                    (U "2024-03-10") dated_task [sample_task]
                    eq_refl eq_refl ltac:(discriminate))).
    reflexivity.
  - apply (proj2 (@listing_fails_on_due_date_string ascii_digit_value plain_repr
                    dated_env (tasks_input "2024-03-15" MARKDOWN) (U "2024-03-15")
                    (U "2024-03-10") dated_task [sample_task]
                    eq_refl eq_refl ltac:(discriminate)) 1710460800000).
    + reflexivity.
    + reflexivity.
Defined.
